(** * refresh_sheet.py: Shopify orders to a spreadsheet tab

    A shallow embedding of [src/refresh_sheet.py] and the properties of it
    that the specification states.

    Conventions of the embedding.
    - A Python [str] is a Rocq [string].  Text outside ASCII appears as its
      UTF-8 bytes: [strip] and the regular expression's [\s] know the UTF-8
      encodings of every Unicode white-space character, while [lower], [\d]
      and the numeral readers of [int] and [float] act on ASCII letters and
      digits only, and a string is measured in bytes.
    - A decoded JSON document is a [value]; a Python [float] is a binary64
      number ([PrimFloat.float]); a Python [int] is a [Z].
    - A call that can raise returns a [result]; [try ... except Exception]
      is a [match] on it.
    - The network and the spreadsheet service are explicit: the fetcher and
      [main] thread a [world] that records every request sent and holds the
      spreadsheet's tabs. *)

From Stdlib Require Import ZArith List String Ascii Bool Lia Floats DecimalString
  Sorted.
Import ListNotations.

Local Open Scope list_scope.
Local Open Scope string_scope.
Local Open Scope Z_scope.

(** ** Exceptions and results *)

Inductive exn : Type :=
| AttributeError
| TypeError
| ValueError
| KeyError
| IndexError
| OverflowError
| ConnectionError
| RuntimeError (msg : string).

Inductive result (A : Type) : Type :=
| Ok (a : A)
| Raise (e : exn).

Arguments Ok {A} a.
Arguments Raise {A} e.

Definition bind {A B : Type} (m : result A) (k : A -> result B) : result B :=
  match m with
  | Ok a => k a
  | Raise e => Raise e
  end.

Notation "x <- m ;; k" := (bind m (fun x => k))
  (at level 61, m at next level, right associativity).

Fixpoint mapM {A B : Type} (f : A -> result B) (l : list A) : result (list B) :=
  match l with
  | [] => Ok []
  | x :: r => y <- f x ;; ys <- mapM f r ;; Ok (y :: ys)
  end.

(** ** Strings *)

Module Str.

Definition chr (n : nat) : string := String (ascii_of_nat n) EmptyString.

Definition code (c : ascii) : nat := nat_of_ascii c.

Definition between (lo hi n : nat) : bool := Nat.leb lo n && Nat.leb n hi.

Definition is_digit (c : ascii) : bool := between 48 57 (code c).

Definition is_upper (c : ascii) : bool := between 65 90 (code c).

Definition lower_char (c : ascii) : ascii :=
  if is_upper c then ascii_of_nat (code c + 32) else c.

(** [str.lower] on ASCII letters. *)
Fixpoint lower (s : string) : string :=
  match s with
  | EmptyString => EmptyString
  | String c r => String (lower_char c) (lower r)
  end.

Definition rev (s : string) : string :=
  string_of_list_ascii (List.rev (list_ascii_of_string s)).

(** White space as [str.isspace] has it: U+0009..000D, U+001C..0020,
    U+0085, U+00A0, U+1680, U+2000..200A, U+2028, U+2029, U+202F, U+205F
    and U+3000, the last ones by their UTF-8 bytes. *)
Definition is_space1 (a : ascii) : bool :=
  let n := code a in between 9 13 n || between 28 32 n.

Definition is_space2 (a b : ascii) : bool :=
  Nat.eqb (code a) 194 && (Nat.eqb (code b) 133 || Nat.eqb (code b) 160).

Definition is_space3 (a b c : ascii) : bool :=
  let x := code a in
  let y := code b in
  let z := code c in
  (Nat.eqb x 225 && Nat.eqb y 154 && Nat.eqb z 128)
  || (Nat.eqb x 226 && Nat.eqb y 128
      && (between 128 138 z || Nat.eqb z 168 || Nat.eqb z 169 || Nat.eqb z 175))
  || (Nat.eqb x 226 && Nat.eqb y 129 && Nat.eqb z 159)
  || (Nat.eqb x 227 && Nat.eqb y 128 && Nat.eqb z 128).

(** Drops leading white space; with [back] the bytes of a character are
    met last byte first, as in a reversed string. *)
Fixpoint lstrip_gen (back : bool) (s : string) : string :=
  match s with
  | EmptyString => EmptyString
  | String a s1 =>
      if is_space1 a then lstrip_gen back s1
      else
        match s1 with
        | EmptyString => s
        | String b s2 =>
            if (if back then is_space2 b a else is_space2 a b)
            then lstrip_gen back s2
            else
              match s2 with
              | EmptyString => s
              | String c s3 =>
                  if (if back then is_space3 c b a else is_space3 a b c)
                  then lstrip_gen back s3
                  else s
              end
        end
  end.

Definition lstrip (s : string) : string := lstrip_gen false s.

Definition rstrip (s : string) : string := rev (lstrip_gen true (rev s)).

(** [str.strip()]. *)
Definition strip (s : string) : string := rstrip (lstrip s).

(** [s.replace(old, new)] for a non-empty [old]: [skip] counts the
    characters of a match still to be passed over. *)
Fixpoint replace_from (old new : string) (skip : nat) (s : string) : string :=
  match s with
  | EmptyString => EmptyString
  | String c r =>
      match skip with
      | S k => replace_from old new k r
      | O =>
          if prefix old s
          then new ++ replace_from old new (Nat.pred (String.length old)) r
          else String c (replace_from old new O r)
      end
  end.

(** [s.replace(old, new)]; an empty [old] matches between any two
    characters and at both ends. *)
Definition replace (old new s : string) : string :=
  match old with
  | EmptyString =>
      new ++ String.concat new (List.map (fun c => String c EmptyString)
                                 (list_ascii_of_string s))
          ++ (match s with EmptyString => EmptyString | _ => new end)
  | _ => replace_from old new O s
  end.

(** [s.find(sub)]: the first index of [sub], or [-1]. *)
Fixpoint find_from (sub s : string) (i : Z) : Z :=
  if prefix sub s then i
  else
    match s with
    | EmptyString => -1
    | String _ r => find_from sub r (i + 1)
    end.

Definition find (sub s : string) : Z := find_from sub s 0.

(** [sub in s]. *)
Fixpoint contains (sub s : string) : bool :=
  prefix sub s
  || match s with
     | EmptyString => false
     | String _ r => contains sub r
     end.

(** [s.split(sep)] for a one-character separator. *)
Fixpoint split (sep : ascii) (s : string) : list string :=
  match s with
  | EmptyString => [EmptyString]
  | String c r =>
      match split sep r with
      | h :: t => if Ascii.eqb c sep then EmptyString :: h :: t else String c h :: t
      | [] => [String c EmptyString]
      end
  end.

Definition clamp (len i : Z) : Z :=
  if i <? 0 then Z.max 0 (i + len) else Z.min i len.

(** [s[i:j]] with Python's treatment of negative and oversized bounds. *)
Definition slice (s : string) (i j : Z) : string :=
  let len := Z.of_nat (String.length s) in
  let a := clamp len i in
  let b := clamp len j in
  substring (Z.to_nat a) (Z.to_nat (b - a)) s.

(** [s[:n]]. *)
Definition take (n : nat) (s : string) : string := substring 0 n s.

Fixpoint all_digits (s : string) : bool :=
  match s with
  | EmptyString => true
  | String c r => is_digit c && all_digits r
  end.

Definition digit_val (c : ascii) : Z := Z.of_nat (code c) - 48.

Fixpoint digits_acc (acc : Z) (s : string) : Z :=
  match s with
  | EmptyString => acc
  | String c r => digits_acc (10 * acc + digit_val c) r
  end.

(** The number a string of decimal digits writes. *)
Definition digits_to_Z (s : string) : Z := digits_acc 0 s.

(** The longest prefix of digits, and what follows it. *)
Fixpoint span_digits (s : string) : string * string :=
  match s with
  | EmptyString => (EmptyString, EmptyString)
  | String c r =>
      if is_digit c
      then let '(d, t) := span_digits r in (String c d, t)
      else (EmptyString, s)
  end.

(** [str(z)] for an [int]. *)
Definition of_Z (z : Z) : string := NilZero.string_of_int (Z.to_int z).

(** [z] in at least [w] digits, zero-filled on the left ([%02d], [%04d]). *)
Definition zfill (w : nat) (z : Z) : string :=
  let d := of_Z z in
  let fix zeros (n : nat) : string :=
    match n with
    | O => EmptyString
    | S k => String "0" (zeros k)
    end in
  zeros (w - String.length d)%nat ++ d.

Definition hex_digit (n : nat) : ascii :=
  if Nat.ltb n 10 then ascii_of_nat (48 + n) else ascii_of_nat (87 + n).

(** Number of occurrences of a character. *)
Fixpoint count (c : ascii) (s : string) : nat :=
  match s with
  | EmptyString => O
  | String a r => ((if Ascii.eqb a c then 1 else 0) + count c r)%nat
  end.

End Str.

(** ** Python values and the built-ins the script calls *)

(** What [r.json()] returns: [None], [bool], [int], [float], [str], [list]
    and [dict] with string keys (a dictionary keeps its items in insertion
    order; a lookup takes the first item of that key). *)
#[warnings="-register-all"]
Inductive value : Type :=
| VNone
| VBool (b : bool)
| VInt (z : Z)
| VFloat (f : float)
| VStr (s : string)
| VList (l : list value)
| VDict (d : list (string * value)).

Module Py.

(** *** Floats *)

(** The binary64 number nearest to [m * 10 ^ e] (ties to even), with the
    sign [neg]; what the correctly rounded [float()] gives a decimal
    numeral.  Overflow gives an infinity, underflow a zero. *)
Definition decimal_to_float (neg : bool) (m : Z) (e : Z) : float :=
  match m with
  | Z.pos p =>
      if 0 <=? e
      then SF2Prim (binary_normalize 53 1024
                      ((if neg then Z.neg p else Z.pos p) * 10 ^ e) 0 false)
      else
        match 10 ^ (- e) with
        | Z.pos d => SF2Prim (SFdiv 53 1024 (S754_finite neg p 0)
                                (S754_finite false d 0))
        | _ => SF2Prim (S754_zero neg)
        end
  | _ => SF2Prim (S754_zero neg)
  end.

Definition take_sign (s : string) : bool * string :=
  match s with
  | String "-" r => (true, r)
  | String "+" r => (false, r)
  | _ => (false, s)
  end.

(** Underscores of a numeral: allowed only between two digits.  [prev] is
    the character before [s]. *)
Fixpoint drop_underscores (prev : ascii) (s : string) : option string :=
  match s with
  | EmptyString => if Ascii.eqb prev "_" then None else Some EmptyString
  | String c r =>
      if Ascii.eqb c "_"
      then if Str.is_digit prev then drop_underscores c r else None
      else if Ascii.eqb prev "_" && negb (Str.is_digit c) then None
           else option_map (String c) (drop_underscores c r)
  end.

(** The exponent part of a decimal numeral, which must end the string. *)
Definition parse_exponent (s : string) : option Z :=
  match s with
  | EmptyString => Some 0
  | String c r =>
      if Ascii.eqb c "e" || Ascii.eqb c "E"
      then
        let '(neg, r1) := take_sign r in
        let '(ds, r2) := Str.span_digits r1 in
        match ds, r2 with
        | String _ _, EmptyString =>
            Some (if neg then - Str.digits_to_Z ds else Str.digits_to_Z ds)
        | _, _ => None
        end
      else None
  end.

(** [digits [. digits] [e [sign] digits]] with a digit before or after the
    point: the digits read as one integer, and the power of ten. *)
Definition parse_decimal (s : string) : option (Z * Z) :=
  let '(ip, r) := Str.span_digits s in
  let '(fp, r') :=
    match r with
    | String "." r1 => Str.span_digits r1
    | _ => (EmptyString, r)
    end in
  match ip ++ fp with
  | EmptyString => None
  | _ =>
      match parse_exponent r' with
      | Some e => Some (Str.digits_to_Z (ip ++ fp),
                        e - Z.of_nat (String.length fp))
      | None => None
      end
  end.

(** A numeral without its white space and underscores. *)
Definition parse_float_literal (s : string) : option float :=
  let '(neg, r) := take_sign s in
  let w := Str.lower r in
  if String.eqb w "inf" || String.eqb w "infinity"
  then Some (if neg then neg_infinity else infinity)
  else if String.eqb w "nan" then Some nan
  else
    match parse_decimal r with
    | Some (m, e) => Some (decimal_to_float neg m e)
    | None => None
    end.

(** [float(s)] for a [str]. *)
Definition float_of_string (s : string) : result float :=
  match drop_underscores "000" s with
  | None => Raise ValueError
  | Some s1 =>
      match parse_float_literal (Str.strip s1) with
      | Some f => Ok f
      | None => Raise ValueError
      end
  end.

(** The most digits [int()] converts ([sys.int_max_str_digits], 4300 unless
    the interpreter is told otherwise). *)
Definition int_max_str_digits : nat := 4300.

(** [int(s)] for a [str]: an optional sign and decimal digits, no more of
    them than [int_max_str_digits] (the sign, the underscores and the white
    space around do not count). *)
Definition int_of_string (s : string) : result Z :=
  match drop_underscores "000" s with
  | None => Raise ValueError
  | Some s1 =>
      let '(neg, r) := take_sign (Str.strip s1) in
      match r with
      | EmptyString => Raise ValueError
      | _ =>
          if Str.all_digits r && Nat.leb (String.length r) int_max_str_digits
          then Ok (if neg then - Str.digits_to_Z r else Str.digits_to_Z r)
          else Raise ValueError
      end
  end.

(** *** Exact numeric comparison across [bool], [int] and [float] *)

Inductive num : Type :=
| NumNaN
| NumInf (neg : bool)
| NumFin (m e : Z).   (* m * 2 ^ e *)

Definition num_of_float (f : float) : num :=
  match Prim2SF f with
  | S754_zero _ => NumFin 0 0
  | S754_infinity s => NumInf s
  | S754_nan => NumNaN
  | S754_finite s m e => NumFin (if s then Z.neg m else Z.pos m) e
  end.

Definition num_of (v : value) : option num :=
  match v with
  | VBool b => Some (NumFin (if b then 1 else 0) 0)
  | VInt z => Some (NumFin z 0)
  | VFloat f => Some (num_of_float f)
  | _ => None
  end.

(** [None] when a NaN makes the two unordered. *)
Definition num_compare (a b : num) : option comparison :=
  match a, b with
  | NumNaN, _ | _, NumNaN => None
  | NumInf s, NumInf t =>
      Some (if Bool.eqb s t then Eq else if s then Lt else Gt)
  | NumInf s, NumFin _ _ => Some (if s then Lt else Gt)
  | NumFin _ _, NumInf t => Some (if t then Gt else Lt)
  | NumFin ma ea, NumFin mb eb =>
      let e0 := Z.min ea eb in
      Some (Z.compare (ma * 2 ^ (ea - e0)) (mb * 2 ^ (eb - e0)))
  end.

(** [int(f)] for a [float]: truncation towards zero. *)
Definition int_of_float (f : float) : result Z :=
  match num_of_float f with
  | NumNaN => Raise ValueError
  | NumInf _ => Raise OverflowError
  | NumFin m e => Ok (if 0 <=? e then m * 2 ^ e else Z.quot m (2 ^ (- e)))
  end.

(** [int(v)]. *)
Definition int (v : value) : result Z :=
  match v with
  | VBool b => Ok (if b then 1 else 0)
  | VInt z => Ok z
  | VFloat f => int_of_float f
  | VStr s => int_of_string s
  | VNone | VList _ | VDict _ => Raise TypeError
  end.

(** *** Truth, equality, order *)

(** [bool(v)]. *)
Definition truthy (v : value) : bool :=
  match v with
  | VNone => false
  | VBool b => b
  | VInt z => negb (z =? 0)
  | VFloat f => negb (PrimFloat.eqb f 0%float)
  | VStr s => negb (String.eqb s EmptyString)
  | VList l => match l with [] => false | _ => true end
  | VDict d => match d with [] => false | _ => true end
  end.

(** [a or b]. *)
Definition or (a b : value) : value := if truthy a then a else b.

Definition lookup (d : list (string * value)) (k : string) : option value :=
  option_map snd (List.find (fun kv => String.eqb (fst kv) k) d).

(** [a == b]. *)
Fixpoint eq (a b : value) {struct a} : bool :=
  match a, b with
  | VNone, VNone => true
  | VStr s, VStr t => String.eqb s t
  | VList l, VList m =>
      (fix eq_list (l m : list value) {struct l} : bool :=
         match l, m with
         | [], [] => true
         | x :: l', y :: m' => eq x y && eq_list l' m'
         | _, _ => false
         end) l m
  | VDict d, VDict d' =>
      Nat.eqb (List.length d) (List.length d')
      && (fix eq_items (d : list (string * value)) : bool :=
            match d with
            | [] => true
            | (k, x) :: r =>
                match lookup d' k with
                | Some y => eq x y && eq_items r
                | None => false
                end
            end) d
  | _, _ =>
      match num_of a, num_of b with
      | Some x, Some y =>
          match num_compare x y with
          | Some Eq => true
          | _ => false
          end
      | _, _ => false
      end
  end.

(** [a > b]; raises [TypeError] where Python does not order the types. *)
Fixpoint gt (a b : value) {struct a} : result bool :=
  match a, b with
  | VStr s, VStr t => Ok (String.ltb t s)
  | VList l, VList m =>
      (fix gt_list (l m : list value) {struct l} : result bool :=
         match l, m with
         | [], _ => Ok false
         | _ :: _, [] => Ok true
         | x :: l', y :: m' => if eq x y then gt_list l' m' else gt x y
         end) l m
  | _, _ =>
      match num_of a, num_of b with
      | Some x, Some y =>
          Ok (match num_compare x y with
              | Some Gt => true
              | _ => false
              end)
      | _, _ => Raise TypeError
      end
  end.

(** [max(l)] for a non-empty [l]: the first of the greatest. *)
Fixpoint max_from (best : value) (l : list value) : result value :=
  match l with
  | [] => Ok best
  | x :: r => b <- gt x best ;; max_from (if b then x else best) r
  end.

Definition max (l : list value) : result value :=
  match l with
  | [] => Raise ValueError
  | x :: r => max_from x r
  end.

(** Lists and dictionaries cannot be members of a [set]. *)
Definition hashable (v : value) : bool :=
  match v with
  | VList _ | VDict _ => false
  | _ => true
  end.

Fixpoint dedup (l : list value) : list value :=
  match l with
  | [] => []
  | x :: r => x :: List.filter (fun y => negb (eq y x)) (dedup r)
  end.

(** [len(set(l))]. *)
Definition len_set (l : list value) : result Z :=
  if List.forallb hashable l
  then Ok (Z.of_nat (List.length (dedup l)))
  else Raise TypeError.

(** [for x in v]: the items a loop over [v] sees. *)
Definition iter (v : value) : result (list value) :=
  match v with
  | VList l => Ok l
  | VDict d => Ok (List.map (fun kv => VStr (fst kv)) d)
  | VStr s => Ok (List.map (fun c => VStr (String c EmptyString))
                    (list_ascii_of_string s))
  | VNone | VBool _ | VInt _ | VFloat _ => Raise TypeError
  end.

(** [d.get(k, default)] for a [dict]. *)
Definition field (d : list (string * value)) (k : string) (default : value)
  : value :=
  match lookup d k with
  | Some x => x
  | None => default
  end.

(** [v.get(k, default)]: only a [dict] has the method. *)
Definition get (v : value) (k : string) (default : value) : result value :=
  match v with
  | VDict d => Ok (field d k default)
  | _ => Raise AttributeError
  end.

(** [v[0]]. *)
Definition first_item (v : value) : result value :=
  match v with
  | VList (x :: _) => Ok x
  | VStr (String c _) => Ok (VStr (String c EmptyString))
  | VList [] | VStr EmptyString => Raise IndexError
  | VDict _ => Raise KeyError
  | VNone | VBool _ | VInt _ | VFloat _ => Raise TypeError
  end.

Fixpoint strings_of (l : list value) : option (list string) :=
  match l with
  | [] => Some []
  | VStr s :: r => option_map (cons s) (strings_of r)
  | _ :: _ => None
  end.

Fixpoint insert_sorted (s : string) (l : list string) : list string :=
  match l with
  | [] => [s]
  | x :: r => if String.leb s x then s :: l else x :: insert_sorted s r
  end.

(** [sorted(l)] for strings. *)
Definition sorted (l : list string) : list string :=
  List.fold_right insert_sorted [] l.

(** [", ".join(sorted(set(l)))]: [set] refuses a list or a dictionary,
    [sorted] refuses to order a string and a number, and [join] refuses
    anything but strings, each with a [TypeError]. *)
Definition join_sorted_set (l : list value) : result string :=
  match strings_of l with
  | Some ss => Ok (String.concat ", " (sorted (List.nodup string_dec ss)))
  | None => Raise TypeError
  end.

(** *** [str] and [repr] *)

(** [n / d] rounded to the nearest integer, ties to even; [d > 0]. *)
Definition div_half_even (n d : Z) : Z :=
  let q := n / d in
  let r := n mod d in
  if 2 * r <? d then q
  else if d <? 2 * r then q + 1
  else if Z.even q then q else q + 1.

(** [10 ^ k <= num / den]. *)
Definition ge_pow10 (num den k : Z) : bool :=
  if 0 <=? k then 10 ^ k * den <=? num else den <=? num * 10 ^ (- k).

(** The greatest [k' >= k] within [fuel] steps with [10 ^ k' <= num / den]. *)
Fixpoint decimal_exponent (fuel : nat) (num den k : Z) : Z :=
  match fuel with
  | O => k
  | S f =>
      if ge_pow10 num den (k + 1)
      then decimal_exponent f num den (k + 1)
      else k
  end.

(** The [p]-digit decimals next to [num / den], the nearer first, each with
    its decimal exponent ([d.ddd * 10 ^ k]). *)
Definition digit_candidates (num den k : Z) (p : Z) : list (Z * Z) :=
  let s := p - 1 - k in
  let n := num * 10 ^ Z.max s 0 in
  let d := den * 10 ^ Z.max (- s) 0 in
  let lo := n / d in
  let fix_top (c : Z) := if c =? 10 ^ p then (10 ^ (p - 1), k + 1) else (c, k) in
  if n mod d =? 0 then [fix_top lo]
  else if div_half_even n d =? lo
       then [fix_top lo; fix_top (lo + 1)]
       else [fix_top (lo + 1); fix_top lo].

(** The shortest digits that read back as [f] (a positive finite float
    [num / den]), trying one to seventeen of them. *)
Fixpoint shortest_digits (fuel : nat) (f : float) (num den k : Z) (p : Z)
  : Z * Z :=
  let reads_back (c : Z * Z) :=
    PrimFloat.eqb (decimal_to_float false (fst c) (snd c - p + 1)) f in
  match List.find reads_back (digit_candidates num den k p) with
  | Some c => c
  | None =>
      match fuel with
      | O => (div_half_even (num * 10 ^ Z.max (p - 1 - k) 0)
                (den * 10 ^ Z.max (k - p + 1) 0), k)
      | S n => shortest_digits n f num den k (p + 1)
      end
  end.

Fixpoint zeros (n : nat) : string :=
  match n with
  | O => EmptyString
  | S k => String "0" (zeros k)
  end.

Definition strip_trailing_zeros (s : string) : string :=
  let fix go (l : list ascii) : list ascii :=
    match l with
    | c :: r => if Ascii.eqb c "0" then go r else l
    | [] => []
    end in
  match string_of_list_ascii (List.rev (go (List.rev (list_ascii_of_string s)))) with
  | EmptyString => "0"
  | t => t
  end.

(** Digits [ds] standing for [d.ddd * 10 ^ k], written as [repr] writes a
    float: scientific when [k < -4] or [k >= 16]. *)
Definition format_repr (ds : string) (k : Z) : string :=
  let n := String.length ds in
  if (k <? -4) || (16 <=? k)
  then
    substring 0 1 ds
    ++ (if Nat.ltb 1 n then "." ++ substring 1 (n - 1) ds else EmptyString)
    ++ "e" ++ (if k <? 0 then "-" else "+") ++ Str.zfill 2 (Z.abs k)
  else if 0 <=? k
  then
    let i := Z.to_nat (k + 1) in
    substring 0 i ds ++ zeros (i - n)
    ++ "." ++ (if Nat.ltb i n then substring i (n - i) ds else "0")
  else "0." ++ zeros (Z.to_nat (- k - 1)) ++ ds.

(** [repr(f)] for a [float]. *)
Definition repr_float (f : float) : string :=
  match Prim2SF f with
  | S754_nan => "nan"
  | S754_infinity s => if s then "-inf" else "inf"
  | S754_zero s => if s then "-0.0" else "0.0"
  | S754_finite s m e =>
      let num := if 0 <=? e then Z.pos m * 2 ^ e else Z.pos m in
      let den := if 0 <=? e then 1 else 2 ^ (- e) in
      let k := decimal_exponent 800 num den (-400) in
      let '(d, k') := shortest_digits 17 (abs f) num den k 1 in
      (if s then "-" else EmptyString)
      ++ format_repr (strip_trailing_zeros (Str.of_Z d)) k'
  end.

Definition dquote : ascii := ascii_of_nat 34.

Definition repr_char (q c : ascii) : string :=
  let n := Str.code c in
  if Ascii.eqb c "\" then "\\"
  else if Ascii.eqb c q then String "\" (String q EmptyString)
  else if Nat.eqb n 10 then "\n"
  else if Nat.eqb n 13 then "\r"
  else if Nat.eqb n 9 then "\t"
  else if Nat.ltb n 32 || Nat.eqb n 127
  then "\x" ++ String (Str.hex_digit (n / 16)) (String (Str.hex_digit (n mod 16)) EmptyString)
  else String c EmptyString.

(** [repr(s)] for a [str]; characters outside ASCII are kept as they are. *)
Definition repr_string (s : string) : string :=
  let q := if Str.contains "'" s && negb (Str.contains (String dquote EmptyString) s)
           then dquote else "'"%char in
  String q (String.concat EmptyString (List.map (repr_char q) (list_ascii_of_string s)))
  ++ String q EmptyString.

(** [repr(v)]. *)
Fixpoint repr (v : value) : string :=
  match v with
  | VNone => "None"
  | VBool b => if b then "True" else "False"
  | VInt z => Str.of_Z z
  | VFloat f => repr_float f
  | VStr s => repr_string s
  | VList l => "[" ++ String.concat ", " (List.map repr l) ++ "]"
  | VDict d =>
      "{" ++ String.concat ", "
               (List.map (fun kv => let '(k, x) := kv in
                                    repr_string k ++ ": " ++ repr x) d)
          ++ "}"
  end.

(** [str(v)]. *)
Definition str (v : value) : string :=
  match v with
  | VStr s => s
  | _ => repr v
  end.


End Py.


(** ** [datetime] *)

Record datetime : Type := mkdatetime {
  year : Z;
  month : Z;
  day : Z;
  hour : Z;
  minute : Z;
  second : Z;
  microsecond : Z;
  utcoffset : option Z   (* microseconds east of UTC; [None] when naive *)
}.

Module DateTime.

Definition is_leap (y : Z) : bool :=
  (y mod 4 =? 0) && (negb (y mod 100 =? 0) || (y mod 400 =? 0)).

Definition days_in_month (y m : Z) : Z :=
  if m =? 2 then (if is_leap y then 29 else 28)
  else if (m =? 4) || (m =? 6) || (m =? 9) || (m =? 11) then 30
  else 31.

Definition in_range (lo hi x : Z) : bool := (lo <=? x) && (x <=? hi).

(** The fields [datetime(...)] accepts; any other raises [ValueError]. *)
Definition valid (y mo d h mi s us : Z) : bool :=
  in_range 1 9999 y && in_range 1 12 mo && in_range 1 (days_in_month y mo) d
  && in_range 0 23 h && in_range 0 59 mi && in_range 0 59 s
  && in_range 0 999999 us.

(** [datetime(y, mo, d, h, mi, s, us, tzinfo)]. *)
Definition make (y mo d h mi s us : Z) (tz : option Z) : result datetime :=
  if valid y mo d h mi s us
  then Ok (mkdatetime y mo d h mi s us tz)
  else Raise ValueError.

(** Exactly [n] digits at the head of [s], and the rest of [s]. *)
Definition take_digits (n : nat) (s : string) : option (Z * string) :=
  let d := substring 0 n s in
  if Nat.eqb (String.length d) n && Str.all_digits d
  then Some (Str.digits_to_Z d, substring n (String.length s - n) s)
  else None.

(** [HH[:MM[:SS[.fff[fff]]]]], the whole of [s]: hour, minute, second and
    microsecond. *)
Definition parse_hh_mm_ss_ff (s : string) : option (Z * Z * Z * Z) :=
  match take_digits 2 s with
  | None => None
  | Some (h, EmptyString) => Some (h, 0, 0, 0)
  | Some (h, String ":" r1) =>
      match take_digits 2 r1 with
      | None => None
      | Some (mi, EmptyString) => Some (h, mi, 0, 0)
      | Some (mi, String ":" r2) =>
          match take_digits 2 r2 with
          | None => None
          | Some (sec, EmptyString) => Some (h, mi, sec, 0)
          | Some (sec, String "." r3) =>
              if Str.all_digits r3
              then
                if Nat.eqb (String.length r3) 3
                then Some (h, mi, sec, 1000 * Str.digits_to_Z r3)
                else if Nat.eqb (String.length r3) 6
                     then Some (h, mi, sec, Str.digits_to_Z r3)
                     else None
              else None
          | Some _ => None
          end
      | Some _ => None
      end
  | Some _ => None
  end.

(** Splits a time at its first ['+'] or ['-']: the clock, and the sign and
    text of the offset when there is one. *)
Fixpoint split_offset (s : string) : string * option (bool * string) :=
  match s with
  | EmptyString => (EmptyString, None)
  | String c r =>
      if Ascii.eqb c "+" then (EmptyString, Some (false, r))
      else if Ascii.eqb c "-" then (EmptyString, Some (true, r))
      else let '(t, o) := split_offset r in (String c t, o)
  end.

Definition day_us : Z := 86400000000.

(** [+HH:MM], [+HH:MM:SS] or [+HH:MM:SS.ffffff], strictly within a day. *)
Definition parse_offset (neg : bool) (s : string) : option Z :=
  let n := String.length s in
  if Nat.eqb n 5 || Nat.eqb n 8 || Nat.eqb n 15
  then
    match parse_hh_mm_ss_ff s with
    | Some (h, mi, sec, us) =>
        let off := (h * 3600 + mi * 60 + sec) * 1000000 + us in
        if off <? day_us then Some (if neg then - off else off) else None
    | None => None
    end
  else None.

(** The text after the date's separator, which is one character whatever
    its UTF-8 length. *)
Definition after_separator (c : ascii) (r : string) : string :=
  let n := Str.code c in
  let k := if Nat.ltb n 192 then O
           else if Nat.ltb n 224 then 1%nat
           else if Nat.ltb n 240 then 2%nat else 3%nat in
  substring k (String.length r - k) r.

(** [datetime.fromisoformat(s)], for the format [datetime.isoformat()]
    writes and every Python 3 release since 3.7 reads:
    [YYYY-MM-DD[*HH[:MM[:SS[.fff[fff]]]][+HH:MM[:SS[.ffffff]]]]].
    Releases from 3.11 on read other ISO-8601 forms as well (a date without
    dashes, a week date, a fraction of any length, an offset without the
    colon); every release wants four ASCII digits of a year first.  The
    properties below that rest on a refusal are about text that lacks
    them, which no release reads. *)
Definition fromisoformat (s : string) : result datetime :=
  match take_digits 4 s with
  | Some (y, String "-" r1) =>
      match take_digits 2 r1 with
      | Some (mo, String "-" r2) =>
          match take_digits 2 r2 with
          | Some (d, EmptyString) => make y mo d 0 0 0 0 None
          | Some (d, String sep r3) =>
              let '(clock, off) := split_offset (after_separator sep r3) in
              match parse_hh_mm_ss_ff clock with
              | Some (h, mi, sec, us) =>
                  match off with
                  | None => make y mo d h mi sec us None
                  | Some (neg, o) =>
                      match parse_offset neg o with
                      | Some tz => make y mo d h mi sec us (Some tz)
                      | None => Raise ValueError
                      end
                  end
              | None => Raise ValueError
              end
          | None => Raise ValueError
          end
      | _ => Raise ValueError
      end
  | _ => Raise ValueError
  end.

(** [dt.strftime("%d/%m/%Y %H:%M:%S")].  The C library writes [%Y]: glibc
    does not pad it, so the year has four digits from the year 1000 on and
    fewer before. *)
Definition strftime (dt : datetime) : string :=
  Str.zfill 2 (day dt) ++ "/" ++ Str.zfill 2 (month dt) ++ "/"
  ++ Str.of_Z (year dt) ++ " "
  ++ Str.zfill 2 (hour dt) ++ ":" ++ Str.zfill 2 (minute dt) ++ ":"
  ++ Str.zfill 2 (second dt).

End DateTime.

(** ** The pattern of [parse_trace_dt]

    [(\d{2})-(\d{2})-(\d{4}).*?(\d{1,2}):(\d{2}):(\d{2})(?:\s*([ap])\s*\.?\s*m\s*\.?)?]
    under [re.search], on ASCII text: there [\d] is an ASCII digit (on
    other text it is any Unicode decimal digit, which this matcher does not
    know). *)

Record groups : Type := mkgroups {
  g_dd : string;
  g_mm : string;
  g_yyyy : string;
  g_hh : string;
  g_mi : string;
  g_ss : string;
  g_ap : option ascii
}.

Module TraceRe.

(** [\d{n}] at the head of [s]. *)
Definition digits (n : nat) (s : string) : option (string * string) :=
  let d := substring 0 n s in
  if Nat.eqb (String.length d) n && Str.all_digits d
  then Some (d, substring n (String.length s - n) s)
  else None.

Definition lit (c : ascii) (s : string) : option string :=
  match s with
  | String a r => if Ascii.eqb a c then Some r else None
  | EmptyString => None
  end.

(** [(\d{2})-(\d{2})-(\d{4})] at the head of [s]. *)
Definition date (s : string) : option (string * string * string * string) :=
  match digits 2 s with
  | Some (dd, r) =>
      match lit "-" r with
      | Some r =>
          match digits 2 r with
          | Some (mm, r) =>
              match lit "-" r with
              | Some r =>
                  match digits 4 r with
                  | Some (yyyy, r) => Some (dd, mm, yyyy, r)
                  | None => None
                  end
              | None => None
              end
          | None => None
          end
      | None => None
      end
  | None => None
  end.

(** [(\d{n}):(\d{2}):(\d{2})] at the head of [s]. *)
Definition clock_with (n : nat) (s : string)
  : option (string * string * string * string) :=
  match digits n s with
  | Some (hh, r) =>
      match lit ":" r with
      | Some r =>
          match digits 2 r with
          | Some (mi, r) =>
              match lit ":" r with
              | Some r =>
                  match digits 2 r with
                  | Some (ss, r) => Some (hh, mi, ss, r)
                  | None => None
                  end
              | None => None
              end
          | None => None
          end
      | None => None
      end
  | None => None
  end.

(** [(\d{1,2}):(\d{2}):(\d{2})]: the greedy hour takes two digits when the
    rest then matches, one otherwise. *)
Definition clock (s : string) : option (string * string * string * string) :=
  match clock_with 2 s with
  | Some r => Some r
  | None => clock_with 1 s
  end.

(** [.*?] and then the clock: the first clock on the line, ['.'] matching
    anything but a line feed. *)
Fixpoint skip_to_clock (s : string)
  : option (string * string * string * string) :=
  match clock s with
  | Some r => Some r
  | None =>
      match s with
      | EmptyString => None
      | String c r => if Nat.eqb (Str.code c) 10 then None else skip_to_clock r
      end
  end.

(** [(?:\s*([ap])\s*\.?\s*m\s*\.?)?]: the letter the group captured. *)
Definition ampm (s : string) : option ascii :=
  match Str.lstrip s with
  | String c r =>
      if Ascii.eqb c "a" || Ascii.eqb c "p"
      then
        let r1 := Str.lstrip r in
        let r2 := match r1 with String "." t => t | _ => r1 end in
        match Str.lstrip r2 with
        | String "m" _ => Some c
        | _ => None
        end
      else None
  | EmptyString => None
  end.

(** The pattern matched at the head of [s]. *)
Definition match_here (s : string) : option groups :=
  match date s with
  | Some (dd, mm, yyyy, r) =>
      match skip_to_clock r with
      | Some (hh, mi, ss, r') => Some (mkgroups dd mm yyyy hh mi ss (ampm r'))
      | None => None
      end
  | None => None
  end.

(** [re.search]: the match at the leftmost position that has one. *)
Fixpoint search (s : string) : option groups :=
  match match_here s with
  | Some g => Some g
  | None =>
      match s with
      | EmptyString => None
      | String _ r => search r
      end
  end.

End TraceRe.


(** ** The script's helpers *)

(** [format_datetime]: the [try] covers [date_string.replace], which only a
    [str] has, and the parse. *)
Definition format_datetime (date_string : value) : string :=
  if negb (Py.truthy date_string) then EmptyString
  else
    match
      match date_string with
      | VStr s => DateTime.fromisoformat (Str.replace "Z" "+00:00" s)
      | _ => Raise AttributeError
      end
    with
    | Ok dt => DateTime.strftime dt
    | Raise _ => Py.str date_string
    end.

(** [to_float]. *)
Definition to_float (x : value) : float :=
  match
    match x with
    | VNone => Ok 0%float
    | _ =>
        if Py.eq x (VStr EmptyString) then Ok 0%float
        else Py.float_of_string (Str.replace "," "." (Py.str x))
    end
  with
  | Ok f => f
  | Raise _ => 0%float
  end.

(** U+00A0 and U+202F in UTF-8. *)
Definition nbsp : string := Str.chr 194 ++ Str.chr 160.
Definition nnbsp : string := Str.chr 226 ++ Str.chr 128 ++ Str.chr 175.

(** Lines 60 to 64: the hour on the 24-hour clock. *)
Definition hour24 (ap : option ascii) (hh : Z) : Z :=
  let hh_i := hh in
  let hh_i :=
    match ap with
    | Some "p"%char => if negb (hh_i =? 12) then hh_i + 12 else hh_i
    | _ => hh_i
    end in
  match ap with
  | Some "a"%char => if hh_i =? 12 then 0 else hh_i
  | _ => hh_i
  end.

(** [parse_trace_dt].  The groups are digits the pattern matched, so each
    [int(...)] of lines 60 and 67 is [Str.digits_to_Z]. *)
Definition parse_trace_dt (value : value) : string :=
  if negb (Py.truthy value) then EmptyString
  else
    let t := Str.strip (Py.str value) in
    match DateTime.fromisoformat (Str.replace "Z" "+00:00" t) with
    | Ok dt => DateTime.strftime dt
    | Raise _ =>
        let s := Str.strip (Str.replace nnbsp " "
                              (Str.replace nbsp " " (Str.lower t))) in
        match TraceRe.search s with
        | None => t
        | Some g =>
            let hh_i := hour24 (g_ap g) (Str.digits_to_Z (g_hh g)) in
            match
              DateTime.make (Str.digits_to_Z (g_yyyy g))
                (Str.digits_to_Z (g_mm g)) (Str.digits_to_Z (g_dd g))
                hh_i (Str.digits_to_Z (g_mi g)) (Str.digits_to_Z (g_ss g))
                0 None
            with
            | Ok dt => DateTime.strftime dt
            | Raise _ => t
            end
        end
    end.

(** The dictionary [trace] of [extract_traceability]: its five keys are
    fixed, so it is a record. *)
Record trace : Type := mktrace {
  Embalado : string;
  Transferido_a_tienda : string;
  Listo_para_retiro : string;
  Retirado : string;
  Entregado_a_transportista : string
}.

Definition empty_trace : trace :=
  mktrace EmptyString EmptyString EmptyString EmptyString EmptyString.

(** The five events. *)
Inductive event : Type :=
| EvEmbalado
| EvTransferido
| EvListo
| EvRetirado
| EvTransportista.

Definition trace_get (e : event) (tr : trace) : string :=
  match e with
  | EvEmbalado => Embalado tr
  | EvTransferido => Transferido_a_tienda tr
  | EvListo => Listo_para_retiro tr
  | EvRetirado => Retirado tr
  | EvTransportista => Entregado_a_transportista tr
  end.

(** [trace[key] = v]. *)
Definition trace_set (e : event) (v : string) (tr : trace) : trace :=
  match e with
  | EvEmbalado =>
      mktrace v (Transferido_a_tienda tr) (Listo_para_retiro tr) (Retirado tr)
        (Entregado_a_transportista tr)
  | EvTransferido =>
      mktrace (Embalado tr) v (Listo_para_retiro tr) (Retirado tr)
        (Entregado_a_transportista tr)
  | EvListo =>
      mktrace (Embalado tr) (Transferido_a_tienda tr) v (Retirado tr)
        (Entregado_a_transportista tr)
  | EvRetirado =>
      mktrace (Embalado tr) (Transferido_a_tienda tr) (Listo_para_retiro tr) v
        (Entregado_a_transportista tr)
  | EvTransportista =>
      mktrace (Embalado tr) (Transferido_a_tienda tr) (Listo_para_retiro tr)
        (Retirado tr) v
  end.

(** Lines 87 to 98: the event a stripped, lowered attribute name selects. *)
Definition event_of_name (name : string) : option event :=
  if String.eqb name "embalado" then Some EvEmbalado
  else if String.eqb name "transferido_a_tienda" then Some EvTransferido
  else if String.eqb name "listo_para_retiro" then Some EvListo
  else if String.eqb name "retirado_por_cliente" then Some EvRetirado
  else
    let name_norm := Str.replace " " "_" (Str.replace "-" "_" name) in
    if Str.contains "transportista" name_norm
       || Str.contains "carrier" name_norm
       || Str.contains "entregado_a_transportista" name_norm
    then Some EvTransportista
    else None.

(** The body of the loop of [extract_traceability]. *)
Definition trace_step (tr : trace) (attr : value) : result trace :=
  n <- Py.get attr "name" (VStr EmptyString) ;;
  let name := Str.lower (Str.strip (Py.str n)) in
  v <- Py.get attr "value" (VStr EmptyString) ;;
  let value := Str.strip (Py.str v) in
  match event_of_name name with
  | Some e => Ok (trace_set e (parse_trace_dt (VStr value)) tr)
  | None => Ok tr
  end.

Fixpoint trace_loop (tr : trace) (attrs : list value) : result trace :=
  match attrs with
  | [] => Ok tr
  | attr :: r => tr' <- trace_step tr attr ;; trace_loop tr' r
  end.

(** [extract_traceability]. *)
Definition extract_traceability (note_attrs : value) : result trace :=
  if negb (Py.truthy note_attrs) then Ok empty_trace
  else attrs <- Py.iter note_attrs ;; trace_loop empty_trace attrs.

(** [[x.get(key) for x in items if x.get(key)]]. *)
Fixpoint truthy_fields (key : string) (items : list value)
  : result (list value) :=
  match items with
  | [] => Ok []
  | x :: r =>
      c <- Py.get x key VNone ;;
      rest <- truthy_fields key r ;;
      Ok (if Py.truthy c then c :: rest else rest)
  end.

(** [get_fulfilled_at]. *)
Definition get_fulfilled_at (order : value) : result value :=
  f <- Py.get order "fulfillments" VNone ;;
  let fulf := Py.or f (VList []) in
  if negb (Py.truthy fulf) then Ok VNone
  else
    items <- Py.iter fulf ;;
    dates <- truthy_fields "created_at" items ;;
    match dates with
    | [] => Ok VNone
    | _ => Py.max dates
    end.

(** [rel="next"]. *)
Definition rel_next : string :=
  "rel=" ++ String Py.dquote "next" ++ String Py.dquote EmptyString.

(** [_get_next_page_url]. *)
Definition _get_next_page_url (link_header : option string) : option string :=
  match link_header with
  | None | Some EmptyString => None
  | Some h =>
      let parts := List.map Str.strip (Str.split "," h) in
      match List.find (Str.contains rel_next) parts with
      | Some p =>
          let start := Str.find "<" p + 1 in
          let end_ := Str.find ">" p in
          Some (Str.slice p start end_)
      | None => None
      end
  end.


(** ** The Row Mapper *)

(** A row: the dictionary [orders_to_rows] appends, items in the order the
    literal writes them. *)
Definition row : Type := list (string * value).

Definition columns : list string :=
  ["Order_ID"; "KC"; "Created_at"; "Updated_at"; "Financial_Status";
   "Paid at"; "Fulfillment Status"; "Fulfilled at"; "Subtotal"; "Shipping";
   "Total"; "Discount_Amount"; "Metodo_envio"; "SKUs"; "Total_Productos";
   "Billing City"; "Billing Province"; "Shipping City";
   "Lineitem requires shipping"; "Lineitem fulfillment status"; "Embalado";
   "Transferido_a_tienda"; "Listo_para_retiro"; "Retirado";
   "Entregado_a_transportista"; "Cancelled at"; "Tags"].

(** [sum(int(li.get("quantity", 0) or 0) for li in line_items)]. *)
Fixpoint sum_quantities (line_items : list value) : result Z :=
  match line_items with
  | [] => Ok 0
  | li :: r =>
      q <- Py.get li "quantity" (VInt 0) ;;
      n <- Py.int (Py.or q (VInt 0)) ;;
      rest <- sum_quantities r ;;
      Ok (n + rest)
  end.

(** [any(bool(li.get("requires_shipping")) for li in line_items)]. *)
Fixpoint any_requires_shipping (line_items : list value) : result bool :=
  match line_items with
  | [] => Ok false
  | li :: r =>
      v <- Py.get li "requires_shipping" VNone ;;
      if Py.truthy v then Ok true else any_requires_shipping r
  end.

(** The body of the loop of [orders_to_rows], lines 149 to 195. *)
Definition order_to_row (o : value) : result row :=
  match o with
  | VDict d =>
      let billing := Py.or (Py.field d "billing_address" VNone) (VDict []) in
      let shipping := Py.or (Py.field d "shipping_address" VNone) (VDict []) in
      line_items <-
        Py.iter (Py.or (Py.field d "line_items" (VList [])) (VList [])) ;;
      skus <- truthy_fields "sku" line_items ;;
      total_skus_unicos <- Py.len_set skus ;;
      total_productos <- sum_quantities line_items ;;
      lineitem_statuses <- truthy_fields "fulfillment_status" line_items ;;
      lineitem_fulfillment <-
        match lineitem_statuses with
        | [] => Ok EmptyString
        | _ => Py.join_sorted_set lineitem_statuses
        end ;;
      requires_shipping <- any_requires_shipping line_items ;;
      let shipping_lines :=
        Py.or (Py.field d "shipping_lines" (VList [])) (VList []) in
      shipping_method <-
        (if Py.truthy shipping_lines
         then first <- Py.first_item shipping_lines ;; Py.get first "title" VNone
         else Ok (VStr EmptyString)) ;;
      trace <-
        extract_traceability
          (Py.or (Py.field d "note_attributes" VNone) (VList [])) ;;
      fulfilled_at <- get_fulfilled_at o ;;
      shop_money <-
        Py.get (Py.or (Py.field d "total_shipping_price_set" VNone) (VDict []))
          "shop_money" (VDict []) ;;
      amount <- Py.get shop_money "amount" VNone ;;
      billing_city <- Py.get billing "city" VNone ;;
      billing_province <- Py.get billing "province" VNone ;;
      shipping_city <- Py.get shipping "city" VNone ;;
      Ok [("Order_ID", Py.field d "id" VNone);
          ("KC", Py.field d "name" VNone);
          ("Created_at", VStr (format_datetime (Py.field d "created_at" VNone)));
          ("Updated_at", VStr (format_datetime (Py.field d "updated_at" VNone)));
          ("Financial_Status", Py.field d "financial_status" VNone);
          ("Paid at", VStr (format_datetime (Py.field d "processed_at" VNone)));
          ("Fulfillment Status", Py.field d "fulfillment_status" VNone);
          ("Fulfilled at", VStr (format_datetime fulfilled_at));
          ("Subtotal", VFloat (to_float (Py.field d "subtotal_price" VNone)));
          ("Shipping", VFloat (to_float amount));
          ("Total", VFloat (to_float (Py.field d "total_price" VNone)));
          ("Discount_Amount",
            VFloat (to_float (Py.field d "total_discounts" VNone)));
          ("Metodo_envio", shipping_method);
          ("SKUs", VInt total_skus_unicos);
          ("Total_Productos", VInt total_productos);
          ("Billing City", billing_city);
          ("Billing Province", billing_province);
          ("Shipping City", shipping_city);
          ("Lineitem requires shipping", VBool requires_shipping);
          ("Lineitem fulfillment status", VStr lineitem_fulfillment);
          ("Embalado", VStr (Embalado trace));
          ("Transferido_a_tienda", VStr (Transferido_a_tienda trace));
          ("Listo_para_retiro", VStr (Listo_para_retiro trace));
          ("Retirado", VStr (Retirado trace));
          ("Entregado_a_transportista", VStr (Entregado_a_transportista trace));
          ("Cancelled at", VStr (format_datetime (Py.field d "cancelled_at" VNone)));
          ("Tags", Py.field d "tags" VNone)]
  | _ => Raise AttributeError
  end.

(** [orders_to_rows]. *)
Definition orders_to_rows (orders : list value) : result (list row) :=
  mapM order_to_row orders.

(** [row[column]]. *)
Definition cell (r : row) (column : string) : option value := Py.lookup r column.


(** ** The network, the spreadsheet and [main] *)

(** What the script reads of a [requests] response. *)
Record response : Type := mkresponse {
  status_code : Z;
  text : string;
  json : result value;           (* [r.json()] *)
  link : option string           (* [r.headers.get("Link")] *)
}.

Record request : Type := mkrequest {
  req_url : string;
  req_headers : list (string * string);
  req_params : option (list (string * value))
}.

(** A worksheet's cells, row by row. *)
Definition cells : Type := list (list string).

(** The world a run acts on: the requests sent so far, oldest first, the
    worksheets of the spreadsheet by title, and the lines printed. *)
Record world : Type := mkworld {
  sent : list request;
  tabs : list (string * cells);
  stdout : list string
}.

Definition send (q : request) (w : world) : world :=
  mkworld (sent w ++ [q])%list (tabs w) (stdout w).

Definition set_tabs (t : list (string * cells)) (w : world) : world :=
  mkworld (sent w) t (stdout w).

Definition print (line : string) (w : world) : world :=
  mkworld (sent w) (tabs w) (stdout w ++ [line])%list.

Fixpoint set_tab (title : string) (c : cells) (t : list (string * cells))
  : list (string * cells) :=
  match t with
  | [] => []
  | (n, old) :: r =>
      if String.eqb n title then (n, c) :: r else (n, old) :: set_tab title c r
  end.

Definition has_tab (title : string) (t : list (string * cells)) : bool :=
  List.existsb (fun p => String.eqb (fst p) title) t.

(** The error of line 132. *)
Definition shopify_error (r : response) : exn :=
  RuntimeError ("Shopify " ++ Str.of_Z (status_code r) ++ ": "
                ++ Str.take 900 (text r)).

Section Pipeline.

(** The configuration read from the environment (lines 10 to 19), the
    cutoff [main] computes from the clock, and the collaborators: the
    order source answers a request given the requests it has seen;
    [dataframe_values] is pandas' part of [main] and [write_df_to_sheet]
    (the frame of the rows, the numeric pass over the four monetary
    columns, [fillna] and [astype(str)]: the header and the rows as text);
    [connect_gsheets] is the authorisation. *)
Variable SHOP_DOMAIN SHOP_TOKEN API_VERSION SHEET_ID TAB_NAME : string.
Variable DAYS_BACK : Z.
Variable created_at_min : string.
Variable server : list request -> request -> result response.
Variable dataframe_values : list row -> cells.
Variable connect_gsheets : result unit.

Definition BASE_URL : string :=
  "https://" ++ SHOP_DOMAIN ++ "/admin/api/" ++ API_VERSION.

Definition HEADERS : list (string * string) :=
  [("X-Shopify-Access-Token", SHOP_TOKEN)].

(** The loop of [fetch_all_orders], run for at most [fuel] requests; the
    outcome is [None] while the loop has not finished. *)
Fixpoint fetch_loop (fuel : nat) (url : string)
  (params : option (list (string * value))) (orders : list value) (w : world)
  : world * option (result (list value)) :=
  match fuel with
  | O => (w, None)
  | S n =>
      let q := mkrequest url HEADERS params in
      let w1 := send q w in
      match server (sent w) q with
      | Raise e => (w1, Some (Raise e))
      | Ok r =>
          if negb (status_code r =? 200)
          then (w1, Some (Raise (shopify_error r)))
          else
            match
              data <- json r ;;
              page <- Py.get data "orders" (VList []) ;;
              Py.iter page
            with
            | Raise e => (w1, Some (Raise e))
            | Ok page =>
                let orders := (orders ++ page)%list in
                match _get_next_page_url (link r) with
                | None | Some EmptyString => (w1, Some (Ok orders))
                | Some next_url => fetch_loop n next_url None orders w1
                end
            end
      end
  end.

(** [fetch_all_orders]. *)
Definition fetch_all_orders (fuel : nat) (status : string) (limit : Z)
  (created_at_min : option string) (w : world)
  : world * option (result (list value)) :=
  let url := BASE_URL ++ "/orders.json" in
  let params := [("limit", VInt limit); ("status", VStr status)] in
  let params :=
    match created_at_min with
    | None | Some EmptyString => params
    | Some c => (params ++ [("created_at_min", VStr c)])%list
    end in
  fetch_loop fuel url (Some params) [] w.

(** [write_df_to_sheet]: the worksheet is looked up, added when missing,
    cleared, and given the values. *)
Definition write_df_to_sheet (sheet_id tab_name : string) (values : cells)
  (w : world) : world :=
  let t := tabs w in
  let t := if has_tab tab_name t then t else (t ++ [(tab_name, [])])%list in
  let t := set_tab tab_name [] t in
  let t := set_tab tab_name values t in
  set_tabs t w.

(** [main]. *)
Definition main (fuel : nat) (w : world) : world * option (result unit) :=
  match fetch_all_orders fuel "any" 250 (Some created_at_min) w with
  | (w1, None) => (w1, None)
  | (w1, Some (Raise e)) => (w1, Some (Raise e))
  | (w1, Some (Ok orders)) =>
      match orders_to_rows orders with
      | Raise e => (w1, Some (Raise e))
      | Ok rows =>
          let values := dataframe_values rows in
          match connect_gsheets with
          | Raise e => (w1, Some (Raise e))
          | Ok _ =>
              let w2 := write_df_to_sheet SHEET_ID TAB_NAME values w1 in
              (print ("OK: " ++ Str.of_Z (Z.of_nat (List.length rows))
                      ++ " filas escritas en '" ++ TAB_NAME ++ "' (últimos "
                      ++ Str.of_Z DAYS_BACK ++ " días).") w2,
               Some (Ok tt))
          end
      end
  end.

End Pipeline.


(** ** Notions of the specification *)

(** The attribute name each event is recorded under, as lines 87 to 97
    compare it: already lowered. *)
Definition attr_name (e : event) : string :=
  match e with
  | EvEmbalado => "embalado"
  | EvTransferido => "transferido_a_tienda"
  | EvListo => "listo_para_retiro"
  | EvRetirado => "retirado_por_cliente"
  | EvTransportista => "entregado_a_transportista"
  end.

(** ['-'] and [' '] read as ['_'] (line 96). *)
Definition normalize_separators (name : string) : string :=
  Str.replace " " "_" (Str.replace "-" "_" name).

(** [name] is [canonical] up to letter case and to ['-'] or [' '] standing
    for ['_']. *)
Definition same_name (name canonical : string) : bool :=
  String.eqb (normalize_separators (Str.lower name))
    (normalize_separators (Str.lower canonical)).

(** An ISO-8601 timestamp in UTC with the ['Z'] suffix. *)
Definition iso_utc (y mo d h mi s : Z) : string :=
  Str.zfill 4 y ++ "-" ++ Str.zfill 2 mo ++ "-" ++ Str.zfill 2 d ++ "T"
  ++ Str.zfill 2 h ++ ":" ++ Str.zfill 2 mi ++ ":" ++ Str.zfill 2 s ++ "Z".

(** [DD/MM/YYYY HH:MM:SS]. *)
Definition dd_mm_yyyy (y mo d h mi s : Z) : string :=
  Str.zfill 2 d ++ "/" ++ Str.zfill 2 mo ++ "/" ++ Str.zfill 4 y ++ " "
  ++ Str.zfill 2 h ++ ":" ++ Str.zfill 2 mi ++ ":" ++ Str.zfill 2 s.

(** The order with no field at all, and the row it maps to. *)
Definition empty_order : value := VDict [].

Definition empty_order_row : row :=
  [("Order_ID", VNone); ("KC", VNone); ("Created_at", VStr EmptyString);
   ("Updated_at", VStr EmptyString); ("Financial_Status", VNone);
   ("Paid at", VStr EmptyString); ("Fulfillment Status", VNone);
   ("Fulfilled at", VStr EmptyString); ("Subtotal", VFloat 0%float);
   ("Shipping", VFloat 0%float); ("Total", VFloat 0%float);
   ("Discount_Amount", VFloat 0%float); ("Metodo_envio", VStr EmptyString);
   ("SKUs", VInt 0); ("Total_Productos", VInt 0); ("Billing City", VNone);
   ("Billing Province", VNone); ("Shipping City", VNone);
   ("Lineitem requires shipping", VBool false);
   ("Lineitem fulfillment status", VStr EmptyString);
   ("Embalado", VStr EmptyString); ("Transferido_a_tienda", VStr EmptyString);
   ("Listo_para_retiro", VStr EmptyString); ("Retirado", VStr EmptyString);
   ("Entregado_a_transportista", VStr EmptyString);
   ("Cancelled at", VStr EmptyString); ("Tags", VNone)].

(** An order whose only line item has a quantity that is not a numeral. *)
Definition order_bad_quantity : value :=
  VDict [("id", VInt 1001);
         ("line_items", VList [VDict [("sku", VStr "A"); ("quantity", VStr "abc")]])].


(** ** Definitions the proofs use *)

(** [zfill w v] has [w] characters, all digits, and they write [v]. *)
Definition zfill_ok (w : nat) (v : Z) : bool :=
  Str.all_digits (Str.zfill w v)
  && Nat.eqb (String.length (Str.zfill w v)) w
  && (Str.digits_to_Z (Str.zfill w v) =? v).

(** A fulfillment record whose creation stamp is the string [c], or that
    has none ([created_at] missing or [None]). *)
Definition stamped (f : value) (c : option string) : Prop :=
  exists fd : list (string * value),
    f = VDict fd
    /\ Py.field fd "created_at" VNone
       = match c with
         | Some s => VStr s
         | None => VNone
         end.

(** The stamps that are there. *)
Definition present (cs : list (option string)) : list string :=
  List.flat_map (fun c => match c with Some s => [s] | None => [] end) cs.

Definition nonempty (c : string) : bool := negb (String.eqb c EmptyString).

(** The greatest of [best] and the strings of [l], the earliest on a tie. *)
Definition greater (best x : string) : string :=
  if String.ltb best x then x else best.

(** The dictionary literal of lines 167 to 195, given what the lines
    before it computed. *)
Definition assemble (d : list (string * value)) (total_skus_unicos total_productos : Z)
  (lineitem_fulfillment : string) (requires_shipping : bool)
  (shipping_method : value) (tr : trace) (fulfilled_at amount : value)
  (billing_city billing_province shipping_city : value) : row :=
  [("Order_ID", Py.field d "id" VNone);
   ("KC", Py.field d "name" VNone);
   ("Created_at", VStr (format_datetime (Py.field d "created_at" VNone)));
   ("Updated_at", VStr (format_datetime (Py.field d "updated_at" VNone)));
   ("Financial_Status", Py.field d "financial_status" VNone);
   ("Paid at", VStr (format_datetime (Py.field d "processed_at" VNone)));
   ("Fulfillment Status", Py.field d "fulfillment_status" VNone);
   ("Fulfilled at", VStr (format_datetime fulfilled_at));
   ("Subtotal", VFloat (to_float (Py.field d "subtotal_price" VNone)));
   ("Shipping", VFloat (to_float amount));
   ("Total", VFloat (to_float (Py.field d "total_price" VNone)));
   ("Discount_Amount", VFloat (to_float (Py.field d "total_discounts" VNone)));
   ("Metodo_envio", shipping_method);
   ("SKUs", VInt total_skus_unicos);
   ("Total_Productos", VInt total_productos);
   ("Billing City", billing_city);
   ("Billing Province", billing_province);
   ("Shipping City", shipping_city);
   ("Lineitem requires shipping", VBool requires_shipping);
   ("Lineitem fulfillment status", VStr lineitem_fulfillment);
   ("Embalado", VStr (Embalado tr));
   ("Transferido_a_tienda", VStr (Transferido_a_tienda tr));
   ("Listo_para_retiro", VStr (Listo_para_retiro tr));
   ("Retirado", VStr (Retirado tr));
   ("Entregado_a_transportista", VStr (Entregado_a_transportista tr));
   ("Cancelled at", VStr (format_datetime (Py.field d "cancelled_at" VNone)));
   ("Tags", Py.field d "tags" VNone)].

(** What a successful run of the loop body has computed. *)
Inductive mapped (d : list (string * value)) (r : row) : Prop :=
| mapped_intro
    (line_items skus statuses : list value)
    (total_skus_unicos total_productos : Z)
    (lineitem_fulfillment : string) (requires_shipping : bool)
    (shipping_method : value) (tr : trace)
    (fulfilled_at shop_money amount : value)
    (billing_city billing_province shipping_city : value) :
    Py.iter (Py.or (Py.field d "line_items" (VList [])) (VList [])) = Ok line_items ->
    truthy_fields "sku" line_items = Ok skus ->
    Py.len_set skus = Ok total_skus_unicos ->
    sum_quantities line_items = Ok total_productos ->
    truthy_fields "fulfillment_status" line_items = Ok statuses ->
    match statuses with
    | [] => Ok EmptyString
    | _ => Py.join_sorted_set statuses
    end = Ok lineitem_fulfillment ->
    any_requires_shipping line_items = Ok requires_shipping ->
    (if Py.truthy (Py.or (Py.field d "shipping_lines" (VList [])) (VList []))
     then first <- Py.first_item
                     (Py.or (Py.field d "shipping_lines" (VList [])) (VList [])) ;;
          Py.get first "title" VNone
     else Ok (VStr EmptyString)) = Ok shipping_method ->
    extract_traceability (Py.or (Py.field d "note_attributes" VNone) (VList []))
    = Ok tr ->
    get_fulfilled_at (VDict d) = Ok fulfilled_at ->
    Py.get (Py.or (Py.field d "total_shipping_price_set" VNone) (VDict []))
      "shop_money" (VDict []) = Ok shop_money ->
    Py.get shop_money "amount" VNone = Ok amount ->
    Py.get (Py.or (Py.field d "billing_address" VNone) (VDict [])) "city" VNone
    = Ok billing_city ->
    Py.get (Py.or (Py.field d "billing_address" VNone) (VDict [])) "province" VNone
    = Ok billing_province ->
    Py.get (Py.or (Py.field d "shipping_address" VNone) (VDict [])) "city" VNone
    = Ok shipping_city ->
    r = assemble d total_skus_unicos total_productos lineitem_fulfillment
          requires_shipping shipping_method tr fulfilled_at amount billing_city
          billing_province shipping_city ->
    mapped d r.

Ltac bind_inv H :=
  match type of H with
  | bind ?m _ = Ok _ =>
      let x := fresh "x" in
      let E := fresh "E" in
      destruct m as [x|] eqn:E; [cbn [bind] in H | discriminate H]
  end.

Definition order_two_fulfillments : list (string * value) :=
  [("id", VInt 7);
   ("fulfillments",
     VList [VDict [("id", VInt 1); ("created_at", VStr "2024-01-05T10:00:00Z")];
            VDict [("status", VStr "pending")];
            VDict [("created_at", VStr "2024-01-07T08:30:00Z");
                   ("status", VStr "success")]])].

(** Columns that copy a field of the order, with the field's key. *)
Definition passthrough : list (string * string) :=
  [("Order_ID", "id"); ("KC", "name"); ("Financial_Status", "financial_status");
   ("Fulfillment Status", "fulfillment_status"); ("Tags", "tags")].

(** Columns that format a timestamp of the order. *)
Definition timestamps : list (string * string) :=
  [("Created_at", "created_at"); ("Updated_at", "updated_at");
   ("Paid at", "processed_at"); ("Cancelled at", "cancelled_at")].

(** Columns that coerce an amount of the order. *)
Definition monetary : list (string * string) :=
  [("Subtotal", "subtotal_price"); ("Total", "total_price");
   ("Discount_Amount", "total_discounts")].

Definition trace_columns : list string :=
  ["Embalado"; "Transferido_a_tienda"; "Listo_para_retiro"; "Retirado";
   "Entregado_a_transportista"].

(** What the row [r] of the order [d] holds for each source field that [d]
    lacks. *)
Definition absent_defaults (d : list (string * value)) (r : row) : Prop :=
  (forall col key, In (col, key) passthrough ->
     Py.lookup d key = None -> cell r col = Some VNone)
  /\ (forall col key, In (col, key) timestamps ->
        Py.lookup d key = None -> cell r col = Some (VStr EmptyString))
  /\ (forall col key, In (col, key) monetary ->
        Py.lookup d key = None -> cell r col = Some (VFloat 0%float))
  /\ (Py.lookup d "total_shipping_price_set" = None ->
      cell r "Shipping" = Some (VFloat 0%float))
  /\ (Py.lookup d "fulfillments" = None ->
      cell r "Fulfilled at" = Some (VStr EmptyString))
  /\ (Py.lookup d "line_items" = None ->
      cell r "SKUs" = Some (VInt 0)
      /\ cell r "Total_Productos" = Some (VInt 0)
      /\ cell r "Lineitem requires shipping" = Some (VBool false)
      /\ cell r "Lineitem fulfillment status" = Some (VStr EmptyString))
  /\ (Py.lookup d "shipping_lines" = None ->
      cell r "Metodo_envio" = Some (VStr EmptyString))
  /\ (Py.lookup d "note_attributes" = None ->
      Forall (fun col => cell r col = Some (VStr EmptyString)) trace_columns)
  /\ (Py.lookup d "billing_address" = None ->
      cell r "Billing City" = Some VNone
      /\ cell r "Billing Province" = Some VNone)
  /\ (Py.lookup d "shipping_address" = None ->
      cell r "Shipping City" = Some VNone).

Ltac in_cases H :=
  repeat (destruct H as [H | H]; [injection H as <- <- | ]); try destruct H.

Definition order_sparse : value :=
  VDict [("id", VInt 42); ("name", VStr "#1042"); ("total_price", VStr "19,99");
         ("line_items", VList [VDict [("sku", VStr "A"); ("quantity", VInt 2)]])].

(** A source whose first page succeeds and names a second page, which
    answers 500. *)
Definition demo_link : string :=
  "<https://shop.example/admin/api/2025-01/orders.json?page_info=p2>; " ++ rel_next.

Definition demo_page1 : response :=
  mkresponse 200 "{...}"
    (Ok (VDict [("orders", VList [VDict [("id", VInt 1)]; VDict [("id", VInt 2)]])]))
    (Some demo_link).

Definition demo_page2 : response :=
  mkresponse 500 "Internal Server Error" (Raise ValueError) None.

Definition demo_server (history : list request) (q : request) : result response :=
  if String.eqb (req_url q) "https://shop.example/admin/api/2025-01/orders.json"
  then Ok demo_page1
  else Ok demo_page2.

Definition demo_world : world :=
  mkworld [] [("Pedidos", [["Order_ID"; "KC"]; ["1"; "#1001"]])] [].

Definition demo_request1 : request :=
  mkrequest "https://shop.example/admin/api/2025-01/orders.json"
    [("X-Shopify-Access-Token", "token")]
    (Some [("limit", VInt 250); ("status", VStr "any");
           ("created_at_min", VStr "2024-01-01T00:00:00+00:00")]).

Definition demo_request2 : request :=
  mkrequest "https://shop.example/admin/api/2025-01/orders.json?page_info=p2"
    [("X-Shopify-Access-Token", "token")] None.

(** A locale timestamp: [DD-MM-YYYY], the words [a las], [H:MM:SS] on the
    12-hour clock and the marker [a.m.] or [p.m.] ([ap] is its letter). *)
Definition locale_stamp (d mo y h mi s : Z) (ap : ascii) : string :=
  Str.zfill 2 d ++ "-" ++ Str.zfill 2 mo ++ "-" ++ Str.zfill 4 y ++ " a las "
  ++ Str.of_Z h ++ ":" ++ Str.zfill 2 mi ++ ":" ++ Str.zfill 2 s ++ " "
  ++ String ap ".m.".

(** The check of [of_Z_hour] below, for one hour. *)
Definition hour_text_ok (v : Z) : bool :=
  let t := Str.of_Z v in
  Str.all_digits t
  && (Nat.eqb (String.length t) 1 || Nat.eqb (String.length t) 2)
  && (Str.digits_to_Z t =? v).

(** [int(x)] is the number the digits of [x] write. *)
Definition digit_group (x : string) : Prop :=
  Py.int_of_string x = Ok (Str.digits_to_Z x).

(** An order whose line items have the SKUs [A], [A], [B] and [None]. *)
Definition order_four_items : value :=
  VDict [("line_items",
           VList [VDict [("sku", VStr "A"); ("quantity", VInt 1)];
                  VDict [("sku", VStr "A"); ("quantity", VInt 2)];
                  VDict [("sku", VStr "B"); ("quantity", VStr "3")];
                  VDict [("sku", VNone); ("quantity", VInt 4)]])].

(** Every character of [s] passes [p]. *)
Fixpoint all_chars (p : ascii -> bool) (s : string) : bool :=
  match s with
  | EmptyString => true
  | String c r => p c && all_chars p r
  end.

Fixpoint mem_char (c : ascii) (s : string) : bool :=
  match s with
  | EmptyString => false
  | String a r => Ascii.eqb a c || mem_char c r
  end.

(** The characters the text of a float can have: digits, signs, the point,
    the underscore, the letters of [inf], [infinity], [nan] and of the
    exponent in either case, and the bytes of white space (none of them
    between 33 and 127). *)
Definition float_char (c : ascii) : bool :=
  Str.is_digit c || mem_char c "+-._" || mem_char (Str.lower_char c) "einfaty"
  || Nat.leb (Str.code c) 32 || Nat.leb 128 (Str.code c).

(** The characters the text of an amount can have: those of a float, and
    the comma. *)
Definition amount_char (c : ascii) : bool := float_char c || Ascii.eqb c ",".

(** Absent (falsy) or a dictionary: what [x or {}] then [.get] needs. *)
Definition record_or_absent (v : value) : Prop :=
  Py.truthy v = false \/ exists d : list (string * value), v = VDict d.

Definition is_dict (v : value) : Prop :=
  exists d : list (string * value), v = VDict d.

(** A quantity the mapper can count: absent, an integer, or a string of
    digits, 4300 of them at most. *)
Definition countable_quantity (q : value) : Prop :=
  q = VNone \/ (exists z : Z, q = VInt z)
  \/ (exists s : string,
        q = VStr s /\ Str.all_digits s = true
        /\ (String.length s <= Py.int_max_str_digits)%nat).

(** A line item as the order source sends it: a dictionary whose SKU is no
    list or dictionary, whose quantity can be counted and whose fulfillment
    status is absent or a string. *)
Definition wf_line_item (li : value) : Prop :=
  exists d : list (string * value),
    li = VDict d
    /\ Py.hashable (Py.field d "sku" VNone) = true
    /\ countable_quantity (Py.field d "quantity" (VInt 0))
    /\ (Py.truthy (Py.field d "fulfillment_status" VNone) = false
        \/ exists s : string, Py.field d "fulfillment_status" VNone = VStr s).

(** An order as the order source sends it: every nested field is absent or
    has the shape the mapper reads. *)
Definition wf_order (d : list (string * value)) : Prop :=
  record_or_absent (Py.field d "billing_address" VNone)
  /\ record_or_absent (Py.field d "shipping_address" VNone)
  /\ (Py.truthy (Py.field d "line_items" (VList [])) = false
      \/ exists l : list value,
           Py.field d "line_items" (VList []) = VList l /\ Forall wf_line_item l)
  /\ (Py.truthy (Py.field d "shipping_lines" (VList [])) = false
      \/ exists (first : list (string * value)) (rest : list value),
           Py.field d "shipping_lines" (VList []) = VList (VDict first :: rest))
  /\ (Py.truthy (Py.field d "note_attributes" VNone) = false
      \/ exists l : list value,
           Py.field d "note_attributes" VNone = VList l /\ Forall is_dict l)
  /\ (Py.truthy (Py.field d "fulfillments" VNone) = false
      \/ exists (fs : list value) (cs : list (option string)),
           Py.field d "fulfillments" VNone = VList fs /\ Forall2 stamped fs cs)
  /\ (Py.truthy (Py.field d "total_shipping_price_set" VNone) = false
      \/ exists p : list (string * value),
           Py.field d "total_shipping_price_set" VNone = VDict p
           /\ is_dict (Py.field p "shop_money" (VDict []))).

(** An order with every field the mapper reads. *)
Definition order_full : list (string * value) :=
  [("id", VInt 5001); ("name", VStr "#5001");
   ("created_at", VStr "2024-01-05T10:00:00Z");
   ("financial_status", VStr "paid");
   ("subtotal_price", VStr "30.00"); ("total_price", VStr "35,50");
   ("total_shipping_price_set",
     VDict [("shop_money", VDict [("amount", VStr "5.50")])]);
   ("billing_address", VDict [("city", VStr "Santiago")]);
   ("line_items",
     VList [VDict [("sku", VStr "A"); ("quantity", VInt 2);
                   ("fulfillment_status", VStr "fulfilled");
                   ("requires_shipping", VBool true)];
            VDict [("sku", VStr "B"); ("quantity", VStr "1")]]);
   ("shipping_lines", VList [VDict [("title", VStr "Retiro en tienda")]]);
   ("note_attributes",
     VList [VDict [("name", VStr "Embalado");
                   ("value", VStr "05-01-2024 a las 3:45:10 p.m.")]]);
   ("fulfillments",
     VList [VDict [("created_at", VStr "2024-01-06T09:00:00Z")]])].

(** [s] starts with [n] digits. *)
Fixpoint starts_with_digits (n : nat) (s : string) : bool :=
  match n with
  | O => true
  | S k =>
      match s with
      | EmptyString => false
      | String c r => Str.is_digit c && starts_with_digits k r
      end
  end.

(** ASCII text. *)
Definition is_ascii (s : string) : bool :=
  all_chars (fun c => Nat.ltb (Str.code c) 128) s.

(** A letter of the ASCII alphabet, in either case. *)
Definition ascii_letter (c : ascii) : bool :=
  Str.is_upper c || Str.between 97 122 (Str.code c).

(** The signs a numeral can start with: none, plus or minus. *)
Definition numeral_sign (sg : string) : Prop :=
  sg = EmptyString \/ sg = "+" \/ sg = "-".


(** ** Notions of the further properties *)

(** The cells of the worksheet titled [title]: the first of that title, as
    [sh.worksheet(title)] finds it. *)
Definition tab_cells (title : string) (t : list (string * cells)) : option cells :=
  option_map snd (List.find (fun p => String.eqb (fst p) title) t).

(** The line [main] prints after writing [n] rows. *)
Definition ok_line (n : nat) (tab_name : string) (days_back : Z) : string :=
  "OK: " ++ Str.of_Z (Z.of_nat n) ++ " filas escritas en '" ++ tab_name
  ++ "' (últimos " ++ Str.of_Z days_back ++ " días).".

(** A source with a single page of two orders. *)
Definition single_page : response :=
  mkresponse 200 "{...}"
    (Ok (VDict [("orders", VList [VDict [("id", VInt 1)]; VDict [("id", VInt 2)]])]))
    None.

Definition single_server (history : list request) (q : request) : result response :=
  Ok single_page.

(** A source whose every page names a next page. *)
Definition endless_page : response :=
  mkresponse 200 "{...}" (Ok (VDict [("orders", VList [VDict [("id", VInt 1)]])]))
    (Some demo_link).

Definition endless_server (history : list request) (q : request) : result response :=
  Ok endless_page.

(** The frame's values taken as the rows' cells written with [str]. *)
Definition plain_values (rows : list row) : cells :=
  columns :: List.map (fun r => List.map (fun kv => Py.str (snd kv)) r) rows.

(** The outcome of the pages that follow, behind the orders [acc] of the
    pages fetched before them. *)
Definition with_earlier (acc : list value) (r : result (list value))
  : result (list value) :=
  match r with
  | Ok os => Ok (acc ++ os)%list
  | Raise e => Raise e
  end.

(** A record whose field [key] is the string [c], or that has none (the
    key missing or [None]). *)
Definition text_field (key : string) (f : value) (c : option string) : Prop :=
  exists fd : list (string * value),
    f = VDict fd
    /\ Py.field fd key VNone
       = match c with
         | Some s => VStr s
         | None => VNone
         end.

(** A line item whose quantity is [q]: an integer, a string of digits, or
    nothing (the key missing or [None]), which counts for 0. *)
Definition quantity (li : value) (q : Z) : Prop :=
  exists fd : list (string * value),
    li = VDict fd
    /\ (Py.field fd "quantity" (VInt 0) = VInt q
        \/ (Py.field fd "quantity" (VInt 0) = VNone /\ q = 0)
        \/ exists s : string,
             Py.field fd "quantity" (VInt 0) = VStr s
             /\ s <> EmptyString /\ Str.all_digits s = true
             /\ q = Str.digits_to_Z s).

(** An order with a null [shop_money]. *)
Definition order_null_shop_money : value :=
  VDict [("id", VInt 9);
         ("total_shipping_price_set", VDict [("shop_money", VNone)])].

(** An order whose line items are partly fulfilled: a status twice, another
    once, and items with none or an empty one. *)
Definition order_mixed_statuses : list (string * value) :=
  [("id", VInt 11);
   ("line_items",
     VList [VDict [("sku", VStr "A"); ("fulfillment_status", VStr "partial")];
            VDict [("sku", VStr "B"); ("fulfillment_status", VStr "fulfilled")];
            VDict [("sku", VStr "C"); ("fulfillment_status", VStr "partial")];
            VDict [("sku", VStr "D"); ("fulfillment_status", VNone)];
            VDict [("sku", VStr "E"); ("fulfillment_status", VStr EmptyString)];
            VDict [("sku", VStr "F")]])].

(** The event that the note attribute [a] reports, if any: the one that its
    name selects once trimmed and lowered (line 84). *)
Definition reported (a : value) : option event :=
  match a with
  | VDict fd =>
      event_of_name
        (Str.lower (Str.strip (Py.str (Py.field fd "name" (VStr EmptyString)))))
  | _ => None
  end.

(** The trimmed text of its value (line 85). *)
Definition reported_text (a : value) : string :=
  match a with
  | VDict fd => Str.strip (Py.str (Py.field fd "value" (VStr EmptyString)))
  | _ => EmptyString
  end.

(** Note attributes that report the packing twice and a carrier's pickup. *)
Definition demo_attrs : list value :=
  [VDict [("name", VStr "Embalado"); ("value", VStr "2024-01-05T10:00:00Z")];
   VDict [("name", VStr "Carrier pickup"); ("value", VStr "pendiente")];
   VDict [("name", VStr "embalado "); ("value", VStr "2024-01-06T11:30:00Z")];
   VDict [("name", VStr "gift_note"); ("value", VStr "Feliz cumple")]].

(** An ISO-8601 timestamp with an offset from UTC, [west] of it or east. *)
Definition iso_offset (y mo d h mi s : Z) (west : bool) (oh om : Z) : string :=
  Str.zfill 4 y ++ "-" ++ Str.zfill 2 mo ++ "-" ++ Str.zfill 2 d ++ "T"
  ++ Str.zfill 2 h ++ ":" ++ Str.zfill 2 mi ++ ":" ++ Str.zfill 2 s
  ++ String (if west then "-" else "+")%char
       (Str.zfill 2 oh ++ ":" ++ Str.zfill 2 om).

(** An ISO-8601 date. *)
Definition iso_date (y mo d : Z) : string :=
  Str.zfill 4 y ++ "-" ++ Str.zfill 2 mo ++ "-" ++ Str.zfill 2 d.

(** ASCII text without a digit. *)
Definition plain_char (c : ascii) : bool :=
  Nat.ltb (Str.code c) 128 && negb (Str.is_digit c).

Definition plain_text (s : string) : bool := all_chars plain_char s.

(** A link of a [Link] header tagged [rel="next"]. *)
Definition next_link (url : string) : string := "<" ++ url ++ ">; " ++ rel_next.

(** A link tagged [rel="previous"]. *)
Definition previous_link (url : string) : string :=
  "<" ++ url ++ ">; rel=" ++ String Py.dquote "previous"
  ++ String Py.dquote EmptyString.

(** [s.lstrip(c)] and [s.strip(c)] for a single character [c]. *)
Fixpoint lstrip_char (c : ascii) (s : string) : string :=
  match s with
  | EmptyString => EmptyString
  | String a r => if Ascii.eqb a c then lstrip_char c r else s
  end.

Definition strip_char (c : ascii) (s : string) : string :=
  Str.rev (lstrip_char c (Str.rev (lstrip_char c s))).

(** Line 10: [SHOP_DOMAIN], from the text of the environment variable. *)
Definition shop_domain (raw : string) : string :=
  strip_char "/"
    (Str.replace "http://" EmptyString
       (Str.replace "https://" EmptyString (Str.strip raw))).

(** A printable ASCII character other than the space. *)
Definition printable (c : ascii) : bool := Str.between 33 127 (Str.code c).

(** The characters of a host name: printable, and neither ['/'] nor
    [':']. *)
Definition host_char (c : ascii) : bool :=
  printable c && negb (Ascii.eqb c "/") && negb (Ascii.eqb c ":").

(** [n] times the character [c]. *)
Fixpoint repeat_char (c : ascii) (n : nat) : string :=
  match n with
  | O => EmptyString
  | S k => String c (repeat_char c k)
  end.


(** * Properties *)

(** ** Facts about strings *)

Lemma code_inj (x : ascii) (n : nat) : Str.code x = n -> x = ascii_of_nat n.
Proof. intros <-. unfold Str.code. symmetry. apply ascii_nat_embedding. Qed.

Lemma eqb_code_false (x y : ascii) : Str.code x <> Str.code y -> Ascii.eqb x y = false.
Proof.
  intros H. apply Ascii.eqb_neq. intros ->. now apply H.
Qed.

Lemma space1_code (a : ascii) : Str.is_space1 a = true -> (Str.code a <= 32)%nat.
Proof.
  unfold Str.is_space1, Str.between.
  rewrite orb_true_iff, !andb_true_iff, !Nat.leb_le. lia.
Qed.

Lemma space2_code (a b : ascii) :
  Str.is_space2 a b = true -> (128 <= Str.code a)%nat /\ (128 <= Str.code b)%nat.
Proof.
  unfold Str.is_space2.
  rewrite andb_true_iff, orb_true_iff, !Nat.eqb_eq. lia.
Qed.

Lemma space3_code (a b c : ascii) :
  Str.is_space3 a b c = true ->
  (128 <= Str.code a)%nat /\ (128 <= Str.code b)%nat /\ (128 <= Str.code c)%nat.
Proof.
  unfold Str.is_space3, Str.between. cbv zeta.
  rewrite !orb_true_iff, !andb_true_iff, !orb_true_iff, !andb_true_iff,
    !Nat.eqb_eq, !Nat.leb_le. lia.
Qed.

Lemma count_cons (c a : ascii) (r : string) :
  Str.count c (String a r) = ((if Ascii.eqb a c then 1 else 0) + Str.count c r)%nat.
Proof. reflexivity. Qed.

Lemma count_app (c : ascii) (s t : string) :
  Str.count c (s ++ t) = (Str.count c s + Str.count c t)%nat.
Proof.
  induction s as [|a s IH]; simpl; [reflexivity|]. rewrite IH. lia.
Qed.

Lemma count_skip (c a : ascii) (r : string) :
  Str.code a <> Str.code c -> Str.count c (String a r) = Str.count c r.
Proof. intros H. rewrite count_cons, (eqb_code_false _ _ H). reflexivity. Qed.

(** Stripping white space removes no character of code 33 to 127. *)
Lemma lstrip_gen_count (c : ascii) (back : bool) :
  (32 < Str.code c < 128)%nat ->
  forall (n : nat) (s : string), (String.length s <= n)%nat ->
    Str.count c (Str.lstrip_gen back s) = Str.count c s.
Proof.
  intros Hc. induction n as [|n IH]; intros s Hn.
  - destruct s; [reflexivity | simpl in Hn; lia].
  - destruct s as [|a s1]; [reflexivity|].
    cbn [Str.lstrip_gen].
    destruct (Str.is_space1 a) eqn:E1.
    { apply space1_code in E1. rewrite IH by (simpl in Hn; lia).
      symmetry. apply count_skip. lia. }
    destruct s1 as [|b s2]; [reflexivity|].
    destruct (if back then Str.is_space2 b a else Str.is_space2 a b) eqn:E2.
    { assert ((128 <= Str.code a)%nat /\ (128 <= Str.code b)%nat) as [Ha Hb]
        by (destruct back; apply space2_code in E2; tauto).
      rewrite IH by (simpl in Hn; lia).
      rewrite !count_skip by lia. reflexivity. }
    destruct s2 as [|d s3]; [reflexivity|].
    destruct (if back then Str.is_space3 d b a else Str.is_space3 a b d) eqn:E3;
      [|reflexivity].
    assert ((128 <= Str.code a)%nat /\ (128 <= Str.code b)%nat
            /\ (128 <= Str.code d)%nat) as (Ha & Hb & Hd)
      by (destruct back; apply space3_code in E3; tauto).
    rewrite IH by (simpl in Hn; lia).
    rewrite !count_skip by lia. reflexivity.
Qed.

Lemma list_of_app (s t : string) :
  list_ascii_of_string (s ++ t) = (list_ascii_of_string s ++ list_ascii_of_string t)%list.
Proof. induction s as [|a s IH]; simpl; [reflexivity | now rewrite IH]. Qed.

Lemma string_of_app (l m : list ascii) :
  string_of_list_ascii (l ++ m)%list = string_of_list_ascii l ++ string_of_list_ascii m.
Proof. induction l as [|a l IH]; simpl; [reflexivity | now rewrite IH]. Qed.

Lemma str_rev_app (s t : string) : Str.rev (s ++ t) = Str.rev t ++ Str.rev s.
Proof.
  unfold Str.rev. rewrite list_of_app, rev_app_distr. apply string_of_app.
Qed.

Lemma str_rev_cons (a : ascii) (r : string) :
  Str.rev (String a r) = Str.rev r ++ String a EmptyString.
Proof. change (String a r) with (String a EmptyString ++ r). now rewrite str_rev_app. Qed.

Lemma str_rev_involutive (s : string) : Str.rev (Str.rev s) = s.
Proof.
  unfold Str.rev. rewrite list_ascii_of_string_of_list_ascii, List.rev_involutive.
  apply string_of_list_ascii_of_string.
Qed.

Lemma count_rev (c : ascii) (s : string) : Str.count c (Str.rev s) = Str.count c s.
Proof.
  induction s as [|a s IH]; [reflexivity|].
  rewrite str_rev_cons, count_app, IH. simpl. lia.
Qed.

Lemma strip_count (c : ascii) (s : string) :
  (32 < Str.code c < 128)%nat -> Str.count c (Str.strip s) = Str.count c s.
Proof.
  intros Hc. unfold Str.strip, Str.rstrip, Str.lstrip.
  rewrite count_rev, (lstrip_gen_count c true Hc _ _ (le_n _)), count_rev.
  apply (lstrip_gen_count c false Hc _ _ (le_n _)).
Qed.

Lemma prefix_char (c a : ascii) (r : string) :
  prefix (String c EmptyString) (String a r) = Ascii.eqb a c.
Proof.
  simpl. destruct (ascii_dec c a) as [->|N].
  - rewrite Ascii.eqb_refl. now destruct r.
  - symmetry. apply Ascii.eqb_neq. congruence.
Qed.

(** Replacing one character by another acts character by character. *)
Lemma replace_char_cons (c d a : ascii) (r : string) :
  Str.replace (String c EmptyString) (String d EmptyString) (String a r)
  = String (if Ascii.eqb a c then d else a)
      (Str.replace (String c EmptyString) (String d EmptyString) r).
Proof.
  unfold Str.replace. cbn [Str.replace_from].
  rewrite prefix_char. destruct (Ascii.eqb a c); reflexivity.
Qed.

Lemma replace_char_nil (c d : ascii) :
  Str.replace (String c EmptyString) (String d EmptyString) EmptyString = EmptyString.
Proof. reflexivity. Qed.

Lemma contains_char_count (c : ascii) (s : string) :
  Str.contains (String c EmptyString) s = true -> (1 <= Str.count c s)%nat.
Proof.
  induction s as [|a s IH]; [discriminate|].
  cbn [Str.contains]. rewrite prefix_char, count_cons.
  destruct (Ascii.eqb a c); [lia|]. simpl. intros H. apply IH in H. lia.
Qed.

Lemma count_comma_replaced (s : string) :
  Str.count "." (Str.replace "," "." s) = (Str.count "," s + Str.count "." s)%nat.
Proof.
  induction s as [|a s IH]; [reflexivity|].
  rewrite replace_char_cons, !count_cons, IH.
  destruct (Ascii.eqb a ",") eqn:E.
  - apply Ascii.eqb_eq in E. subst a. simpl. lia.
  - destruct (Ascii.eqb a "."); lia.
Qed.

Lemma str_app_assoc (s t u : string) : (s ++ t) ++ u = s ++ t ++ u.
Proof. induction s as [|a s IH]; simpl; [reflexivity | now rewrite IH]. Qed.

Lemma str_app_nil_r (s : string) : s ++ EmptyString = s.
Proof. induction s as [|a s IH]; simpl; [reflexivity | now rewrite IH]. Qed.

(** ** Facts about numerals *)

Lemma digit_code (c : ascii) :
  Str.is_digit c = true -> (48 <= Str.code c <= 57)%nat.
Proof.
  unfold Str.is_digit, Str.between. rewrite andb_true_iff, !Nat.leb_le. tauto.
Qed.

Lemma all_digits_count (c : ascii) (s : string) :
  (Str.code c < 48 \/ 57 < Str.code c)%nat ->
  Str.all_digits s = true -> Str.count c s = O.
Proof.
  intros Hc. induction s as [|a s IH]; [reflexivity|].
  simpl. rewrite andb_true_iff. intros [Ha Hs].
  apply digit_code in Ha. rewrite (eqb_code_false a c) by lia. now rewrite IH.
Qed.

Lemma point_not_digit : (Str.code "." < 48 \/ 57 < Str.code ".")%nat.
Proof. left. vm_compute. lia. Qed.

Lemma point_printable : (32 < Str.code "." < 128)%nat.
Proof. vm_compute. lia. Qed.

Lemma span_digits_spec (s a b : string) :
  Str.span_digits s = (a, b) -> s = a ++ b /\ Str.all_digits a = true.
Proof.
  revert a b. induction s as [|c s IH]; intros a b; simpl.
  - intros [= <- <-]. now split.
  - destruct (Str.is_digit c) eqn:E.
    + destruct (Str.span_digits s) as [d t]. intros [= <- <-].
      destruct (IH d t eq_refl) as [-> Hd]. simpl. now rewrite E.
    + intros [= <- <-]. now split.
Qed.

Lemma take_sign_count (s r : string) (neg : bool) :
  Py.take_sign s = (neg, r) -> Str.count "." s = Str.count "." r.
Proof.
  unfold Py.take_sign. destruct s as [|c s]; [now intros [= <- <-]|].
  destruct (Ascii.eqb c "-") eqn:E1.
  { apply Ascii.eqb_eq in E1. subst c. now intros [= <- <-]. }
  destruct (Ascii.eqb c "+") eqn:E2.
  { apply Ascii.eqb_eq in E2. subst c. now intros [= <- <-]. }
  apply Ascii.eqb_neq in E1, E2.
  destruct c as [[] [] [] [] [] [] [] []]; try (now intros [= <- <-]);
    congruence.
Qed.

Lemma drop_underscores_count (s t : string) (prev : ascii) :
  Py.drop_underscores prev s = Some t -> Str.count "." t = Str.count "." s.
Proof.
  revert prev t. induction s as [|c s IH]; intros prev t; simpl.
  - destruct (Ascii.eqb prev "_"); [discriminate | now intros [= <-]].
  - destruct (Ascii.eqb c "_") eqn:E.
    + apply Ascii.eqb_eq in E. subst c.
      destruct (Str.is_digit prev); [|discriminate].
      intros H. now rewrite (IH _ _ H).
    + destruct (Ascii.eqb prev "_" && negb (Str.is_digit c)); [discriminate|].
      destruct (Py.drop_underscores c s) as [u|] eqn:Eu; [|discriminate].
      intros [= <-]. simpl. now rewrite (IH _ _ Eu).
Qed.

Lemma lower_char_dot (c : ascii) :
  Ascii.eqb (Str.lower_char c) "." = Ascii.eqb c ".".
Proof. destruct c as [[] [] [] [] [] [] [] []]; reflexivity. Qed.

Lemma lower_count (s : string) : Str.count "." (Str.lower s) = Str.count "." s.
Proof.
  induction s as [|c s IH]; [reflexivity|].
  simpl. now rewrite lower_char_dot, IH.
Qed.

Lemma parse_exponent_count (r : string) (e : Z) :
  Py.parse_exponent r = Some e -> Str.count "." r = O.
Proof.
  unfold Py.parse_exponent. destruct r as [|c r]; [reflexivity|].
  destruct (Ascii.eqb c "e" || Ascii.eqb c "E") eqn:E; [|discriminate].
  destruct (Py.take_sign r) as [neg r1] eqn:Es.
  destruct (Str.span_digits r1) as [ds r2] eqn:Ed.
  destruct ds as [|d ds]; [discriminate|].
  destruct r2; [|discriminate]. intros _.
  apply span_digits_spec in Ed. destruct Ed as [-> Hd].
  apply take_sign_count in Es.
  rewrite count_cons, Es, count_app, (all_digits_count "." _ point_not_digit Hd).
  apply orb_true_iff in E as [E|E]; apply Ascii.eqb_eq in E; subst c; reflexivity.
Qed.

(** A decimal numeral has one point at most. *)
Lemma parse_decimal_count (s : string) (p : Z * Z) :
  Py.parse_decimal s = Some p -> (Str.count "." s <= 1)%nat.
Proof.
  unfold Py.parse_decimal.
  destruct (Str.span_digits s) as [ip r] eqn:Ei.
  apply span_digits_spec in Ei. destruct Ei as [-> Hi].
  rewrite count_app, (all_digits_count "." ip point_not_digit Hi).
  assert (forall fp r',
            match ip ++ fp with
            | EmptyString => None
            | String _ _ =>
                match Py.parse_exponent r' with
                | Some e => Some (Str.digits_to_Z (ip ++ fp), e - Z.of_nat (String.length fp))
                | None => None
                end
            end = Some p -> Str.count "." r' = O) as Hgen.
  { intros fp r' H. destruct (ip ++ fp); [discriminate|].
    destruct (Py.parse_exponent r') eqn:Ee; [|discriminate].
    now apply parse_exponent_count in Ee. }
  destruct r as [|c r1].
  { intros H. simpl. lia. }
  destruct (Ascii.eqb c ".") eqn:Ec.
  - apply Ascii.eqb_eq in Ec. subst c.
    destruct (Str.span_digits r1) as [fp r'] eqn:Ef.
    intros H. apply (Hgen fp r') in H.
    apply span_digits_spec in Ef. destruct Ef as [-> Hf].
    rewrite count_cons, count_app, (all_digits_count "." fp point_not_digit Hf), H.
    simpl. lia.
  - assert (Hm : (let '(fp, r') :=
                    match String c r1 with
                    | String "."%char r1 => Str.span_digits r1
                    | _ => (EmptyString, String c r1)
                    end in
                  match ip ++ fp with
                  | EmptyString => None
                  | String _ _ =>
                      match Py.parse_exponent r' with
                      | Some e => Some (Str.digits_to_Z (ip ++ fp), e - Z.of_nat (String.length fp))
                      | None => None
                      end
                  end) =
                 match ip ++ EmptyString with
                  | EmptyString => None
                  | String _ _ =>
                      match Py.parse_exponent (String c r1) with
                      | Some e => Some (Str.digits_to_Z (ip ++ EmptyString), e - Z.of_nat (String.length EmptyString))
                      | None => None
                      end
                  end).
    { apply Ascii.eqb_neq in Ec.
      destruct c as [[] [] [] [] [] [] [] []]; try reflexivity; congruence. }
    rewrite Hm. intros H.
    apply (Hgen EmptyString (String c r1)) in H.
    rewrite H. lia.
Qed.

Lemma parse_float_literal_count (s : string) (f : float) :
  Py.parse_float_literal s = Some f -> (Str.count "." s <= 1)%nat.
Proof.
  unfold Py.parse_float_literal.
  destruct (Py.take_sign s) as [neg r] eqn:Es.
  rewrite (take_sign_count _ _ _ Es).
  destruct (String.eqb (Str.lower r) "inf" || String.eqb (Str.lower r) "infinity") eqn:E1.
  { intros _. rewrite <- lower_count.
    apply orb_true_iff in E1 as [E|E]; apply String.eqb_eq in E; rewrite E;
      simpl; lia. }
  destruct (String.eqb (Str.lower r) "nan") eqn:E2.
  { intros _. rewrite <- lower_count. apply String.eqb_eq in E2. rewrite E2.
    simpl. lia. }
  destruct (Py.parse_decimal r) as [[m e]|] eqn:Ed; [|discriminate].
  intros _. now apply parse_decimal_count in Ed.
Qed.

(** [float()] reads no text with two points. *)
Lemma float_of_string_count (s : string) (f : float) :
  Py.float_of_string s = Ok f -> (Str.count "." s <= 1)%nat.
Proof.
  unfold Py.float_of_string.
  destruct (Py.drop_underscores "000" s) as [s1|] eqn:Eu; [|discriminate].
  destruct (Py.parse_float_literal (Str.strip s1)) as [g|] eqn:Ep; [|discriminate].
  intros _. apply parse_float_literal_count in Ep.
  rewrite (strip_count _ _ point_printable) in Ep.
  now rewrite (drop_underscores_count _ _ _ Eu) in Ep.
Qed.

Lemma float_of_string_two_points (s : string) :
  (2 <= Str.count "." s)%nat -> Py.float_of_string s = Raise ValueError.
Proof.
  intros H. destruct (Py.float_of_string s) as [f|e] eqn:E.
  - apply float_of_string_count in E. lia.
  - unfold Py.float_of_string in E.
    destruct (Py.drop_underscores "000" s); [|congruence].
    destruct (Py.parse_float_literal (Str.strip s0)); congruence.
Qed.

Theorem to_float_comma_and_point :
  forall s : string,
    Str.contains "," s = true -> Str.contains "." s = true ->
    to_float (VStr s) = 0%float.
Proof.
  intros s Hc Hp. unfold to_float.
  destruct (Py.eq (VStr s) (VStr EmptyString)); [reflexivity|].
  cbn [Py.str].
  rewrite float_of_string_two_points; [reflexivity|].
  rewrite count_comma_replaced.
  apply contains_char_count in Hc, Hp. lia.
Qed.

Lemma to_float_comma_and_point_witness :
  to_float (VStr "1,234.56") = 0%float.
Proof. apply to_float_comma_and_point; reflexivity. Defined.

Lemma lstrip_gen_digit (back : bool) (a : ascii) (r : string) :
  Str.is_digit a = true -> Str.lstrip_gen back (String a r) = String a r.
Proof.
  intros Ha. apply digit_code in Ha. cbn [Str.lstrip_gen].
  destruct (Str.is_space1 a) eqn:E1; [apply space1_code in E1; lia|].
  destruct r as [|b r]; [reflexivity|].
  destruct (if back then Str.is_space2 b a else Str.is_space2 a b) eqn:E2;
    [destruct back; apply space2_code in E2; lia|].
  destruct r as [|c r]; [reflexivity|].
  destruct (if back then Str.is_space3 c b a else Str.is_space3 a b c) eqn:E3;
    [destruct back; apply space3_code in E3; lia|].
  reflexivity.
Qed.

Lemma all_digits_app (s t : string) :
  Str.all_digits (s ++ t) = Str.all_digits s && Str.all_digits t.
Proof.
  induction s as [|a s IH]; [reflexivity|]. simpl. now rewrite IH, andb_assoc.
Qed.

Lemma all_digits_rev (s : string) : Str.all_digits (Str.rev s) = Str.all_digits s.
Proof.
  induction s as [|a s IH]; [reflexivity|].
  rewrite str_rev_cons, all_digits_app, IH. simpl. rewrite andb_true_r. apply andb_comm.
Qed.

Lemma app_nonempty_r (s t : string) : t <> EmptyString -> s ++ t <> EmptyString.
Proof. destruct s; [auto | discriminate]. Qed.

(** White space is not stripped from text that starts and ends with digits. *)
Lemma strip_digits_around (a m b : string) :
  a <> EmptyString -> b <> EmptyString ->
  Str.all_digits a = true -> Str.all_digits b = true ->
  Str.strip (a ++ m ++ b) = a ++ m ++ b.
Proof.
  intros Na Nb Ha Hb. unfold Str.strip, Str.lstrip, Str.rstrip.
  destruct a as [|a0 a]; [congruence|].
  simpl in Ha. apply andb_true_iff in Ha as [Ha0 Ha].
  cbn [append]. rewrite (lstrip_gen_digit false a0 _ Ha0).
  change (String a0 (a ++ m ++ b)) with (String a0 a ++ m ++ b).
  rewrite !str_rev_app.
  destruct (Str.rev b) as [|b0 rb] eqn:Eb.
  { apply (f_equal Str.rev) in Eb. rewrite str_rev_involutive in Eb. now subst b. }
  assert (Hrb : Str.all_digits (String b0 rb) = true)
    by (rewrite <- Eb; now rewrite all_digits_rev).
  simpl in Hrb. apply andb_true_iff in Hrb as [Hb0 _].
  cbn [append]. rewrite (lstrip_gen_digit true b0 _ Hb0).
  change (String b0 ((rb ++ Str.rev m) ++ Str.rev (String a0 a)))
    with ((String b0 rb ++ Str.rev m) ++ Str.rev (String a0 a)).
  rewrite <- Eb, <- !str_rev_app. apply str_rev_involutive.
Qed.

Lemma replace_char_app (c d : ascii) (s t : string) :
  Str.replace (String c EmptyString) (String d EmptyString) (s ++ t)
  = Str.replace (String c EmptyString) (String d EmptyString) s
    ++ Str.replace (String c EmptyString) (String d EmptyString) t.
Proof.
  induction s as [|a s IH]; [reflexivity|].
  cbn [append]. rewrite !replace_char_cons, IH. reflexivity.
Qed.

Lemma replace_char_absent (c d : ascii) (s : string) :
  Str.count c s = O ->
  Str.replace (String c EmptyString) (String d EmptyString) s = s.
Proof.
  induction s as [|a s IH]; [reflexivity|].
  rewrite count_cons, replace_char_cons.
  destruct (Ascii.eqb a c); [discriminate|]. intros H. now rewrite (IH H).
Qed.

Lemma comma_not_digit : (Str.code "," < 48 \/ 57 < Str.code ",")%nat.
Proof. left. vm_compute. lia. Qed.

Lemma underscore_not_digit : (Str.code "_" < 48 \/ 57 < Str.code "_")%nat.
Proof. right. vm_compute. lia. Qed.

(** A decimal comma between digits becomes a point. *)
Lemma replace_decimal_comma (a b : string) :
  Str.all_digits a = true -> Str.all_digits b = true ->
  Str.replace "," "." (a ++ "," ++ b) = a ++ "." ++ b.
Proof.
  intros Ha Hb. rewrite !replace_char_app.
  rewrite (replace_char_absent "," "." a), (replace_char_absent "," "." b)
    by (apply all_digits_count; [apply comma_not_digit | assumption]).
  reflexivity.
Qed.

Lemma drop_underscores_absent (s : string) (prev : ascii) :
  Ascii.eqb prev "_" = false -> Str.count "_" s = O ->
  Py.drop_underscores prev s = Some s.
Proof.
  revert prev. induction s as [|c s IH]; intros prev Hp; simpl.
  - now rewrite Hp.
  - destruct (Ascii.eqb c "_") eqn:E; [discriminate|].
    rewrite Hp. simpl. intros H. now rewrite IH.
Qed.

Lemma span_digits_all (s : string) :
  Str.all_digits s = true -> Str.span_digits s = (s, EmptyString).
Proof.
  induction s as [|c s IH]; [reflexivity|].
  simpl. intros H. apply andb_true_iff in H as [Hc Hs].
  now rewrite Hc, IH.
Qed.

Lemma span_digits_app (a : string) (c : ascii) (r : string) :
  Str.all_digits a = true -> Str.is_digit c = false ->
  Str.span_digits (a ++ String c r) = (a, String c r).
Proof.
  intros Ha Hc. induction a as [|x a IH]; simpl.
  - now rewrite Hc.
  - simpl in Ha. apply andb_true_iff in Ha as [Hx Ha]. now rewrite Hx, IH.
Qed.

Lemma take_sign_digit (a : ascii) (r : string) :
  Str.is_digit a = true -> Py.take_sign (String a r) = (false, String a r).
Proof.
  intros H.
  destruct a as [[] [] [] [] [] [] [] []]; try reflexivity;
    vm_compute in H; discriminate H.
Qed.

Lemma not_inf_nan_digit (a : ascii) (r : string) :
  Str.is_digit a = true ->
  String.eqb (Str.lower (String a r)) "inf"
  || String.eqb (Str.lower (String a r)) "infinity" = false
  /\ String.eqb (Str.lower (String a r)) "nan" = false.
Proof.
  intros H.
  destruct a as [[] [] [] [] [] [] [] []]; try (split; reflexivity);
    vm_compute in H; discriminate H.
Qed.

(** [float()] reads digits, a point and digits as the decimal they write. *)
Lemma float_of_string_decimal (a b : string) :
  a <> EmptyString -> b <> EmptyString ->
  Str.all_digits a = true -> Str.all_digits b = true ->
  Py.float_of_string (a ++ "." ++ b)
  = Ok (Py.decimal_to_float false (Str.digits_to_Z (a ++ b))
          (- Z.of_nat (String.length b))).
Proof.
  intros Na Nb Ha Hb. unfold Py.float_of_string.
  rewrite drop_underscores_absent; [|reflexivity|].
  2:{ rewrite !count_app, (all_digits_count "_" a), (all_digits_count "_" b)
        by (auto using underscore_not_digit). reflexivity. }
  rewrite strip_digits_around by assumption.
  unfold Py.parse_float_literal.
  destruct a as [|a0 a]; [congruence|].
  pose proof Ha as Ha'. simpl in Ha'. apply andb_true_iff in Ha' as [Ha0 _].
  cbn [append]. rewrite (take_sign_digit _ _ Ha0). cbv beta iota zeta.
  destruct (not_inf_nan_digit a0 (a ++ String "." b) Ha0) as [-> ->].
  change (String a0 (a ++ String "." b)) with (String a0 a ++ String "." b).
  unfold Py.parse_decimal.
  rewrite (span_digits_app _ _ _ Ha) by reflexivity.
  rewrite (span_digits_all _ Hb).
  cbn [append Py.parse_exponent]. rewrite Z.sub_0_l. reflexivity.
Qed.

(** ** Facts about zero-filled numbers and fixed-width fields *)

Lemma zfill_ok_below (w : nat) (bound : Z) :
  List.forallb (zfill_ok w) (List.map Z.of_nat (List.seq 0 (Z.to_nat bound))) = true ->
  forall v : Z, 0 <= v < bound ->
    Str.all_digits (Str.zfill w v) = true
    /\ String.length (Str.zfill w v) = w
    /\ Str.digits_to_Z (Str.zfill w v) = v.
Proof.
  intros H v Hv. rewrite forallb_forall in H.
  assert (Hin : In v (List.map Z.of_nat (List.seq 0 (Z.to_nat bound)))).
  { apply in_map_iff. exists (Z.to_nat v). split; [lia|]. apply in_seq. lia. }
  apply H in Hin. unfold zfill_ok in Hin.
  apply andb_true_iff in Hin as [Hin H3]. apply andb_true_iff in Hin as [H1 H2].
  apply Nat.eqb_eq in H2. apply Z.eqb_eq in H3. auto.
Qed.

Lemma zfill2_spec (v : Z) :
  0 <= v <= 99 ->
  Str.all_digits (Str.zfill 2 v) = true
  /\ String.length (Str.zfill 2 v) = 2%nat
  /\ Str.digits_to_Z (Str.zfill 2 v) = v.
Proof.
  intros H. apply (zfill_ok_below 2 100); [vm_compute; reflexivity | lia].
Qed.

Lemma zfill4_spec (v : Z) :
  0 <= v <= 9999 ->
  Str.all_digits (Str.zfill 4 v) = true
  /\ String.length (Str.zfill 4 v) = 4%nat
  /\ Str.digits_to_Z (Str.zfill 4 v) = v.
Proof.
  intros H. apply (zfill_ok_below 4 10000); [vm_compute; reflexivity | lia].
Qed.

Lemma substring_head (d rest : string) :
  substring 0 (String.length d) (d ++ rest) = d.
Proof.
  induction d as [|c d IH]; simpl; [now destruct rest | now rewrite IH].
Qed.

Lemma substring_whole (s : string) : substring 0 (String.length s) s = s.
Proof. induction s as [|c s IH]; simpl; [reflexivity | now rewrite IH]. Qed.

Lemma substring_tail (d rest : string) :
  substring (String.length d) (String.length (d ++ rest) - String.length d) (d ++ rest)
  = rest.
Proof.
  induction d as [|c d IH]; simpl.
  - rewrite Nat.sub_0_r. apply substring_whole.
  - exact IH.
Qed.

(** A field of [n] digits is read off the head of a text. *)
Lemma take_digits_app (n : nat) (d rest : string) :
  String.length d = n -> Str.all_digits d = true ->
  DateTime.take_digits n (d ++ rest) = Some (Str.digits_to_Z d, rest).
Proof.
  intros <- Hd. unfold DateTime.take_digits.
  rewrite substring_head, Nat.eqb_refl, Hd, substring_tail. reflexivity.
Qed.

Lemma regex_digits_app (n : nat) (d rest : string) :
  String.length d = n -> Str.all_digits d = true ->
  TraceRe.digits n (d ++ rest) = Some (d, rest).
Proof.
  intros <- Hd. unfold TraceRe.digits.
  rewrite substring_head, Nat.eqb_refl, Hd, substring_tail. reflexivity.
Qed.

Lemma valid_ranges (y mo d h mi s us : Z) :
  DateTime.valid y mo d h mi s us = true ->
  1 <= y <= 9999 /\ 1 <= mo <= 12 /\ 1 <= d <= 31 /\ 0 <= h <= 23
  /\ 0 <= mi <= 59 /\ 0 <= s <= 59.
Proof.
  unfold DateTime.valid, DateTime.in_range.
  rewrite !andb_true_iff, !Z.leb_le. intros H.
  assert (DateTime.days_in_month y mo <= 31).
  { unfold DateTime.days_in_month.
    destruct (mo =? 2); [destruct (DateTime.is_leap y); lia|].
    destruct ((mo =? 4) || (mo =? 6) || (mo =? 9) || (mo =? 11)); lia. }
  lia.
Qed.

Lemma replace_old_char_cons (c : ascii) (new : string) (a : ascii) (r : string) :
  Str.replace (String c EmptyString) new (String a r)
  = if Ascii.eqb a c then new ++ Str.replace (String c EmptyString) new r
    else String a (Str.replace (String c EmptyString) new r).
Proof.
  unfold Str.replace. cbn [Str.replace_from].
  rewrite prefix_char. destruct (Ascii.eqb a c); reflexivity.
Qed.

Lemma replace_old_char_absent (c : ascii) (new s t : string) :
  Str.count c s = O ->
  Str.replace (String c EmptyString) new (s ++ t)
  = s ++ Str.replace (String c EmptyString) new t.
Proof.
  induction s as [|a s IH]; [reflexivity|].
  rewrite count_cons. cbn [append]. rewrite replace_old_char_cons.
  destruct (Ascii.eqb a c); [discriminate|]. intros H. now rewrite (IH H).
Qed.

Lemma split_offset_app (x o : string) :
  Str.count "+" x = O -> Str.count "-" x = O ->
  DateTime.split_offset (x ++ String "+" o) = (x, Some (false, o)).
Proof.
  induction x as [|a x IH]; [reflexivity|].
  rewrite !count_cons. cbn [append DateTime.split_offset].
  destruct (Ascii.eqb a "+"); [discriminate|].
  destruct (Ascii.eqb a "-"); [discriminate|].
  intros H1 H2. now rewrite (IH H1 H2).
Qed.

Lemma digits_count (c : ascii) (s : string) :
  Str.is_digit c = false -> Str.all_digits s = true -> Str.count c s = O.
Proof.
  intros Hc. induction s as [|a s IH]; [reflexivity|].
  simpl. rewrite andb_true_iff. intros [Ha Hs].
  destruct (Ascii.eqb a c) eqn:E.
  - apply Ascii.eqb_eq in E. congruence.
  - now rewrite IH.
Qed.

(** A UTC timestamp with the ['Z'] suffix parses to its fields. *)
Lemma fromisoformat_iso_utc (y mo d h mi s : Z) :
  DateTime.valid y mo d h mi s 0 = true ->
  DateTime.fromisoformat (Str.replace "Z" "+00:00" (iso_utc y mo d h mi s))
  = Ok (mkdatetime y mo d h mi s 0 (Some 0)).
Proof.
  intros Hv. pose proof (valid_ranges _ _ _ _ _ _ _ Hv) as (Hy & Hmo & Hd & Hh & Hmi & Hs).
  destruct (zfill4_spec y ltac:(lia)) as (Ay & Ly & Vy).
  destruct (zfill2_spec mo ltac:(lia)) as (Amo & Lmo & Vmo).
  destruct (zfill2_spec d ltac:(lia)) as (Ad & Ld & Vd).
  destruct (zfill2_spec h ltac:(lia)) as (Ah & Lh & Vh).
  destruct (zfill2_spec mi ltac:(lia)) as (Ami & Lmi & Vmi).
  destruct (zfill2_spec s ltac:(lia)) as (As & Ls & Vs).
  unfold iso_utc.
  set (Y := Str.zfill 4 y) in *. set (MO := Str.zfill 2 mo) in *.
  set (D := Str.zfill 2 d) in *. set (HR := Str.zfill 2 h) in *.
  set (MI := Str.zfill 2 mi) in *. set (SEC := Str.zfill 2 s) in *.
  assert (Hrep : Str.replace "Z" "+00:00"
            (Y ++ "-" ++ MO ++ "-" ++ D ++ "T" ++ HR ++ ":" ++ MI ++ ":" ++ SEC ++ "Z")
          = Y ++ "-" ++ MO ++ "-" ++ D ++ "T" ++ (HR ++ ":" ++ MI ++ ":" ++ SEC) ++ "+00:00").
  { assert (Hz : forall x, Str.all_digits x = true -> Str.count "Z" x = O)
      by (intros x; now apply digits_count).
    rewrite (replace_old_char_absent "Z" _ Y) by auto.
    change ("-" ++ MO ++ "-" ++ D ++ "T" ++ HR ++ ":" ++ MI ++ ":" ++ SEC ++ "Z")
      with (String "-" (MO ++ "-" ++ D ++ "T" ++ HR ++ ":" ++ MI ++ ":" ++ SEC ++ "Z")).
    rewrite replace_old_char_cons. cbn [Ascii.eqb Bool.eqb].
    rewrite (replace_old_char_absent "Z" _ MO) by auto.
    change ("-" ++ D ++ "T" ++ HR ++ ":" ++ MI ++ ":" ++ SEC ++ "Z")
      with (String "-" (D ++ "T" ++ HR ++ ":" ++ MI ++ ":" ++ SEC ++ "Z")).
    rewrite replace_old_char_cons. cbn [Ascii.eqb Bool.eqb].
    rewrite (replace_old_char_absent "Z" _ D) by auto.
    change ("T" ++ HR ++ ":" ++ MI ++ ":" ++ SEC ++ "Z")
      with (String "T" (HR ++ ":" ++ MI ++ ":" ++ SEC ++ "Z")).
    rewrite replace_old_char_cons. cbn [Ascii.eqb Bool.eqb].
    rewrite (replace_old_char_absent "Z" _ HR) by auto.
    change (":" ++ MI ++ ":" ++ SEC ++ "Z") with (String ":" (MI ++ ":" ++ SEC ++ "Z")).
    rewrite replace_old_char_cons. cbn [Ascii.eqb Bool.eqb].
    rewrite (replace_old_char_absent "Z" _ MI) by auto.
    change (":" ++ SEC ++ "Z") with (String ":" (SEC ++ "Z")).
    rewrite replace_old_char_cons. cbn [Ascii.eqb Bool.eqb].
    rewrite (replace_old_char_absent "Z" _ SEC) by auto.
    rewrite !str_app_assoc. reflexivity. }
  rewrite Hrep. unfold DateTime.fromisoformat.
  rewrite (take_digits_app 4 Y _ Ly Ay), Vy. cbn [append].
  rewrite (take_digits_app 2 MO _ Lmo Amo), Vmo. cbn [append].
  rewrite (take_digits_app 2 D _ Ld Ad), Vd. cbn [append].
  assert (Hsep : forall r, DateTime.after_separator "T" r = r).
  { intros r. unfold DateTime.after_separator. cbn.
    rewrite Nat.sub_0_r. apply substring_whole. }
  rewrite Hsep.
  assert (Hc : forall c, Str.is_digit c = false -> Ascii.eqb ":" c = false ->
                 Str.count c (HR ++ ":" ++ MI ++ ":" ++ SEC) = O).
  { intros c Hc Hcolon.
    rewrite !count_app, !count_cons, Hcolon.
    rewrite (digits_count c HR), (digits_count c MI), (digits_count c SEC)
      by assumption.
    reflexivity. }
  change ("+00:00") with (String "+" "00:00").
  rewrite split_offset_app by (apply Hc; reflexivity).
  unfold DateTime.parse_hh_mm_ss_ff.
  rewrite (take_digits_app 2 HR _ Lh Ah), Vh. cbn [append].
  rewrite (take_digits_app 2 MI _ Lmi Ami), Vmi. cbn [append].
  rewrite <- (str_app_nil_r SEC) at 1.
  rewrite (take_digits_app 2 SEC _ Ls As), Vs.
  change (DateTime.parse_offset false "00:00") with (Some 0).
  unfold DateTime.make. now rewrite Hv.
Qed.

(** From the year 1000 on the year has four digits as it is. *)
Lemma zfill4_year (y : Z) : 1000 <= y <= 9999 -> Str.zfill 4 y = Str.of_Z y.
Proof.
  intros Hy.
  assert (H : List.forallb (fun v => String.eqb (Str.zfill 4 v) (Str.of_Z v))
                (List.map (fun n => 1000 + Z.of_nat n) (List.seq 0 (Z.to_nat 9000))) = true)
    by (vm_compute; reflexivity).
  rewrite forallb_forall in H. apply String.eqb_eq, H.
  apply in_map_iff. exists (Z.to_nat (y - 1000)).
  split; [cbv beta; lia | apply in_seq; lia].
Qed.

Lemma strftime_dd_mm_yyyy (y mo d h mi s us : Z) (tz : option Z) :
  1000 <= y <= 9999 ->
  DateTime.strftime (mkdatetime y mo d h mi s us tz) = dd_mm_yyyy y mo d h mi s.
Proof.
  intros Hy. unfold DateTime.strftime, dd_mm_yyyy.
  cbn [year month day hour minute second]. now rewrite (zfill4_year y Hy).
Qed.

(** Text that does not start with the four digits of a year is no ISO
    timestamp, with [Z] or without. *)
Lemma take_digits_starts (n : nat) (s : string) :
  starts_with_digits n s = false -> DateTime.take_digits n s = None.
Proof.
  intros H. unfold DateTime.take_digits.
  replace (Nat.eqb (String.length (substring 0 n s)) n
           && Str.all_digits (substring 0 n s)) with false; [reflexivity|].
  symmetry. revert s H. induction n as [|n IH]; intros s; [discriminate|].
  destruct s as [|c r]; [reflexivity|].
  cbn [starts_with_digits substring String.length Nat.eqb Str.all_digits].
  destruct (Str.is_digit c); cbn [andb]; [|intros _; apply andb_false_r].
  intros H. specialize (IH r H).
  destruct (Nat.eqb (String.length (substring 0 n r)) n); [exact IH | reflexivity].
Qed.

Lemma starts_with_digits_replace_Z (n : nat) (s : string) :
  starts_with_digits n s = false ->
  starts_with_digits n (Str.replace "Z" "+00:00" s) = false.
Proof.
  revert s. induction n as [|n IH]; intros s; [discriminate|].
  destruct s as [|c r]; [reflexivity|].
  rewrite replace_old_char_cons. cbn [starts_with_digits].
  destruct (Ascii.eqb c "Z"); [reflexivity|].
  cbn [starts_with_digits]. destruct (Str.is_digit c); [apply IH | reflexivity].
Qed.

Lemma fromisoformat_no_year (s : string) :
  starts_with_digits 4 s = false ->
  DateTime.fromisoformat (Str.replace "Z" "+00:00" s) = Raise ValueError.
Proof.
  intros H. unfold DateTime.fromisoformat.
  now rewrite (take_digits_starts 4 _ (starts_with_digits_replace_Z 4 s H)).
Qed.

(** What [fromisoformat] returns is a date and a time of day that exist. *)
Lemma make_valid (y mo d h mi s us : Z) (tz : option Z) (dt : datetime) :
  DateTime.make y mo d h mi s us tz = Ok dt ->
  DateTime.valid (year dt) (month dt) (day dt) (hour dt) (minute dt)
    (second dt) (microsecond dt) = true.
Proof.
  unfold DateTime.make.
  destruct (DateTime.valid y mo d h mi s us) eqn:E; [|discriminate].
  now intros [= <-].
Qed.

Lemma fromisoformat_valid (s : string) (dt : datetime) :
  DateTime.fromisoformat s = Ok dt ->
  DateTime.valid (year dt) (month dt) (day dt) (hour dt) (minute dt)
    (second dt) (microsecond dt) = true.
Proof.
  unfold DateTime.fromisoformat.
  repeat (match goal with
          | |- context [match ?x with _ => _ end] => destruct x eqn:?
          end; try discriminate);
    intros H; now apply make_valid in H.
Qed.

Lemma truthy_str (s : string) : s <> EmptyString -> Py.truthy (VStr s) = true.
Proof. intros H. simpl. apply negb_true_iff. now apply String.eqb_neq. Qed.

Lemma app_cons_nonempty (s : string) (c : ascii) (t : string) :
  s ++ String c t <> EmptyString.
Proof. destruct s; discriminate. Qed.

(** C3 as the specification states it fails: text that is no timestamp is
    returned as it is, not as the empty string. *)
Lemma format_datetime_echoes_unparseable :
  DateTime.fromisoformat (Str.replace "Z" "+00:00" "pendiente") = Raise ValueError
  /\ format_datetime (VStr "pendiente") = "pendiente".
Proof. split; vm_compute; reflexivity. Qed.

Lemma format_datetime_iso_utc (y mo d h mi s : Z) :
  DateTime.valid y mo d h mi s 0 = true ->
  1000 <= y ->
  format_datetime (VStr (iso_utc y mo d h mi s)) = dd_mm_yyyy y mo d h mi s.
Proof.
  intros Hv Hy.
  pose proof (valid_ranges _ _ _ _ _ _ _ Hv) as (Hy' & _).
  assert (Ht : Py.truthy (VStr (iso_utc y mo d h mi s)) = true)
    by (apply truthy_str, app_cons_nonempty).
  unfold format_datetime.
  rewrite Ht, (fromisoformat_iso_utc _ _ _ _ _ _ Hv). cbn [negb].
  apply strftime_dd_mm_yyyy. lia.
Qed.

(** C3 (amended): [format_datetime] gives the empty string for an absent
    input ([None] or the empty string); for a UTC timestamp
    [YYYY-MM-DDTHH:MM:SSZ] of a year from 1000 on it gives
    [DD/MM/YYYY HH:MM:SS], and for any text that parses to such a year, the
    parsed date and time in that format; text that does not start with the
    four digits of a year, which is no ISO timestamp, is returned
    unchanged. *)
Theorem format_datetime_spec :
  format_datetime VNone = EmptyString
  /\ format_datetime (VStr EmptyString) = EmptyString
  /\ (forall y mo d h mi s : Z,
        DateTime.valid y mo d h mi s 0 = true ->
        1000 <= y ->
        format_datetime (VStr (iso_utc y mo d h mi s)) = dd_mm_yyyy y mo d h mi s)
  /\ (forall (s : string) (dt : datetime),
        DateTime.fromisoformat (Str.replace "Z" "+00:00" s) = Ok dt ->
        1000 <= year dt ->
        format_datetime (VStr s)
        = dd_mm_yyyy (year dt) (month dt) (day dt) (hour dt) (minute dt)
            (second dt))
  /\ (forall s : string,
        starts_with_digits 4 s = false -> format_datetime (VStr s) = s).
Proof.
  split; [reflexivity|]. split; [reflexivity|].
  split; [|split].
  - exact format_datetime_iso_utc.
  - intros s dt Hp Hy.
    assert (Hs : s <> EmptyString) by (intros ->; discriminate Hp).
    unfold format_datetime. rewrite (truthy_str s Hs), Hp. cbn [negb].
    pose proof (fromisoformat_valid _ _ Hp) as Hv.
    apply valid_ranges in Hv as (Hy' & _).
    destruct dt as [y mo d h mi sec us tz]. cbn [year] in *.
    apply strftime_dd_mm_yyyy. lia.
  - intros s H. destruct s as [|c r]; [reflexivity|].
    assert (Ht : Py.truthy (VStr (String c r)) = true)
      by (apply truthy_str; discriminate).
    unfold format_datetime. rewrite Ht.
    now rewrite (fromisoformat_no_year _ H).
Qed.

Lemma format_datetime_spec_witness :
  format_datetime (VStr "2024-01-05T10:00:00Z") = "05/01/2024 10:00:00"
  /\ format_datetime (VStr "2024-01-05 10:00") = "05/01/2024 10:00:00"
  /\ format_datetime (VStr "12/05/2024") = "12/05/2024".
Proof.
  destruct format_datetime_spec as (_ & _ & Hiso & Hok & Herr).
  split; [|split].
  - apply (Hiso 2024 1 5 10 0 0); [reflexivity | lia].
  - apply (Hok "2024-01-05 10:00" (mkdatetime 2024 1 5 10 0 0 0 None));
      [reflexivity | cbn; lia].
  - apply (Herr "12/05/2024"). reflexivity.
Defined.

(** ** Facts about the traceability loop *)

Lemma trace_loop_app (tr : trace) (l m : list value) :
  trace_loop tr (l ++ m)%list = (tr' <- trace_loop tr l ;; trace_loop tr' m).
Proof.
  revert tr. induction l as [|a l IH]; intros tr; [reflexivity|].
  cbn [List.app trace_loop]. destruct (trace_step tr a); [apply IH | reflexivity].
Qed.

Lemma event_of_attr_name (e : event) : event_of_name (attr_name e) = Some e.
Proof. destruct e; vm_compute; reflexivity. Qed.

Lemma event_of_carrier_name (name : string) :
  normalize_separators name = attr_name EvTransportista ->
  event_of_name name = Some EvTransportista.
Proof.
  intros H. unfold event_of_name.
  destruct (String.eqb name "embalado") eqn:E1.
  { apply String.eqb_eq in E1. subst name. vm_compute in H. discriminate H. }
  destruct (String.eqb name "transferido_a_tienda") eqn:E2.
  { apply String.eqb_eq in E2. subst name. vm_compute in H. discriminate H. }
  destruct (String.eqb name "listo_para_retiro") eqn:E3.
  { apply String.eqb_eq in E3. subst name. vm_compute in H. discriminate H. }
  destruct (String.eqb name "retirado_por_cliente") eqn:E4.
  { apply String.eqb_eq in E4. subst name. vm_compute in H. discriminate H. }
  unfold normalize_separators in H. cbv zeta. rewrite H. reflexivity.
Qed.

Lemma trace_get_set (e : event) (v : string) (tr : trace) :
  trace_get e (trace_set e v tr) = v.
Proof. destruct e; reflexivity. Qed.

(** C2 as the specification states it fails: an attribute named
    [Transferido-a-tienda] is the event's name up to case and separators,
    its value parses, and the event's field stays empty. *)
Lemma extract_traceability_dash_name_dropped :
  same_name "Transferido-a-tienda" (attr_name EvTransferido) = true
  /\ parse_trace_dt (VStr "2024-01-05T10:00:00Z") = "05/01/2024 10:00:00"
  /\ extract_traceability
       (VList [VDict [("name", VStr "Transferido-a-tienda");
                      ("value", VStr "2024-01-05T10:00:00Z")]])
     = Ok empty_trace.
Proof. repeat split; vm_compute; reflexivity. Qed.

(** C2 (amended): an attribute whose trimmed name equals, up to letter
    case, the name of one of the five events ([embalado],
    [transferido_a_tienda], [listo_para_retiro], [retirado_por_cliente],
    [entregado_a_transportista]) gives the event's field the attribute's
    parsed value; for the carrier event alone the name may moreover have
    ['-'] or [' '] where the event's name has ['_'] ([same_name]). *)
Theorem extract_traceability_names :
  forall (e : event) (d : list (string * value)) (name : string) (v : value)
         (pre : list value) (tr : trace),
    Py.field d "name" (VStr EmptyString) = VStr name ->
    Py.field d "value" (VStr EmptyString) = v ->
    Str.lower (Str.strip name) = attr_name e
    \/ (e = EvTransportista
        /\ same_name (Str.strip name) (attr_name EvTransportista) = true) ->
    trace_loop empty_trace pre = Ok tr ->
    exists tr' : trace,
      extract_traceability (VList (pre ++ [VDict d])%list) = Ok tr'
      /\ trace_get e tr' = parse_trace_dt (VStr (Str.strip (Py.str v))).
Proof.
  intros e d name v pre tr Hn Hv Hname Hpre.
  exists (trace_set e (parse_trace_dt (VStr (Str.strip (Py.str v)))) tr).
  split; [|apply trace_get_set].
  unfold extract_traceability.
  replace (Py.truthy (VList (pre ++ [VDict d])%list)) with true
    by (now destruct pre).
  cbn [negb Py.iter bind]. rewrite trace_loop_app, Hpre.
  cbn [bind trace_loop]. unfold trace_step. cbn [Py.get bind].
  rewrite Hn, Hv. cbn [Py.str].
  assert (He : event_of_name (Str.lower (Str.strip name)) = Some e).
  { destruct Hname as [-> | [-> H]]; [apply event_of_attr_name|].
    apply event_of_carrier_name. unfold same_name in H.
    now apply String.eqb_eq in H. }
  rewrite He. reflexivity.
Qed.

Lemma extract_traceability_names_witness :
  (exists tr' : trace,
      extract_traceability
        (VList [VDict [("name", VStr " TRANSFERIDO_A_TIENDA ");
                       ("value", VStr "2024-01-05T10:00:00Z")]]) = Ok tr'
      /\ trace_get EvTransferido tr' = "05/01/2024 10:00:00")
  /\ (exists tr' : trace,
        extract_traceability
          (VList [VDict [("name", VStr "Entregado a-Transportista");
                         ("value", VStr "05-01-2024 a las 3:45:10 p.m.")]]) = Ok tr'
        /\ trace_get EvTransportista tr' = "05/01/2024 15:45:10").
Proof.
  split.
  - apply (extract_traceability_names EvTransferido
             [("name", VStr " TRANSFERIDO_A_TIENDA ");
              ("value", VStr "2024-01-05T10:00:00Z")]
             " TRANSFERIDO_A_TIENDA " (VStr "2024-01-05T10:00:00Z")
             [] empty_trace);
      [reflexivity | reflexivity | left; reflexivity | reflexivity].
  - apply (extract_traceability_names EvTransportista
             [("name", VStr "Entregado a-Transportista");
              ("value", VStr "05-01-2024 a las 3:45:10 p.m.")]
             "Entregado a-Transportista" (VStr "05-01-2024 a las 3:45:10 p.m.")
             [] empty_trace);
      [reflexivity | reflexivity | right; split; reflexivity | reflexivity].
Defined.

(** ** Facts about the order of strings *)

Lemma str_leb_refl (s : string) : String.leb s s = true.
Proof. destruct (String.leb_total s s); assumption. Qed.

Lemma str_leb_nil (s : string) : String.leb EmptyString s = true.
Proof. now destruct s. Qed.

Lemma str_leb_trans (a b c : string) :
  String.leb a b = true -> String.leb b c = true -> String.leb a c = true.
Proof.
  unfold String.leb. revert b c.
  induction a as [|x a IH]; intros [|y b] [|z c]; simpl; try easy.
  unfold Ascii.compare.
  destruct (N.compare_spec (N_of_ascii x) (N_of_ascii y)) as [Exy|Lxy|Gxy];
    destruct (N.compare_spec (N_of_ascii y) (N_of_ascii z)) as [Eyz|Lyz|Gyz];
    destruct (N.compare_spec (N_of_ascii x) (N_of_ascii z)) as [Exz|Lxz|Gxz];
    try easy; try lia.
  apply IH.
Qed.

Lemma ltb_false_leb (a b : string) : String.ltb a b = false -> String.leb b a = true.
Proof.
  unfold String.ltb, String.leb. rewrite (String.compare_antisym b a).
  now destruct (String.compare a b).
Qed.

Lemma ltb_true_leb (a b : string) : String.ltb a b = true -> String.leb a b = true.
Proof.
  unfold String.ltb, String.leb. now destruct (String.compare a b).
Qed.

Lemma str_leb_antisym (a b : string) :
  String.leb a b = true -> String.leb b a = true -> a = b.
Proof.
  unfold String.leb. rewrite (String.compare_antisym b a).
  destruct (String.compare a b) eqn:E; cbn [CompOpp]; try discriminate.
  intros _ _. now apply String.compare_eq_iff.
Qed.

(** ** Facts about [get_fulfilled_at] *)

Lemma truthy_fields_stamped (fs : list value) (cs : list (option string)) :
  Forall2 stamped fs cs ->
  truthy_fields "created_at" fs
  = Ok (List.map VStr (List.filter nonempty (present cs))).
Proof.
  induction 1 as [|f c fs cs (fd & -> & Hc) _ IH]; [reflexivity|].
  cbn [truthy_fields Py.get bind]. rewrite Hc, IH. cbn [bind].
  destruct c as [s|]; [|reflexivity].
  cbn [present List.flat_map List.app List.filter Py.truthy]. fold (present cs).
  unfold nonempty. now destruct (String.eqb s EmptyString).
Qed.

Lemma max_from_strings (l : list string) (best : string) :
  Py.max_from (VStr best) (List.map VStr l)
  = Ok (VStr (List.fold_left greater l best)).
Proof.
  revert best. induction l as [|x l IH]; intros best; [reflexivity|].
  cbn [List.map Py.max_from Py.gt bind List.fold_left]. rewrite <- IH.
  unfold greater. now destruct (String.ltb best x).
Qed.

Lemma fold_greater_spec (l : list string) (best : string) :
  let m := List.fold_left greater l best in
  (m = best \/ In m l)
  /\ String.leb best m = true
  /\ (forall x, In x l -> String.leb x m = true).
Proof.
  revert best. induction l as [|x l IH]; intros best; cbn [List.fold_left].
  - split; [now left|]. split; [apply str_leb_refl | intros ? []].
  - destruct (IH (greater best x)) as (Hin & Hb & Hall).
    assert (Hbx : String.leb best (greater best x) = true
                  /\ String.leb x (greater best x) = true).
    { unfold greater. destruct (String.ltb best x) eqn:E.
      - split; [now apply ltb_true_leb | apply str_leb_refl].
      - split; [apply str_leb_refl | now apply ltb_false_leb]. }
    destruct Hbx as [Hb1 Hx1].
    split; [|split].
    + destruct Hin as [-> | Hin]; [|right; now right].
      unfold greater. destruct (String.ltb best x); [right; now left | now left].
    + eapply str_leb_trans; eassumption.
    + intros y [<- | Hy]; [eapply str_leb_trans; eassumption | now apply Hall].
Qed.

Lemma filter_nonempty_none (cs : list string) :
  List.filter nonempty cs = [] -> forall x, In x cs -> x = EmptyString.
Proof.
  induction cs as [|c cs IH]; [intros _ ? []|].
  cbn [List.filter]. unfold nonempty at 1.
  destruct (String.eqb c EmptyString) eqn:E; [|discriminate].
  apply String.eqb_eq in E. intros H x [<- | Hx]; [assumption | now apply IH].
Qed.

(** [get_fulfilled_at] on stamped records: the greatest stamp, or [None]
    when no stamp is there or every stamp is empty; [format_datetime] of it
    is [format_datetime] of the greatest stamp when one is there, and the
    empty string otherwise. *)
Lemma get_fulfilled_at_stamped (d : list (string * value)) (fs : list value)
  (cs : list (option string)) :
  fs <> [] ->
  Py.field d "fulfillments" VNone = VList fs ->
  Forall2 stamped fs cs ->
  exists fa : value,
    get_fulfilled_at (VDict d) = Ok fa
    /\ (present cs = [] -> format_datetime fa = EmptyString)
    /\ (present cs <> [] ->
        exists m : string,
          In m (present cs)
          /\ (forall x, In x (present cs) -> String.leb x m = true)
          /\ format_datetime fa = format_datetime (VStr m)).
Proof.
  intros Hne Hf Hst. unfold get_fulfilled_at. cbn [Py.get bind]. rewrite Hf.
  assert (Ht : Py.truthy (VList fs) = true) by (now destruct fs).
  unfold Py.or. rewrite Ht. cbv zeta. rewrite Ht. cbn [negb Py.iter bind].
  rewrite (truthy_fields_stamped _ _ Hst). cbn [bind].
  destruct (List.filter nonempty (present cs)) as [|c0 rest] eqn:Ef.
  - pose proof (filter_nonempty_none _ Ef) as Hall.
    exists VNone. split; [reflexivity|]. split; [reflexivity|].
    intros Hp. destruct (present cs) as [|c cs']; [congruence|].
    exists EmptyString.
    split; [left; apply Hall; now left|].
    split; [|reflexivity].
    intros x Hx. rewrite (Hall x Hx). reflexivity.
  - cbn [List.map Py.max]. rewrite max_from_strings.
    destruct (fold_greater_spec rest c0) as (Hin & Hb & Hall).
    set (m := List.fold_left greater rest c0) in *.
    exists (VStr m). split; [reflexivity|].
    split; [intros Hp; rewrite Hp in Ef; discriminate Ef|].
    intros _. exists m.
    assert (Hsub : forall x, In x (c0 :: rest) ->
                     In x (present cs) /\ nonempty x = true)
      by (intros x Hx; rewrite <- Ef in Hx; now apply filter_In in Hx).
    split; [|split; [|reflexivity]].
    + apply Hsub. destruct Hin as [-> | Hin]; [now left | now right].
    + intros x Hx. destruct (nonempty x) eqn:En.
      * assert (Hx' : In x (c0 :: rest))
          by (rewrite <- Ef; apply filter_In; now split).
        destruct Hx' as [<- | Hx']; [assumption | now apply Hall].
      * unfold nonempty in En. apply negb_false_iff, String.eqb_eq in En.
        subst x. apply str_leb_nil.
Qed.

Lemma get_fulfilled_at_none (d : list (string * value)) :
  Py.truthy (Py.field d "fulfillments" VNone) = false ->
  get_fulfilled_at (VDict d) = Ok VNone.
Proof.
  intros H. unfold get_fulfilled_at, Py.or. cbn [Py.get bind].
  rewrite H. reflexivity.
Qed.

(** ** The shape of a mapped row *)

Lemma order_to_row_inv (o : value) (r : row) :
  order_to_row o = Ok r -> exists d, o = VDict d /\ mapped d r.
Proof.
  destruct o as [| | | | | |d]; try discriminate. intros H. exists d.
  split; [reflexivity|]. unfold order_to_row in H. cbv zeta in H.
  do 15 bind_inv H.
  injection H as <-.
  econstructor; try eassumption. reflexivity.
Qed.

Lemma assemble_columns d a b c e f g h i j k l :
  List.map fst (assemble d a b c e f g h i j k l) = columns.
Proof. reflexivity. Qed.

Lemma field_absent (d : list (string * value)) (k : string) (default : value) :
  Py.lookup d k = None -> Py.field d k default = default.
Proof. unfold Py.field. now intros ->. Qed.

Lemma mapped_fulfilled_at (d : list (string * value)) (r : row) :
  mapped d r ->
  exists fa : value,
    get_fulfilled_at (VDict d) = Ok fa
    /\ cell r "Fulfilled at" = Some (VStr (format_datetime fa)).
Proof.
  intros []. subst r. eexists. split; [eassumption | reflexivity].
Qed.

(** C5: in the row of an order without fulfillment records the field
    [Fulfilled at] is the empty string; when the order has at least one, the
    records have a creation stamp that is greatest in lexicographic order
    (unless none has a stamp, and the field is then the empty string), and
    the field is [format_datetime] of it: [DD/MM/YYYY HH:MM:SS] when that
    stamp is a UTC timestamp [YYYY-MM-DDTHH:MM:SSZ] of a year from 1000
    on. *)
Theorem fulfilled_at_spec :
  forall (d : list (string * value)) (r : row),
    order_to_row (VDict d) = Ok r ->
    (Py.truthy (Py.field d "fulfillments" VNone) = false ->
     cell r "Fulfilled at" = Some (VStr EmptyString))
    /\ (forall (fs : list value) (cs : list (option string)),
          fs <> [] ->
          Py.field d "fulfillments" VNone = VList fs ->
          Forall2 stamped fs cs ->
          (present cs = [] -> cell r "Fulfilled at" = Some (VStr EmptyString))
          /\ (present cs <> [] ->
              exists m : string,
                In m (present cs)
                /\ (forall c : string, In c (present cs) -> String.leb c m = true))
          /\ (forall m : string,
                In m (present cs) ->
                (forall c : string, In c (present cs) -> String.leb c m = true) ->
                cell r "Fulfilled at" = Some (VStr (format_datetime (VStr m)))
                /\ (forall y mo d' h mi s : Z,
                      m = iso_utc y mo d' h mi s ->
                      DateTime.valid y mo d' h mi s 0 = true ->
                      1000 <= y ->
                      cell r "Fulfilled at"
                      = Some (VStr (dd_mm_yyyy y mo d' h mi s))))).
Proof.
  intros d r H. apply order_to_row_inv in H as (d' & [= <-] & Hm).
  destruct (mapped_fulfilled_at _ _ Hm) as (fa & Hfa & Hcell).
  split.
  - intros Hno. rewrite (get_fulfilled_at_none _ Hno) in Hfa.
    injection Hfa as <-. exact Hcell.
  - intros fs cs Hne Hf Hst.
    destruct (get_fulfilled_at_stamped d fs cs Hne Hf Hst)
      as (fa' & Hfa' & Hnone & Hsome).
    rewrite Hfa in Hfa'. injection Hfa' as <-.
    split; [intros Hp; now rewrite Hcell, (Hnone Hp)|].
    split.
    + intros Hp. destruct (Hsome Hp) as (m & Hin & Hmax & _). now exists m.
    + intros m Hin Hmax.
      assert (Hp : present cs <> []) by (intros E; rewrite E in Hin; destruct Hin).
      destruct (Hsome Hp) as (m0 & Hin0 & Hmax0 & Hfmt).
      assert (Em : m0 = m)
        by (apply str_leb_antisym; [now apply Hmax | now apply Hmax0]).
      subst m0.
      assert (Hc : cell r "Fulfilled at" = Some (VStr (format_datetime (VStr m))))
        by (now rewrite Hcell, Hfmt).
      split; [exact Hc|].
      intros y mo d' h mi s -> Hv Hy.
      now rewrite Hc, (format_datetime_iso_utc _ _ _ _ _ _ Hv Hy).
Qed.

Lemma fulfilled_at_spec_witness :
  cell empty_order_row "Fulfilled at" = Some (VStr EmptyString)
  /\ (exists r : row,
        order_to_row (VDict order_two_fulfillments) = Ok r
        /\ cell r "Fulfilled at" = Some (VStr "07/01/2024 08:30:00")).
Proof.
  split.
  - apply (proj1 (fulfilled_at_spec [] empty_order_row eq_refl)). reflexivity.
  - destruct (order_to_row (VDict order_two_fulfillments)) as [r|] eqn:E;
      [|discriminate E].
    exists r. split; [reflexivity|].
    destruct (proj2 (fulfilled_at_spec _ r E)
                [VDict [("id", VInt 1); ("created_at", VStr "2024-01-05T10:00:00Z")];
                 VDict [("status", VStr "pending")];
                 VDict [("created_at", VStr "2024-01-07T08:30:00Z");
                        ("status", VStr "success")]]
                [Some "2024-01-05T10:00:00Z"; None; Some "2024-01-07T08:30:00Z"])
      as (_ & _ & Hmax).
    + discriminate.
    + reflexivity.
    + repeat constructor; eexists; split; reflexivity.
    + destruct (Hmax "2024-01-07T08:30:00Z") as (_ & Hpin).
      * right. now left.
      * intros c [<- | [<- | []]]; reflexivity.
      * apply (Hpin 2024 1 7 8 30 0); [reflexivity | reflexivity | lia].
Defined.

Lemma mapM_inv {A B : Type} (f : A -> result B) (l : list A) (rs : list B) :
  mapM f l = Ok rs -> Forall2 (fun x y => f x = Ok y) l rs.
Proof.
  revert rs. induction l as [|x l IH]; intros rs; cbn [mapM].
  - intros [= <-]. constructor.
  - destruct (f x) as [y|] eqn:E; [|discriminate]. cbn [bind].
    destruct (mapM f l) as [ys|]; [|discriminate]. cbn [bind].
    intros [= <-]. constructor; [assumption | now apply IH].
Qed.

Lemma mapped_absent_defaults (d : list (string * value)) (r : row) :
  mapped d r -> absent_defaults d r.
Proof.
  intros [line_items skus statuses n_skus total lf rs sm tr fa shop amount bc bp sc
            Hiter Hskus Hlen Hsum Hst Hjoin Hany Hsm Htr Hfa Hshop Hamount
            Hbc Hbp Hsc ->].
  assert (Hitems : Py.lookup d "line_items" = None -> line_items = []).
  { intros Hk. rewrite (field_absent _ _ _ Hk) in Hiter. now injection Hiter. }
  unfold absent_defaults.
  split.
  { intros col key Hin Hk. in_cases Hin;
      cbn; rewrite (field_absent _ _ _ Hk); reflexivity. }
  split.
  { intros col key Hin Hk. in_cases Hin;
      cbn; rewrite (field_absent _ _ _ Hk); reflexivity. }
  split.
  { intros col key Hin Hk. in_cases Hin;
      cbn; rewrite (field_absent _ _ _ Hk); reflexivity. }
  split.
  { intros Hk. rewrite (field_absent _ _ _ Hk) in Hshop.
    injection Hshop as <-. injection Hamount as <-. reflexivity. }
  split.
  { intros Hk. rewrite get_fulfilled_at_none in Hfa
      by (now rewrite (field_absent _ _ _ Hk)).
    injection Hfa as <-. reflexivity. }
  split.
  { intros Hk. specialize (Hitems Hk). subst line_items.
    injection Hskus as <-. injection Hlen as <-. injection Hsum as <-.
    injection Hst as <-. injection Hjoin as <-. injection Hany as <-.
    repeat split. }
  split.
  { intros Hk. rewrite (field_absent _ _ _ Hk) in Hsm.
    injection Hsm as <-. reflexivity. }
  split.
  { intros Hk. rewrite (field_absent _ _ _ Hk) in Htr.
    injection Htr as <-. repeat constructor. }
  split.
  { intros Hk. rewrite (field_absent _ _ _ Hk) in Hbc, Hbp.
    injection Hbc as <-. injection Hbp as <-. split; reflexivity. }
  intros Hk. rewrite (field_absent _ _ _ Hk) in Hsc.
  injection Hsc as <-. reflexivity.
Qed.

(** C8 as the specification states it fails: the order with no field maps
    to a row whose [Order_ID] is [None], neither an empty string nor zero. *)
Lemma empty_order_row_has_none :
  orders_to_rows [empty_order] = Ok [empty_order_row]
  /\ cell empty_order_row "Order_ID" = Some VNone.
Proof. split; vm_compute; reflexivity. Qed.

(** C8 (amended): every row the Row Mapper returns has the same 27 column
    names, in the same order, one row per order; a source field the order
    lacks leaves [None] in the columns that copy a field (and in the
    address columns), an empty string in the timestamp, traceability,
    shipping-method and line-item-status columns, [0.0] in the monetary
    columns, [0] in the two counts and [False] in the requires-shipping
    flag; no column is ever missing. *)
Theorem rows_have_fixed_columns :
  forall (orders : list value) (rows : list row),
    orders_to_rows orders = Ok rows ->
    List.length rows = List.length orders
    /\ Forall (fun r => List.map fst r = columns) rows
    /\ Forall2 (fun o r => exists d, o = VDict d /\ absent_defaults d r)
         orders rows.
Proof.
  intros orders rows H. apply mapM_inv in H.
  induction H as [|o r orders rows Ho _ (IHlen & IHcols & IHabs)].
  - repeat split; constructor.
  - apply order_to_row_inv in Ho as (d & -> & Hm).
    split; [cbn [List.length]; now rewrite IHlen|].
    split.
    + constructor; [|assumption]. destruct Hm. subst r. apply assemble_columns.
    + constructor; [|assumption]. exists d. split; [reflexivity|].
      now apply mapped_absent_defaults.
Qed.

Lemma rows_have_fixed_columns_witness :
  exists rows : list row,
    orders_to_rows [empty_order; order_sparse] = Ok rows
    /\ List.length rows = 2%nat
    /\ Forall (fun r => List.map fst r = columns) rows.
Proof.
  destruct (orders_to_rows [empty_order; order_sparse]) as [rows|] eqn:E;
    [|discriminate E].
  exists rows. split; [reflexivity|].
  destruct (rows_have_fixed_columns _ rows E) as (Hlen & Hcols & _).
  split; assumption.
Defined.

(** C1: the Row Mapper raises on an order whose line item has a quantity
    that is not a numeral; no default stands in for it. *)
Lemma orders_to_rows_bad_quantity :
  orders_to_rows [order_bad_quantity] = Raise ValueError.
Proof. vm_compute. reflexivity. Qed.

Section PipelineFacts.

Variable SHOP_DOMAIN SHOP_TOKEN API_VERSION SHEET_ID TAB_NAME : string.
Variable DAYS_BACK : Z.
Variable created_at_min : string.
Variable server : list request -> request -> result response.
Variable dataframe_values : list row -> cells.
Variable connect_gsheets : result unit.

(** The fetcher only sends requests: it writes no tab and prints nothing. *)
Lemma fetch_loop_frame (fuel : nat) :
  forall url params orders w w' res,
    fetch_loop SHOP_TOKEN server fuel url params orders w = (w', res) ->
    (exists more, sent w' = (sent w ++ more)%list)
    /\ tabs w' = tabs w /\ stdout w' = stdout w.
Proof.
  induction fuel as [|n IH]; intros url params orders w w' res; cbn [fetch_loop].
  - intros [= <- <-]. split; [exists []; now rewrite app_nil_r | now split].
  - set (q := mkrequest url (HEADERS SHOP_TOKEN) params).
    assert (Hstop : forall x, (send q w, x) = (w', res) ->
              (exists more, sent w' = (sent w ++ more)%list)
              /\ tabs w' = tabs w /\ stdout w' = stdout w).
    { intros x [= <- <-]. split; [now exists [q] | now split]. }
    destruct (server (sent w) q) as [r|e]; [|apply Hstop].
    destruct (negb (status_code r =? 200)); [apply Hstop|].
    destruct (bind (json r) _) as [page|e]; [|apply Hstop].
    destruct (_get_next_page_url (link r)) as [[|c next]|]; try apply Hstop.
    intros H. apply IH in H as ((more & Hs) & Ht & Ho).
    split; [|now split].
    exists (q :: more). rewrite Hs. cbn [send sent]. now rewrite <- app_assoc.
Qed.

(** The request that gets a status other than 200 is the last one sent,
    and the loop ends with the error of line 132. *)
Lemma fetch_loop_failure (fuel : nat) :
  forall url params orders w w' res pre post q r,
    fetch_loop SHOP_TOKEN server fuel url params orders w = (w', res) ->
    sent w' = (sent w ++ pre ++ q :: post)%list ->
    server (sent w ++ pre)%list q = Ok r ->
    status_code r <> 200 ->
    post = [] /\ res = Some (Raise (shopify_error r)).
Proof.
  induction fuel as [|n IH]; intros url params orders w w' res pre post q r;
    cbn [fetch_loop].
  - intros [= <- <-] Hs. exfalso.
    apply (f_equal (@List.length request)) in Hs.
    rewrite !length_app in Hs. cbn [List.length] in Hs. lia.
  - set (q0 := mkrequest url (HEADERS SHOP_TOKEN) params).
    intros Hrun Hs Hq Hr.
    assert (Hfirst : forall x, (send q0 w, x) = (w', res) ->
              pre = [] /\ q = q0 /\ post = [] /\ x = res).
    { intros x [= <- <-]. cbn [send sent] in Hs.
      apply app_inv_head in Hs.
      destruct pre as [|p pre]; cbn [List.app] in Hs.
      - injection Hs as <- <-. auto.
      - injection Hs as _ Hs. destruct pre; discriminate Hs. }
    revert Hrun.
    destruct (server (sent w) q0) as [r0|e] eqn:E0.
    2:{ intros Hrun. apply Hfirst in Hrun as (-> & -> & _ & _).
        rewrite app_nil_r, E0 in Hq. discriminate Hq. }
    destruct (negb (status_code r0 =? 200)) eqn:E200.
    { intros Hrun. apply Hfirst in Hrun as (-> & -> & -> & <-).
      rewrite app_nil_r, E0 in Hq. injection Hq as ->. now split. }
    apply negb_false_iff, Z.eqb_eq in E200.
    assert (Hnot : forall x, (send q0 w, x) = (w', res) ->
              post = [] /\ res = Some (Raise (shopify_error r))).
    { intros x Hx. apply Hfirst in Hx as (-> & -> & _ & _).
      rewrite app_nil_r, E0 in Hq. injection Hq as ->. contradiction. }
    destruct (bind (json r0) _) as [page|e]; [|apply Hnot].
    destruct (_get_next_page_url (link r0)) as [[|c next]|]; try apply Hnot.
    intros Hrun.
    destruct (fetch_loop_frame _ _ _ _ _ _ _ Hrun) as ((more & Hmore) & _).
    cbn [send sent] in Hmore. rewrite Hmore, <- app_assoc in Hs.
    apply app_inv_head in Hs.
    destruct pre as [|p pre]; cbn [List.app] in Hs.
    + injection Hs as <- _. rewrite app_nil_r, E0 in Hq.
      injection Hq as ->. contradiction.
    + injection Hs as <- ->.
      apply (IH _ _ _ _ _ _ pre post q r Hrun).
      * exact Hmore.
      * cbn [send sent]. rewrite <- app_assoc. exact Hq.
      * assumption.
Qed.

Lemma take_length (n : nat) (s : string) : (String.length (Str.take n s) <= n)%nat.
Proof.
  unfold Str.take. revert s. induction n as [|n IH]; intros [|c s]; simpl; try lia.
  specialize (IH s). lia.
Qed.

Lemma take_prefix (n : nat) (s : string) : prefix (Str.take n s) s = true.
Proof.
  unfold Str.take. revert s. induction n as [|n IH]; intros [|c s]; simpl; try reflexivity.
  destruct (ascii_dec c c); [apply IH | congruence].
Qed.

(** C6: when a request of a run gets a status other than 200, no request
    follows it (no retry), the fetcher ends with a [RuntimeError] whose
    message is ["Shopify "], the status code, [": "] and the first 900
    characters at most of the response body, [main] ends with that error,
    and the spreadsheet's tabs are what they were before the run. *)
Theorem fetch_failure_is_fatal :
  forall (fuel : nat) (w w' : world) (res : option (result (list value)))
         (pre post : list request) (q : request) (r : response),
    fetch_all_orders SHOP_DOMAIN SHOP_TOKEN API_VERSION server fuel
      "any" 250 (Some created_at_min) w = (w', res) ->
    sent w' = (sent w ++ pre ++ q :: post)%list ->
    server (sent w ++ pre)%list q = Ok r ->
    status_code r <> 200 ->
    post = []
    /\ res = Some (Raise (shopify_error r))
    /\ (exists excerpt : string,
          shopify_error r
          = RuntimeError ("Shopify " ++ Str.of_Z (status_code r) ++ ": " ++ excerpt)
          /\ (String.length excerpt <= 900)%nat
          /\ prefix excerpt (text r) = true)
    /\ main SHOP_DOMAIN SHOP_TOKEN API_VERSION SHEET_ID TAB_NAME DAYS_BACK
         created_at_min server dataframe_values connect_gsheets fuel w
       = (w', Some (Raise (shopify_error r)))
    /\ tabs w' = tabs w.
Proof.
  intros fuel w w' res pre post q r Hrun Hs Hq Hr.
  pose proof Hrun as Hrun'. unfold fetch_all_orders in Hrun'.
  destruct (fetch_loop_failure _ _ _ _ _ _ _ _ _ _ _ Hrun' Hs Hq Hr) as [-> ->].
  destruct (fetch_loop_frame _ _ _ _ _ _ _ Hrun') as (_ & Ht & _).
  split; [reflexivity|]. split; [reflexivity|]. split; [|split; [|assumption]].
  - exists (Str.take 900 (text r)).
    split; [reflexivity|]. split; [apply take_length | apply take_prefix].
  - unfold main. now rewrite Hrun.
Qed.

End PipelineFacts.

Lemma fetch_failure_is_fatal_witness :
  main "shop.example" "token" "2025-01" "sheet-1" "Pedidos" 7
    "2024-01-01T00:00:00+00:00" demo_server (fun _ => []) (Ok tt) 5 demo_world
  = (mkworld [demo_request1; demo_request2] (tabs demo_world) [],
     Some (Raise (RuntimeError "Shopify 500: Internal Server Error"))).
Proof.
  apply (fetch_failure_is_fatal "shop.example" "token" "2025-01" "sheet-1"
           "Pedidos" 7 "2024-01-01T00:00:00+00:00" demo_server (fun _ => [])
           (Ok tt) 5 demo_world
           (mkworld [demo_request1; demo_request2] (tabs demo_world) [])
           (Some (Raise (shopify_error demo_page2)))
           [demo_request1] [] demo_request2 demo_page2).
  - vm_compute. reflexivity.
  - reflexivity.
  - reflexivity.
  - vm_compute. discriminate.
Defined.

(** ** Facts about the characters of a numeral *)

Lemma all_chars_app (p : ascii -> bool) (s t : string) :
  all_chars p (s ++ t) = all_chars p s && all_chars p t.
Proof.
  induction s as [|a s IH]; [reflexivity|]. simpl. now rewrite IH, andb_assoc.
Qed.

Lemma all_chars_rev (p : ascii -> bool) (s : string) :
  all_chars p (Str.rev s) = all_chars p s.
Proof.
  induction s as [|a s IH]; [reflexivity|].
  rewrite str_rev_cons, all_chars_app, IH. simpl. rewrite andb_true_r.
  apply andb_comm.
Qed.

Lemma all_chars_weaken (p q : ascii -> bool) (s : string) :
  (forall c, p c = true -> q c = true) ->
  all_chars p s = true -> all_chars q s = true.
Proof.
  intros H. induction s as [|a s IH]; [reflexivity|].
  simpl. rewrite !andb_true_iff. intros [Ha Hs]. auto.
Qed.

Lemma float_char_space (c : ascii) :
  (Str.code c <= 32 \/ 128 <= Str.code c)%nat -> float_char c = true.
Proof.
  intros H. unfold float_char. rewrite !orb_true_iff, !Nat.leb_le. tauto.
Qed.

Lemma float_char_digit (c : ascii) : Str.is_digit c = true -> float_char c = true.
Proof. intros H. unfold float_char. now rewrite H. Qed.

(** White space is made of float characters, so stripping loses none
    other. *)
Lemma lstrip_gen_chars (back : bool) :
  forall (n : nat) (s : string), (String.length s <= n)%nat ->
    all_chars float_char (Str.lstrip_gen back s) = true ->
    all_chars float_char s = true.
Proof.
  induction n as [|n IH]; intros s Hn.
  - destruct s; [auto | simpl in Hn; lia].
  - destruct s as [|a s1]; [auto|].
    cbn [Str.lstrip_gen].
    destruct (Str.is_space1 a) eqn:E1.
    { apply space1_code in E1. intros H. cbn [all_chars].
      rewrite float_char_space by lia. apply IH; [simpl in Hn; lia | exact H]. }
    destruct s1 as [|b s2]; [auto|].
    destruct (if back then Str.is_space2 b a else Str.is_space2 a b) eqn:E2.
    { assert ((128 <= Str.code a)%nat /\ (128 <= Str.code b)%nat) as [Ha Hb]
        by (destruct back; apply space2_code in E2; tauto).
      intros H. cbn [all_chars]. rewrite !float_char_space by lia.
      apply IH; [simpl in Hn; lia | exact H]. }
    destruct s2 as [|d s3]; [auto|].
    destruct (if back then Str.is_space3 d b a else Str.is_space3 a b d) eqn:E3;
      [|auto].
    assert ((128 <= Str.code a)%nat /\ (128 <= Str.code b)%nat
            /\ (128 <= Str.code d)%nat) as (Ha & Hb & Hd)
      by (destruct back; apply space3_code in E3; tauto).
    intros H. cbn [all_chars]. rewrite !float_char_space by lia.
    apply IH; [simpl in Hn; lia | exact H].
Qed.

Lemma strip_chars (s : string) :
  all_chars float_char (Str.strip s) = true -> all_chars float_char s = true.
Proof.
  unfold Str.strip, Str.rstrip, Str.lstrip. rewrite all_chars_rev. intros H.
  apply (lstrip_gen_chars true _ _ (le_n _)) in H. rewrite all_chars_rev in H.
  now apply (lstrip_gen_chars false _ _ (le_n _)) in H.
Qed.

Lemma drop_underscores_chars (s t : string) (prev : ascii) :
  Py.drop_underscores prev s = Some t ->
  all_chars float_char t = true -> all_chars float_char s = true.
Proof.
  revert prev t. induction s as [|c s IH]; intros prev t; simpl; [auto|].
  destruct (Ascii.eqb c "_") eqn:E.
  - apply Ascii.eqb_eq in E. subst c.
    destruct (Str.is_digit prev); [|discriminate].
    intros H Ht. now rewrite (IH _ _ H Ht).
  - destruct (Ascii.eqb prev "_" && negb (Str.is_digit c)); [discriminate|].
    destruct (Py.drop_underscores c s) as [u|] eqn:Eu; [|discriminate].
    intros [= <-]. simpl. rewrite !andb_true_iff. intros [Hc Hu].
    split; [assumption | now apply (IH _ _ Eu)].
Qed.

Lemma take_sign_chars (s r : string) (neg : bool) :
  Py.take_sign s = (neg, r) ->
  all_chars float_char r = true -> all_chars float_char s = true.
Proof.
  unfold Py.take_sign. destruct s as [|c s]; [now intros [= <- <-]|].
  destruct (Ascii.eqb c "-") eqn:E1.
  { apply Ascii.eqb_eq in E1. subst c. now intros [= <- <-]. }
  destruct (Ascii.eqb c "+") eqn:E2.
  { apply Ascii.eqb_eq in E2. subst c. now intros [= <- <-]. }
  apply Ascii.eqb_neq in E1, E2.
  destruct c as [[] [] [] [] [] [] [] []]; try (now intros [= <- <-]);
    congruence.
Qed.

(** Text that lowers to a word of float characters is made of them. *)
Lemma lower_word_chars (r w : string) :
  Str.lower r = w -> all_chars (fun c => mem_char c "einfaty") w = true ->
  all_chars float_char r = true.
Proof.
  revert w. induction r as [|c r IH]; intros w; [auto|].
  cbn [Str.lower]. intros <-. cbn [all_chars]. rewrite !andb_true_iff.
  intros [Hc Hr]. split; [|now apply (IH _ eq_refl)].
  unfold float_char. rewrite Hc, orb_true_r. reflexivity.
Qed.

Lemma parse_exponent_chars (r : string) (e : Z) :
  Py.parse_exponent r = Some e -> all_chars float_char r = true.
Proof.
  unfold Py.parse_exponent. destruct r as [|c r]; [reflexivity|].
  destruct (Ascii.eqb c "e" || Ascii.eqb c "E") eqn:E; [|discriminate].
  destruct (Py.take_sign r) as [neg r1] eqn:Es.
  destruct (Str.span_digits r1) as [ds r2] eqn:Ed.
  destruct ds as [|d ds]; [discriminate|].
  destruct r2; [|discriminate]. intros _.
  apply span_digits_spec in Ed. destruct Ed as [-> Hd].
  cbn [all_chars]. apply andb_true_iff. split.
  - apply orb_true_iff in E as [E|E]; apply Ascii.eqb_eq in E; subst c; reflexivity.
  - apply (take_sign_chars _ _ _ Es). rewrite str_app_nil_r.
    apply (all_chars_weaken Str.is_digit); [apply float_char_digit|].
    clear -Hd. induction (String d ds) as [|x xs IH]; [reflexivity|].
    simpl in *. apply andb_true_iff in Hd as [Hx Hxs]. now rewrite Hx, IH.
Qed.

Lemma digits_chars (s : string) :
  Str.all_digits s = true -> all_chars float_char s = true.
Proof.
  induction s as [|x xs IH]; [reflexivity|].
  simpl. rewrite !andb_true_iff. intros [Hx Hxs].
  split; [now apply float_char_digit | now apply IH].
Qed.

Lemma parse_decimal_chars (s : string) (p : Z * Z) :
  Py.parse_decimal s = Some p -> all_chars float_char s = true.
Proof.
  unfold Py.parse_decimal.
  destruct (Str.span_digits s) as [ip r] eqn:Ei.
  apply span_digits_spec in Ei. destruct Ei as [-> Hi].
  rewrite all_chars_app, (digits_chars _ Hi). cbn [andb].
  assert (Hgen : forall fp r',
            match ip ++ fp with
            | EmptyString => None
            | String _ _ =>
                match Py.parse_exponent r' with
                | Some e => Some (Str.digits_to_Z (ip ++ fp), e - Z.of_nat (String.length fp))
                | None => None
                end
            end = Some p -> all_chars float_char r' = true).
  { intros fp r' H. destruct (ip ++ fp); [discriminate|].
    destruct (Py.parse_exponent r') eqn:Ee; [|discriminate].
    now apply parse_exponent_chars in Ee. }
  destruct r as [|c r1]; [reflexivity|].
  destruct (Ascii.eqb c ".") eqn:Ec.
  - apply Ascii.eqb_eq in Ec. subst c.
    destruct (Str.span_digits r1) as [fp r'] eqn:Ef.
    intros H. apply (Hgen fp r') in H.
    apply span_digits_spec in Ef. destruct Ef as [-> Hf].
    cbn [all_chars]. rewrite all_chars_app, (digits_chars _ Hf), H. reflexivity.
  - assert (Hm : (let '(fp, r') :=
                    match String c r1 with
                    | String "."%char r1 => Str.span_digits r1
                    | _ => (EmptyString, String c r1)
                    end in
                  match ip ++ fp with
                  | EmptyString => None
                  | String _ _ =>
                      match Py.parse_exponent r' with
                      | Some e => Some (Str.digits_to_Z (ip ++ fp), e - Z.of_nat (String.length fp))
                      | None => None
                      end
                  end) =
                 match ip ++ EmptyString with
                  | EmptyString => None
                  | String _ _ =>
                      match Py.parse_exponent (String c r1) with
                      | Some e => Some (Str.digits_to_Z (ip ++ EmptyString), e - Z.of_nat (String.length EmptyString))
                      | None => None
                      end
                  end).
    { apply Ascii.eqb_neq in Ec.
      destruct c as [[] [] [] [] [] [] [] []]; try reflexivity; congruence. }
    rewrite Hm. intros H. now apply (Hgen EmptyString (String c r1)) in H.
Qed.

Lemma parse_float_literal_chars (s : string) (f : float) :
  Py.parse_float_literal s = Some f -> all_chars float_char s = true.
Proof.
  unfold Py.parse_float_literal.
  destruct (Py.take_sign s) as [neg r] eqn:Es. intros H.
  apply (take_sign_chars _ _ _ Es). revert H.
  destruct (String.eqb (Str.lower r) "inf" || String.eqb (Str.lower r) "infinity") eqn:E1.
  { intros _. apply orb_true_iff in E1 as [E|E]; apply String.eqb_eq in E;
      apply (lower_word_chars _ _ E); reflexivity. }
  destruct (String.eqb (Str.lower r) "nan") eqn:E2.
  { intros _. apply String.eqb_eq in E2. apply (lower_word_chars _ _ E2). reflexivity. }
  destruct (Py.parse_decimal r) as [[m e]|] eqn:Ed; [|discriminate].
  intros _. now apply parse_decimal_chars in Ed.
Qed.

(** [float()] reads only text made of float characters. *)
Lemma float_of_string_chars (s : string) (f : float) :
  Py.float_of_string s = Ok f -> all_chars float_char s = true.
Proof.
  unfold Py.float_of_string.
  destruct (Py.drop_underscores "000" s) as [s1|] eqn:Eu; [|discriminate].
  destruct (Py.parse_float_literal (Str.strip s1)) as [g|] eqn:Ep; [|discriminate].
  intros _. apply parse_float_literal_chars, strip_chars in Ep.
  now apply (drop_underscores_chars _ _ _ Eu).
Qed.

Lemma float_of_string_raises (s : string) :
  (exists f, Py.float_of_string s = Ok f) \/ Py.float_of_string s = Raise ValueError.
Proof.
  unfold Py.float_of_string.
  destruct (Py.drop_underscores "000" s); [|now right].
  destruct (Py.parse_float_literal (Str.strip s0)); [left; eauto | now right].
Qed.

Lemma replace_comma_chars (s : string) :
  all_chars float_char (Str.replace "," "." s) = all_chars amount_char s.
Proof.
  induction s as [|a s IH]; [reflexivity|].
  rewrite replace_char_cons. cbn [all_chars]. rewrite IH. f_equal.
  unfold amount_char. destruct (Ascii.eqb a ",") eqn:E.
  - now rewrite orb_true_r.
  - now rewrite orb_false_r.
Qed.

(** Text with a character that no amount has is not read by [float()],
    commas replaced or not. *)
Lemma float_of_string_garbage (s : string) :
  all_chars amount_char s = false ->
  Py.float_of_string (Str.replace "," "." s) = Raise ValueError.
Proof.
  intros H. destruct (float_of_string_raises (Str.replace "," "." s)) as [[f Hf]|Hr];
    [|exact Hr].
  apply float_of_string_chars in Hf. rewrite replace_comma_chars in Hf. congruence.
Qed.

(** ** Facts about locale timestamps *)

Lemma lstrip_gen_printable (back : bool) (a : ascii) (r : string) :
  (32 < Str.code a < 128)%nat -> Str.lstrip_gen back (String a r) = String a r.
Proof.
  intros Ha. cbn [Str.lstrip_gen].
  destruct (Str.is_space1 a) eqn:E1; [apply space1_code in E1; lia|].
  destruct r as [|b r]; [reflexivity|].
  destruct (if back then Str.is_space2 b a else Str.is_space2 a b) eqn:E2;
    [destruct back; apply space2_code in E2; lia|].
  destruct r as [|c r]; [reflexivity|].
  destruct (if back then Str.is_space3 c b a else Str.is_space3 a b c) eqn:E3;
    [destruct back; apply space3_code in E3; lia|].
  reflexivity.
Qed.

(** Text that starts and ends with a printable ASCII character other than
    the space is its own [strip]. *)
Lemma strip_printable_ends (a z : ascii) (m : string) :
  (32 < Str.code a < 128)%nat -> (32 < Str.code z < 128)%nat ->
  Str.strip (String a m ++ String z EmptyString) = String a m ++ String z EmptyString.
Proof.
  intros Ha Hz. unfold Str.strip, Str.lstrip, Str.rstrip.
  cbn [append]. rewrite (lstrip_gen_printable false a _ Ha).
  change (String a (m ++ String z EmptyString)) with (String a m ++ String z EmptyString).
  rewrite str_rev_app.
  change (Str.rev (String z EmptyString)) with (String z EmptyString).
  cbn [append]. rewrite (lstrip_gen_printable true z _ Hz).
  change (String z (Str.rev (String a m)))
    with (Str.rev (String z EmptyString) ++ Str.rev (String a m)).
  rewrite <- str_rev_app. apply str_rev_involutive.
Qed.

Lemma lower_app (s t : string) : Str.lower (s ++ t) = Str.lower s ++ Str.lower t.
Proof. induction s as [|a s IH]; simpl; [reflexivity | now rewrite IH]. Qed.

Lemma lower_digit (c : ascii) : Str.is_digit c = true -> Str.lower_char c = c.
Proof.
  intros H. apply digit_code in H. unfold Str.lower_char, Str.is_upper, Str.between.
  replace (Nat.leb 65 (Str.code c)) with false; [reflexivity|].
  symmetry. apply Nat.leb_gt. lia.
Qed.

Lemma lower_digits (s : string) : Str.all_digits s = true -> Str.lower s = s.
Proof.
  induction s as [|c s IH]; [reflexivity|].
  simpl. rewrite andb_true_iff. intros [Hc Hs]. now rewrite (lower_digit _ Hc), IH.
Qed.

(** A pattern whose first character is not in the text is never replaced. *)
Lemma replace_absent_lead (c : ascii) (o new s : string) :
  Str.count c s = O -> Str.replace (String c o) new s = s.
Proof.
  unfold Str.replace. induction s as [|a s IH]; [reflexivity|].
  rewrite count_cons. cbn [Str.replace_from prefix].
  destruct (ascii_dec c a) as [->|N].
  - rewrite Ascii.eqb_refl. discriminate.
  - destruct (Ascii.eqb a c); [discriminate|]. intros H. now rewrite (IH H).
Qed.

Lemma of_Z_hour (v : Z) :
  0 <= v <= 99 ->
  Str.all_digits (Str.of_Z v) = true
  /\ (String.length (Str.of_Z v) = 1%nat \/ String.length (Str.of_Z v) = 2%nat)
  /\ Str.digits_to_Z (Str.of_Z v) = v.
Proof.
  intros Hv.
  assert (H : List.forallb hour_text_ok (List.map Z.of_nat (List.seq 0 100)) = true)
    by (vm_compute; reflexivity).
  rewrite forallb_forall in H.
  assert (Hin : In v (List.map Z.of_nat (List.seq 0 100))).
  { apply in_map_iff. exists (Z.to_nat v). split; [lia|]. apply in_seq. lia. }
  apply H in Hin. unfold hour_text_ok in Hin. cbv zeta in Hin.
  apply andb_true_iff in Hin as [Hin H3]. apply andb_true_iff in Hin as [H1 H2].
  apply orb_true_iff in H2. rewrite !Nat.eqb_eq in H2. apply Z.eqb_eq in H3. auto.
Qed.

Lemma regex_digits_nondigit (n : nat) (c : ascii) (r : string) :
  Str.is_digit c = false -> TraceRe.digits (S n) (String c r) = None.
Proof.
  intros Hc. unfold TraceRe.digits. cbn [substring Str.all_digits].
  rewrite Hc. cbn [andb]. now rewrite andb_false_r.
Qed.

Lemma clock_nondigit (c : ascii) (r : string) :
  Str.is_digit c = false -> TraceRe.clock (String c r) = None.
Proof.
  intros Hc. unfold TraceRe.clock, TraceRe.clock_with.
  now rewrite !(regex_digits_nondigit _ _ _ Hc).
Qed.

Lemma skip_to_clock_nondigit (c : ascii) (r : string) :
  Str.is_digit c = false -> Nat.eqb (Str.code c) 10 = false ->
  TraceRe.skip_to_clock (String c r) = TraceRe.skip_to_clock r.
Proof.
  intros Hc Hn. cbn [TraceRe.skip_to_clock].
  now rewrite (clock_nondigit _ _ Hc), Hn.
Qed.

(** The clock [H:MM:SS] or [HH:MM:SS] at the head of a text. *)
Lemma clock_fields (hh mi ss tail : string) :
  Str.all_digits hh = true ->
  String.length hh = 1%nat \/ String.length hh = 2%nat ->
  Str.all_digits mi = true -> String.length mi = 2%nat ->
  Str.all_digits ss = true -> String.length ss = 2%nat ->
  TraceRe.clock (hh ++ ":" ++ mi ++ ":" ++ ss ++ tail) = Some (hh, mi, ss, tail).
Proof.
  intros Ah Lh Ami Lmi Ass Lss.
  assert (Hwith : forall n, String.length hh = n ->
            TraceRe.clock_with n (hh ++ ":" ++ mi ++ ":" ++ ss ++ tail)
            = Some (hh, mi, ss, tail)).
  { intros n Hn. unfold TraceRe.clock_with.
    rewrite (regex_digits_app n hh _ Hn Ah). cbn [append TraceRe.lit Ascii.eqb Bool.eqb].
    rewrite (regex_digits_app 2 mi _ Lmi Ami). cbn [append TraceRe.lit Ascii.eqb Bool.eqb].
    now rewrite (regex_digits_app 2 ss _ Lss Ass). }
  unfold TraceRe.clock. destruct Lh as [L1 | L2].
  - rewrite (Hwith 1%nat L1).
    destruct hh as [|c [|]]; try discriminate L1.
    replace (TraceRe.clock_with 2 (String c EmptyString ++ ":" ++ mi ++ ":" ++ ss ++ tail))
      with (@None (string * string * string * string)); [reflexivity|].
    unfold TraceRe.clock_with, TraceRe.digits.
    cbn [append substring String.length Nat.eqb Str.all_digits].
    replace (Str.is_digit ":") with false by reflexivity.
    now rewrite !andb_false_r.
  - now rewrite (Hwith 2%nat L2).
Qed.

Lemma valid_hour (y mo d h h' mi s us : Z) :
  DateTime.valid y mo d h mi s us = true -> 0 <= h' <= 23 ->
  DateTime.valid y mo d h' mi s us = true.
Proof.
  unfold DateTime.valid, DateTime.in_range.
  rewrite !andb_true_iff, !Z.leb_le. tauto.
Qed.

Lemma hour24_range (ap : option ascii) (h : Z) :
  1 <= h <= 12 -> 0 <= hour24 ap h <= 23.
Proof.
  intros Hh. unfold hour24.
  destruct ap as [[[] [] [] [] [] [] [] []]|]; cbn zeta;
    repeat match goal with
      | |- context [?x =? 12] => destruct (Z.eqb_spec x 12)
      end; cbn [negb]; lia.
Qed.

(** A locale timestamp parses to its date and to its hour on the 24-hour
    clock. *)
Lemma parse_trace_dt_locale_stamp (d mo y h mi s : Z) (ap : ascii) :
  ap = "a"%char \/ ap = "p"%char ->
  1 <= h <= 12 ->
  DateTime.valid y mo d h mi s 0 = true ->
  1000 <= y ->
  parse_trace_dt (VStr (locale_stamp d mo y h mi s ap))
  = dd_mm_yyyy y mo d (hour24 (Some ap) h) mi s.
Proof.
  intros Hap Hh Hv Hy1000.
  pose proof (valid_ranges _ _ _ _ _ _ _ Hv) as (Hy & Hmo & Hd & _ & Hmi & Hs).
  destruct (zfill4_spec y ltac:(lia)) as (Ay & Ly & Vy).
  destruct (zfill2_spec mo ltac:(lia)) as (Amo & Lmo & Vmo).
  destruct (zfill2_spec d ltac:(lia)) as (Ad & Ld & Vd).
  destruct (of_Z_hour h ltac:(lia)) as (Ah & Lh & Vh).
  destruct (zfill2_spec mi ltac:(lia)) as (Ami & Lmi & Vmi).
  destruct (zfill2_spec s ltac:(lia)) as (As & Ls & Vs).
  pose proof (valid_hour _ _ _ _ (hour24 (Some ap) h) _ _ _ Hv
                (hour24_range (Some ap) h Hh)) as Hv'.
  unfold dd_mm_yyyy, locale_stamp.
  set (YY := Str.zfill 4 y) in *. set (MO := Str.zfill 2 mo) in *.
  set (DD := Str.zfill 2 d) in *. set (HH := Str.of_Z h) in *.
  set (MI := Str.zfill 2 mi) in *. set (SS := Str.zfill 2 s) in *.
  set (t := DD ++ "-" ++ MO ++ "-" ++ YY ++ " a las " ++ HH ++ ":" ++ MI ++ ":"
            ++ SS ++ " " ++ String ap ".m.").
  assert (Hcount : forall c, Str.is_digit c = false ->
            Str.count c ("- a las :." ++ String ap "m") = O -> Str.count c t = O).
  { intros c Hc. unfold t.
    rewrite !count_app, !count_cons.
    rewrite (digits_count c DD), (digits_count c MO), (digits_count c YY),
      (digits_count c HH), (digits_count c MI), (digits_count c SS) by assumption.
    cbn [Str.count Nat.add].
    destruct (Ascii.eqb "-" c), (Ascii.eqb " " c), (Ascii.eqb "a" c),
      (Ascii.eqb "l" c), (Ascii.eqb "s" c), (Ascii.eqb ":" c),
      (Ascii.eqb "." c), (Ascii.eqb ap c), (Ascii.eqb "m" c);
      (discriminate || reflexivity). }
  assert (Hstrip : Str.strip t = t).
  { destruct DD as [|d1 DD']; [discriminate Ld|].
    assert (Hd1 : (32 < Str.code d1 < 128)%nat).
    { simpl in Ad. apply andb_true_iff in Ad as [Ad _].
      apply digit_code in Ad. lia. }
    assert (Ht : t = String d1 (DD' ++ "-" ++ MO ++ "-" ++ YY ++ " a las " ++ HH
                                  ++ ":" ++ MI ++ ":" ++ SS ++ " " ++ String ap ".m")
                     ++ ".").
    { unfold t. repeat first [rewrite str_app_assoc | progress (cbn [append])].
      reflexivity. }
    rewrite Ht. apply strip_printable_ends; [assumption | vm_compute; lia]. }
  assert (Hlower : Str.lower t = t).
  { unfold t. rewrite !lower_app.
    rewrite (lower_digits DD), (lower_digits MO), (lower_digits YY),
      (lower_digits HH), (lower_digits MI), (lower_digits SS) by assumption.
    destruct Hap as [-> | ->]; reflexivity. }
  assert (Hiso : DateTime.fromisoformat (Str.replace "Z" "+00:00" t) = Raise ValueError).
  { rewrite (replace_absent_lead "Z" EmptyString)
      by (apply Hcount; [reflexivity | destruct Hap as [-> | ->]; reflexivity]).
    unfold t. destruct DD as [|d1 [|d2 [|]]]; try discriminate Ld.
    unfold DateTime.fromisoformat, DateTime.take_digits.
    destruct MO as [|m1 MO']; [discriminate Lmo|].
    cbn [append substring String.length Nat.eqb Str.all_digits].
    replace (Str.is_digit "-") with false by reflexivity.
    now rewrite !andb_false_r. }
  assert (Hnbsp : Str.replace nnbsp " " (Str.replace nbsp " " t) = t).
  { assert (H1 : Str.replace nbsp " " t = t).
    { apply (replace_absent_lead (ascii_of_nat 194) (Str.chr 160) " " t).
      apply Hcount; [reflexivity | destruct Hap as [-> | ->]; reflexivity]. }
    rewrite H1.
    apply (replace_absent_lead (ascii_of_nat 226) (Str.chr 128 ++ Str.chr 175) " " t).
    apply Hcount; [reflexivity | destruct Hap as [-> | ->]; reflexivity]. }
  assert (Hsearch : TraceRe.search t = Some (mkgroups DD MO YY HH MI SS (Some ap))).
  { assert (Hhere : TraceRe.match_here t = Some (mkgroups DD MO YY HH MI SS (Some ap))).
    { unfold TraceRe.match_here, TraceRe.date, t.
      rewrite (regex_digits_app 2 DD _ Ld Ad). cbn [append TraceRe.lit Ascii.eqb Bool.eqb].
      rewrite (regex_digits_app 2 MO _ Lmo Amo). cbn [append TraceRe.lit Ascii.eqb Bool.eqb].
      rewrite (regex_digits_app 4 YY _ Ly Ay). cbn [append].
      rewrite !skip_to_clock_nondigit by reflexivity.
      replace (TraceRe.skip_to_clock (HH ++ String ":" (MI ++ String ":" (SS ++ String " " (String ap ".m.")))))
        with (Some (HH, MI, SS, String " " (String ap ".m."))).
      - destruct Hap as [-> | ->]; reflexivity.
      - symmetry.
        pose proof (clock_fields HH MI SS (String " " (String ap ".m."))
                      Ah Lh Ami Lmi As Ls) as Hc.
        cbn [append] in Hc.
        destruct HH as [|h1 HH']; [destruct Lh; discriminate|].
        cbn [append TraceRe.skip_to_clock] in *. now rewrite Hc. }
    unfold t in *. destruct DD as [|d1 DD']; [discriminate Ld|].
    cbn [append TraceRe.search] in *. now rewrite Hhere. }
  assert (Htruthy : Py.truthy (VStr t) = true)
    by (apply truthy_str; unfold t; apply app_cons_nonempty).
  unfold parse_trace_dt. rewrite Htruthy.
  cbn [negb Py.str]. rewrite Hstrip, Hiso, Hlower, Hnbsp, Hstrip, Hsearch.
  cbn [g_dd g_mm g_yyyy g_hh g_mi g_ss g_ap].
  rewrite Vy, Vmo, Vd, Vh, Vmi, Vs. unfold DateTime.make. rewrite Hv'.
  rewrite strftime_dd_mm_yyyy by lia. reflexivity.
Qed.

(** [int()] of a non-empty string of digits is the number they write. *)
Lemma strip_digits (s : string) : Str.all_digits s = true -> Str.strip s = s.
Proof.
  destruct s as [|c r]; [reflexivity|]. intros H.
  destruct r as [|c' r'].
  - simpl in H. apply andb_true_iff in H as [Hc _]. apply digit_code in Hc.
    unfold Str.strip, Str.lstrip, Str.rstrip.
    rewrite (lstrip_gen_printable false) by lia.
    change (Str.rev (String c EmptyString)) with (String c EmptyString).
    now rewrite (lstrip_gen_printable true) by lia.
  - simpl in H. apply andb_true_iff in H as [Hc Hr].
    apply (strip_digits_around (String c EmptyString) EmptyString (String c' r'));
      try discriminate; [simpl; now rewrite Hc | exact Hr].
Qed.

Lemma int_of_string_digits_text (s : string) :
  s <> EmptyString -> Str.all_digits s = true ->
  Py.int_of_string s
  = if Nat.leb (String.length s) Py.int_max_str_digits
    then Ok (Str.digits_to_Z s)
    else Raise ValueError.
Proof.
  intros Hne Hd. unfold Py.int_of_string.
  rewrite drop_underscores_absent;
    [|reflexivity | now apply all_digits_count; [apply underscore_not_digit|]].
  rewrite (strip_digits _ Hd).
  destruct s as [|c r]; [congruence|].
  pose proof Hd as Hd'. simpl in Hd'. apply andb_true_iff in Hd' as [Hc _].
  rewrite (take_sign_digit _ _ Hc). now rewrite Hd.
Qed.

Lemma int_of_string_digits (s : string) :
  s <> EmptyString -> Str.all_digits s = true ->
  (String.length s <= Py.int_max_str_digits)%nat ->
  Py.int_of_string s = Ok (Str.digits_to_Z s).
Proof.
  intros Hne Hd Hl. rewrite (int_of_string_digits_text _ Hne Hd).
  apply Nat.leb_le in Hl. now rewrite Hl.
Qed.

Lemma short_of_digits (n : nat) :
  (n <= 4)%nat -> (n <= Py.int_max_str_digits)%nat.
Proof.
  intros H. apply (Nat.le_trans _ 4); [exact H|].
  apply Nat.leb_le. vm_compute. reflexivity.
Qed.

Lemma regex_digits_inv (n : nat) (s d r : string) :
  TraceRe.digits (S n) s = Some (d, r) ->
  d <> EmptyString /\ Str.all_digits d = true /\ String.length d = S n.
Proof.
  unfold TraceRe.digits.
  destruct (Nat.eqb (String.length (substring 0 (S n) s)) (S n)) eqn:El; [|discriminate].
  destruct (Str.all_digits (substring 0 (S n) s)) eqn:Ed; [|discriminate].
  intros [= <- <-]. split; [|split; [assumption | now apply Nat.eqb_eq]].
  intros E. rewrite E in El. discriminate El.
Qed.

Lemma digit_group_of (n : nat) (s d r : string) :
  (S n <= 4)%nat ->
  TraceRe.digits (S n) s = Some (d, r) -> digit_group d.
Proof.
  intros Hn H. apply regex_digits_inv in H as (Hne & Hd & Hl).
  apply int_of_string_digits; try assumption.
  rewrite Hl. now apply short_of_digits.
Qed.

Lemma clock_with_groups (n : nat) (s hh mi ss r : string) :
  (S n <= 4)%nat ->
  TraceRe.clock_with (S n) s = Some (hh, mi, ss, r) ->
  digit_group hh /\ digit_group mi /\ digit_group ss.
Proof.
  intros Hn. unfold TraceRe.clock_with.
  destruct (TraceRe.digits (S n) s) as [[h r1]|] eqn:E1; [|discriminate].
  destruct (TraceRe.lit ":" r1) as [r2|]; [|discriminate].
  destruct (TraceRe.digits 2 r2) as [[m r3]|] eqn:E2; [|discriminate].
  destruct (TraceRe.lit ":" r3) as [r4|]; [|discriminate].
  destruct (TraceRe.digits 2 r4) as [[c r5]|] eqn:E3; [|discriminate].
  intros [= <- <- <- <-].
  repeat split; (eapply digit_group_of; [|eassumption]); lia.
Qed.

Lemma skip_to_clock_groups (s hh mi ss r : string) :
  TraceRe.skip_to_clock s = Some (hh, mi, ss, r) ->
  digit_group hh /\ digit_group mi /\ digit_group ss.
Proof.
  induction s as [|c s IH]; cbn [TraceRe.skip_to_clock]; unfold TraceRe.clock.
  - destruct (TraceRe.clock_with 2 EmptyString) as [[[[? ?] ?] ?]|] eqn:E2.
    { intros [= <- <- <- <-]. eapply clock_with_groups; [|eassumption]; lia. }
    destruct (TraceRe.clock_with 1 EmptyString) as [[[[? ?] ?] ?]|] eqn:E1;
      [|discriminate].
    intros [= <- <- <- <-]. eapply clock_with_groups; [|eassumption]; lia.
  - destruct (TraceRe.clock_with 2 (String c s)) as [[[[? ?] ?] ?]|] eqn:E2.
    { intros [= <- <- <- <-]. eapply clock_with_groups; [|eassumption]; lia. }
    destruct (TraceRe.clock_with 1 (String c s)) as [[[[? ?] ?] ?]|] eqn:E1.
    { intros [= <- <- <- <-]. eapply clock_with_groups; [|eassumption]; lia. }
    destruct (Nat.eqb (Str.code c) 10); [discriminate | exact IH].
Qed.

Lemma match_here_groups (s : string) (g : groups) :
  TraceRe.match_here s = Some g ->
  digit_group (g_dd g) /\ digit_group (g_mm g) /\ digit_group (g_yyyy g)
  /\ digit_group (g_hh g) /\ digit_group (g_mi g) /\ digit_group (g_ss g).
Proof.
  unfold TraceRe.match_here, TraceRe.date.
  destruct (TraceRe.digits 2 s) as [[dd r1]|] eqn:E1; [|discriminate].
  destruct (TraceRe.lit "-" r1) as [r2|]; [|discriminate].
  destruct (TraceRe.digits 2 r2) as [[mm r3]|] eqn:E2; [|discriminate].
  destruct (TraceRe.lit "-" r3) as [r4|]; [|discriminate].
  destruct (TraceRe.digits 4 r4) as [[yyyy r5]|] eqn:E3; [|discriminate].
  destruct (TraceRe.skip_to_clock r5) as [[[[hh mi] ss] r6]|] eqn:E4; [|discriminate].
  intros [= <-]. cbn [g_dd g_mm g_yyyy g_hh g_mi g_ss].
  apply skip_to_clock_groups in E4 as (? & ? & ?).
  repeat split; try assumption; (eapply digit_group_of; [|eassumption]); lia.
Qed.

(** The groups of a match are digits: [int()] of each is the number it
    writes, as [parse_trace_dt] takes it. *)
Lemma search_groups (s : string) (g : groups) :
  TraceRe.search s = Some g ->
  digit_group (g_dd g) /\ digit_group (g_mm g) /\ digit_group (g_yyyy g)
  /\ digit_group (g_hh g) /\ digit_group (g_mi g) /\ digit_group (g_ss g).
Proof.
  induction s as [|c s IH]; cbn [TraceRe.search].
  - destruct (TraceRe.match_here EmptyString) eqn:E; [|discriminate].
    intros [= <-]. now apply match_here_groups in E.
  - destruct (TraceRe.match_here (String c s)) eqn:E.
    + intros [= <-]. now apply match_here_groups in E.
    + exact IH.
Qed.

(** C4: the locale timestamp of the specification's example parses to
    [05/01/2024 15:45:10]; a locale timestamp [DD-MM-YYYY a las H:MM:SS]
    with the marker [a.m.] or [p.m.] and a year from 1000 on parses to
    [DD/MM/YYYY HH:MM:SS] with the hour on the 24-hour clock; whenever the
    pattern matches ASCII text that does not start with the four digits of
    a year (so that it is no ISO timestamp) and captures a year from 1000
    on, the hour shown is [hour24] of the captured marker and hour (the
    trimmed text is returned when the captured fields are no date and time
    of day); and [hour24] sends 12 a.m. to 0, keeps 12 p.m., adds 12 to any
    other p.m. hour and keeps any other a.m. hour. *)
Theorem parse_trace_dt_locale :
  parse_trace_dt (VStr "05-01-2024 a las 3:45:10 p.m.") = "05/01/2024 15:45:10"
  /\ (forall (d mo y h mi s : Z) (ap : ascii),
        ap = "a"%char \/ ap = "p"%char ->
        1 <= h <= 12 ->
        DateTime.valid y mo d h mi s 0 = true ->
        1000 <= y ->
        parse_trace_dt (VStr (locale_stamp d mo y h mi s ap))
        = dd_mm_yyyy y mo d (hour24 (Some ap) h) mi s)
  /\ (forall (t : string) (g : groups),
        is_ascii t = true ->
        starts_with_digits 4 (Str.strip t) = false ->
        TraceRe.search
          (Str.strip (Str.replace nnbsp " "
             (Str.replace nbsp " " (Str.lower (Str.strip t))))) = Some g ->
        1000 <= Str.digits_to_Z (g_yyyy g) ->
        parse_trace_dt (VStr t)
        = match
            DateTime.make (Str.digits_to_Z (g_yyyy g)) (Str.digits_to_Z (g_mm g))
              (Str.digits_to_Z (g_dd g))
              (hour24 (g_ap g) (Str.digits_to_Z (g_hh g)))
              (Str.digits_to_Z (g_mi g)) (Str.digits_to_Z (g_ss g)) 0 None
          with
          | Ok _ =>
              dd_mm_yyyy (Str.digits_to_Z (g_yyyy g)) (Str.digits_to_Z (g_mm g))
                (Str.digits_to_Z (g_dd g))
                (hour24 (g_ap g) (Str.digits_to_Z (g_hh g)))
                (Str.digits_to_Z (g_mi g)) (Str.digits_to_Z (g_ss g))
          | Raise _ => Str.strip t
          end)
  /\ hour24 (Some "a"%char) 12 = 0
  /\ hour24 (Some "p"%char) 12 = 12
  /\ (forall h : Z, h <> 12 -> hour24 (Some "p"%char) h = h + 12)
  /\ (forall h : Z, h <> 12 -> hour24 (Some "a"%char) h = h)
  /\ (forall h : Z, hour24 None h = h).
Proof.
  split; [vm_compute; reflexivity|].
  split; [exact parse_trace_dt_locale_stamp|].
  split.
  { intros t g _ Hiso Hre Hy.
    assert (Ht : t <> EmptyString).
    { intros ->. vm_compute in Hre. discriminate Hre. }
    unfold parse_trace_dt. rewrite (truthy_str _ Ht). cbn [negb Py.str].
    rewrite (fromisoformat_no_year _ Hiso), Hre.
    unfold DateTime.make.
    destruct (DateTime.valid _ _ _ _ _ _ _) eqn:Hv; [|reflexivity].
    apply valid_ranges in Hv as (Hy' & _).
    apply strftime_dd_mm_yyyy. lia. }
  split; [reflexivity|]. split; [reflexivity|].
  split; [|split].
  - intros h Hh. unfold hour24.
    destruct (h =? 12) eqn:E; [apply Z.eqb_eq in E; congruence|]. reflexivity.
  - intros h Hh. unfold hour24.
    destruct (h =? 12) eqn:E; [apply Z.eqb_eq in E; congruence|]. reflexivity.
  - reflexivity.
Qed.

Lemma parse_trace_dt_locale_witness :
  parse_trace_dt (VStr "05-01-2024 12:00:00 a.m.") = "05/01/2024 00:00:00"
  /\ parse_trace_dt (VStr "05-01-2024 12:00:00 p.m.") = "05/01/2024 12:00:00"
  /\ hour24 (Some "p"%char) 3 = 15
  /\ parse_trace_dt (VStr (locale_stamp 31 12 1999 11 59 58 "p"))
     = "31/12/1999 23:59:58".
Proof.
  destruct parse_trace_dt_locale as (_ & Hl & Hm & _ & _ & Hp & _ & _).
  split; [|split; [|split]].
  - apply (Hm "05-01-2024 12:00:00 a.m."
             (mkgroups "05" "01" "2024" "12" "00" "00" (Some "a"%char)));
      [reflexivity | reflexivity | reflexivity | vm_compute; discriminate].
  - apply (Hm "05-01-2024 12:00:00 p.m."
             (mkgroups "05" "01" "2024" "12" "00" "00" (Some "p"%char)));
      [reflexivity | reflexivity | reflexivity | vm_compute; discriminate].
  - apply (Hp 3). discriminate.
  - apply (Hl 31 12 1999 11 59 58 "p"%char);
      [now right | lia | reflexivity | lia].
Defined.

(** ** Facts about printable text *)

Lemma lstrip_gen_spaces (back : bool) (pad s : string) :
  all_chars (Ascii.eqb " ") pad = true ->
  Str.lstrip_gen back (pad ++ s) = Str.lstrip_gen back s.
Proof.
  induction pad as [|c pad IH]; [reflexivity|].
  cbn [all_chars]. rewrite andb_true_iff. intros [Hc Hp].
  apply Ascii.eqb_eq in Hc. subst c. cbn [append].
  rewrite <- (IH Hp). reflexivity.
Qed.

Lemma printable_code (c : ascii) : printable c = true -> (32 < Str.code c < 128)%nat.
Proof.
  unfold printable, Str.between. rewrite andb_true_iff, !Nat.leb_le. lia.
Qed.

Lemma all_chars_head (p : ascii -> bool) (x : string) :
  x <> EmptyString -> all_chars p x = true ->
  exists a m, x = String a m /\ p a = true.
Proof.
  destruct x as [|a m]; [congruence|]. intros _. cbn [all_chars].
  rewrite andb_true_iff. intros [Ha _]. now exists a, m.
Qed.

Lemma rev_nonempty (x : string) : x <> EmptyString -> Str.rev x <> EmptyString.
Proof.
  intros H E. apply H. rewrite <- (str_rev_involutive x), E. reflexivity.
Qed.

(** Text made of printable characters is what [strip] leaves of it and of
    the spaces around it. *)
Lemma strip_padded (pad1 pad2 x : string) :
  all_chars (Ascii.eqb " ") pad1 = true ->
  all_chars (Ascii.eqb " ") pad2 = true ->
  x <> EmptyString -> all_chars printable x = true ->
  Str.strip (pad1 ++ x ++ pad2) = x.
Proof.
  intros H1 H2 Hne Hx. unfold Str.strip, Str.rstrip, Str.lstrip.
  rewrite (lstrip_gen_spaces _ _ _ H1).
  destruct (all_chars_head _ _ Hne Hx) as (a & m & Ex & Ha).
  rewrite Ex at 1. cbn [append].
  rewrite (lstrip_gen_printable false a _ (printable_code _ Ha)).
  change (String a (m ++ pad2)) with (String a m ++ pad2). rewrite <- Ex.
  rewrite str_rev_app.
  rewrite lstrip_gen_spaces by (now rewrite all_chars_rev).
  assert (Hr : all_chars printable (Str.rev x) = true) by (now rewrite all_chars_rev).
  destruct (all_chars_head _ _ (rev_nonempty _ Hne) Hr) as (z & m' & Er & Hz).
  rewrite Er. rewrite (lstrip_gen_printable true z _ (printable_code _ Hz)).
  rewrite <- Er. apply str_rev_involutive.
Qed.

Lemma strip_printable (x : string) :
  x <> EmptyString -> all_chars printable x = true -> Str.strip x = x.
Proof.
  intros Hne Hx.
  pose proof (strip_padded EmptyString EmptyString x eq_refl eq_refl Hne Hx) as H.
  cbn [append] in H. now rewrite str_app_nil_r in H.
Qed.

Lemma digit_printable (c : ascii) : Str.is_digit c = true -> printable c = true.
Proof.
  intros H. apply digit_code in H. unfold printable, Str.between.
  apply andb_true_iff. split; apply Nat.leb_le; lia.
Qed.

Lemma digits_printable (s : string) :
  Str.all_digits s = true -> all_chars printable s = true.
Proof.
  induction s as [|c s IH]; [reflexivity|].
  cbn [Str.all_digits all_chars]. rewrite !andb_true_iff.
  intros [Hc Hs]. split; [now apply digit_printable | now apply IH].
Qed.

(** ** Facts about signed decimals *)

Lemma count_sign (c : ascii) (sg : string) :
  numeral_sign sg ->
  Ascii.eqb "+" c = false -> Ascii.eqb "-" c = false -> Str.count c sg = O.
Proof.
  intros [-> | [-> | ->]] H1 H2; cbn [Str.count]; now rewrite ?H1, ?H2.
Qed.

Lemma drop_underscores_app (s t : string) (prev : ascii) :
  s <> EmptyString -> Ascii.eqb prev "_" = false ->
  Str.count "_" s = O -> Str.count "_" t = O ->
  Py.drop_underscores prev (s ++ t) = Some (s ++ t).
Proof.
  intros _ Hp Hs Ht. apply drop_underscores_absent; [exact Hp|].
  now rewrite count_app, Hs, Ht.
Qed.

(** [float()] reads an optional sign, digits, a point and digits as the
    decimal they write. *)
Lemma float_of_string_signed_decimal (sg a b : string) :
  numeral_sign sg ->
  a <> EmptyString -> b <> EmptyString ->
  Str.all_digits a = true -> Str.all_digits b = true ->
  Py.float_of_string (sg ++ a ++ "." ++ b)
  = Ok (Py.decimal_to_float (String.eqb sg "-") (Str.digits_to_Z (a ++ b))
          (- Z.of_nat (String.length b))).
Proof.
  intros Hsg Na Nb Ha Hb. unfold Py.float_of_string.
  rewrite drop_underscores_absent; [|reflexivity|].
  2:{ rewrite !count_app, (count_sign "_" sg Hsg eq_refl eq_refl),
        (all_digits_count "_" a), (all_digits_count "_" b)
        by (auto using underscore_not_digit). reflexivity. }
  rewrite strip_printable.
  2:{ destruct a; [congruence|]. destruct Hsg as [-> | [-> | ->]]; discriminate. }
  2:{ rewrite !all_chars_app, (digits_printable _ Ha), (digits_printable _ Hb).
      now destruct Hsg as [-> | [-> | ->]]. }
  destruct a as [|a0 a]; [congruence|].
  pose proof Ha as Ha'. simpl in Ha'. apply andb_true_iff in Ha' as [Ha0 _].
  assert (Hdec : Py.parse_decimal (String a0 (a ++ String "." b))
                 = Some (Str.digits_to_Z (String a0 a ++ b),
                         - Z.of_nat (String.length b))).
  { change (String a0 (a ++ String "." b)) with (String a0 a ++ String "." b).
    unfold Py.parse_decimal.
    rewrite (span_digits_app _ _ _ Ha) by reflexivity.
    rewrite (span_digits_all _ Hb).
    cbn [append Py.parse_exponent]. now rewrite Z.sub_0_l. }
  destruct (not_inf_nan_digit a0 (a ++ String "." b) Ha0) as [Hinf Hnan].
  unfold Py.parse_float_literal.
  destruct Hsg as [-> | [-> | ->]]; cbn [append].
  - rewrite (take_sign_digit _ _ Ha0). cbv beta iota zeta.
    now rewrite Hinf, Hnan, Hdec.
  - cbn [Py.take_sign]. cbv beta iota zeta. now rewrite Hinf, Hnan, Hdec.
  - cbn [Py.take_sign]. cbv beta iota zeta. now rewrite Hinf, Hnan, Hdec.
Qed.

(** ** The words [float()] reads: [nan], [inf] and [infinity] *)

Lemma lower_char_letter (c : ascii) :
  ascii_letter (Str.lower_char c) = true -> ascii_letter c = true.
Proof.
  destruct c as [[] [] [] [] [] [] [] []]; intros H; try reflexivity;
    vm_compute in H; discriminate H.
Qed.

Lemma lower_letters (w : string) :
  all_chars ascii_letter (Str.lower w) = true -> all_chars ascii_letter w = true.
Proof.
  induction w as [|c w IH]; [reflexivity|].
  cbn [Str.lower all_chars]. rewrite !andb_true_iff.
  intros [Hc Hw]. split; [now apply lower_char_letter | now apply IH].
Qed.

Lemma letter_code (c : ascii) :
  ascii_letter c = true ->
  (65 <= Str.code c <= 90)%nat \/ (97 <= Str.code c <= 122)%nat.
Proof.
  unfold ascii_letter, Str.is_upper, Str.between.
  rewrite orb_true_iff, !andb_true_iff, !Nat.leb_le. tauto.
Qed.

Lemma letter_printable (c : ascii) : ascii_letter c = true -> printable c = true.
Proof.
  intros H. apply letter_code in H. unfold printable, Str.between.
  apply andb_true_iff. split; apply Nat.leb_le; lia.
Qed.

Lemma letters_count (c : ascii) (w : string) :
  (Str.code c < 65)%nat \/ (Str.code c = 95)%nat ->
  all_chars ascii_letter w = true -> Str.count c w = O.
Proof.
  intros Hc. induction w as [|a w IH]; [reflexivity|].
  cbn [all_chars]. rewrite andb_true_iff. intros [Ha Hw].
  apply letter_code in Ha. rewrite count_skip by lia. now apply IH.
Qed.

Lemma take_sign_letter (a : ascii) (r : string) :
  ascii_letter a = true -> Py.take_sign (String a r) = (false, String a r).
Proof.
  intros H.
  destruct a as [[] [] [] [] [] [] [] []]; try reflexivity;
    vm_compute in H; discriminate H.
Qed.

(** A sign and letters reach the parser of [float()] as they are, the sign
    taken off. *)
Lemma float_of_string_letters (sg w : string) :
  numeral_sign sg -> w <> EmptyString -> all_chars ascii_letter w = true ->
  Py.float_of_string (sg ++ w)
  = match
      (if String.eqb (Str.lower w) "inf" || String.eqb (Str.lower w) "infinity"
       then Some (if String.eqb sg "-" then neg_infinity else infinity)
       else if String.eqb (Str.lower w) "nan" then Some nan
       else match Py.parse_decimal w with
            | Some (m, e) => Some (Py.decimal_to_float (String.eqb sg "-") m e)
            | None => None
            end)
    with
    | Some f => Ok f
    | None => Raise ValueError
    end.
Proof.
  intros Hsg Hne Hw. unfold Py.float_of_string.
  rewrite drop_underscores_absent; [|reflexivity|].
  2:{ rewrite count_app, (count_sign "_" sg Hsg eq_refl eq_refl),
        (letters_count "_" w) by (auto; right; reflexivity). reflexivity. }
  rewrite strip_printable.
  2:{ destruct w; [congruence|]. destruct Hsg as [-> | [-> | ->]]; discriminate. }
  2:{ rewrite all_chars_app,
        (all_chars_weaken _ _ _ letter_printable Hw).
      now destruct Hsg as [-> | [-> | ->]]. }
  unfold Py.parse_float_literal.
  destruct w as [|a w]; [congruence|].
  pose proof Hw as Ha. cbn [all_chars] in Ha. apply andb_true_iff in Ha as [Ha _].
  destruct Hsg as [-> | [-> | ->]]; cbn [append].
  - rewrite (take_sign_letter _ _ Ha). reflexivity.
  - reflexivity.
  - reflexivity.
Qed.

Lemma float_of_string_nan (sg w : string) :
  numeral_sign sg -> Str.lower w = "nan" -> Py.float_of_string (sg ++ w) = Ok nan.
Proof.
  intros Hsg Hw.
  rewrite float_of_string_letters; [now rewrite Hw|exact Hsg| |].
  - intros ->. discriminate Hw.
  - apply lower_letters. now rewrite Hw.
Qed.

Lemma float_of_string_inf (sg w : string) :
  numeral_sign sg -> Str.lower w = "inf" \/ Str.lower w = "infinity" ->
  Py.float_of_string (sg ++ w)
  = Ok (if String.eqb sg "-" then neg_infinity else infinity).
Proof.
  intros Hsg Hw.
  rewrite float_of_string_letters; [now destruct Hw as [-> | ->]|exact Hsg| |].
  - intros ->. destruct Hw as [Hw | Hw]; discriminate Hw.
  - apply lower_letters. now destruct Hw as [-> | ->].
Qed.

(** ** [to_float] on text *)

Lemma replace_comma_no_comma (s : string) :
  Str.count "," (Str.replace "," "." s) = O.
Proof.
  induction s as [|a s IH]; [reflexivity|].
  rewrite replace_char_cons, count_cons, IH.
  destruct (Ascii.eqb a ",") eqn:E; [reflexivity|now rewrite E].
Qed.

Lemma replace_comma_idem (s : string) :
  Str.replace "," "." (Str.replace "," "." s) = Str.replace "," "." s.
Proof. apply replace_char_absent, replace_comma_no_comma. Qed.

Lemma replace_comma_empty (s : string) :
  String.eqb (Str.replace "," "." s) EmptyString = String.eqb s EmptyString.
Proof. destruct s as [|a s]; [reflexivity|]. now rewrite replace_char_cons. Qed.

(** [to_float] on text: [0.0] for the empty string, else what [float()]
    reads once commas are points, [0.0] when it reads nothing. *)
Lemma to_float_text (s : string) :
  to_float (VStr s)
  = if String.eqb s EmptyString then 0%float
    else match Py.float_of_string (Str.replace "," "." s) with
         | Ok f => f
         | Raise _ => 0%float
         end.
Proof.
  unfold to_float. cbn [Py.eq Py.str]. now destruct (String.eqb s EmptyString).
Qed.

Lemma signed_nonempty (sg w : string) :
  w <> EmptyString -> String.eqb (sg ++ w) EmptyString = false.
Proof.
  intros H. apply String.eqb_neq. destruct sg; [exact H|discriminate].
Qed.

Lemma replace_comma_sign (sg s : string) :
  numeral_sign sg ->
  Str.replace "," "." (sg ++ s) = sg ++ Str.replace "," "." s.
Proof.
  intros [-> | [-> | ->]]; [reflexivity| |];
    cbn [append]; now rewrite replace_char_cons.
Qed.

(** C7 as the specification states it fails: the words [nan] and [inf] are
    no numbers, yet [to_float] gives NaN and infinity for them, not [0.0]. *)
Lemma to_float_reads_nan_and_inf :
  PrimFloat.is_nan (to_float (VStr "nan")) = true
  /\ to_float (VStr "inf") = infinity
  /\ to_float (VStr "-Infinity") = neg_infinity.
Proof. repeat split; vm_compute; reflexivity. Qed.

(** C7: [to_float] returns exactly [0.0] for [None], for the empty string
    and for any text with a character that no numeral has (anything but
    digits, signs, the point, the comma, the underscore, white space and the
    letters of [inf], [nan] and the exponent); any text is read as the same
    text with its commas written as points; for an optional sign, digits, a
    comma and digits the result is the binary64 number nearest to the
    decimal that the numeral writes with the comma as decimal separator;
    and for the words [nan], [inf] and [infinity], in any case and with an
    optional sign, the result is NaN or the signed infinity, not [0.0]. *)
Theorem to_float_spec :
  to_float VNone = 0%float
  /\ to_float (VStr EmptyString) = 0%float
  /\ (forall s : string,
        all_chars amount_char s = false -> to_float (VStr s) = 0%float)
  /\ (forall s : string,
        to_float (VStr s) = to_float (VStr (Str.replace "," "." s)))
  /\ (forall sg a b : string,
        numeral_sign sg ->
        a <> EmptyString -> b <> EmptyString ->
        Str.all_digits a = true -> Str.all_digits b = true ->
        to_float (VStr (sg ++ a ++ "," ++ b))
        = Py.decimal_to_float (String.eqb sg "-") (Str.digits_to_Z (a ++ b))
            (- Z.of_nat (String.length b)))
  /\ (forall sg w : string,
        numeral_sign sg -> Str.lower w = "nan" ->
        PrimFloat.is_nan (to_float (VStr (sg ++ w))) = true)
  /\ (forall sg w : string,
        numeral_sign sg -> Str.lower w = "inf" \/ Str.lower w = "infinity" ->
        to_float (VStr (sg ++ w))
        = if String.eqb sg "-" then neg_infinity else infinity).
Proof.
  split; [reflexivity|]. split; [reflexivity|].
  split; [|split; [|split; [|split]]].
  - intros s H. rewrite to_float_text, (float_of_string_garbage _ H).
    now destruct (String.eqb s EmptyString).
  - intros s. rewrite !to_float_text, replace_comma_idem, replace_comma_empty.
    reflexivity.
  - intros sg a b Hsg Na Nb Ha Hb.
    rewrite to_float_text, signed_nonempty by apply app_cons_nonempty.
    rewrite (replace_comma_sign _ _ Hsg), (replace_decimal_comma _ _ Ha Hb).
    now rewrite (float_of_string_signed_decimal _ _ _ Hsg Na Nb Ha Hb).
  - intros sg w Hsg Hw.
    assert (Hl : all_chars ascii_letter w = true)
      by (apply lower_letters; now rewrite Hw).
    rewrite to_float_text, signed_nonempty by (intros ->; discriminate Hw).
    rewrite replace_char_absent.
    + now rewrite (float_of_string_nan _ _ Hsg Hw).
    + rewrite count_app, (count_sign "," sg Hsg eq_refl eq_refl),
        (letters_count "," w) by (auto; left; cbv; lia). reflexivity.
  - intros sg w Hsg Hw.
    assert (Hl : all_chars ascii_letter w = true)
      by (apply lower_letters; now destruct Hw as [-> | ->]).
    rewrite to_float_text, signed_nonempty
      by (intros ->; destruct Hw as [Hw | Hw]; discriminate Hw).
    rewrite replace_char_absent.
    + now rewrite (float_of_string_inf _ _ Hsg Hw).
    + rewrite count_app, (count_sign "," sg Hsg eq_refl eq_refl),
        (letters_count "," w) by (auto; left; cbv; lia). reflexivity.
Qed.

Lemma to_float_spec_witness :
  to_float (VStr "12abc") = 0%float
  /\ to_float (VStr "19,99") = 0x1.3fd70a3d70a3dp+4%float
  /\ to_float (VStr "-19,99") = (-0x1.3fd70a3d70a3dp+4)%float
  /\ to_float (VStr "1,5e3") = to_float (VStr "1.5e3")
  /\ PrimFloat.is_nan (to_float (VStr "-NaN")) = true
  /\ to_float (VStr "+Infinity") = infinity.
Proof.
  destruct to_float_spec as (_ & _ & Hgarbage & Hpoint & Hcomma & Hnan & Hinf).
  split; [|split; [|split; [|split; [|split]]]].
  - apply (Hgarbage "12abc"). reflexivity.
  - apply (Hcomma "" "19" "99"); (discriminate || reflexivity || (left; reflexivity)).
  - apply (Hcomma "-" "19" "99");
      (discriminate || reflexivity || (right; right; reflexivity)).
  - apply (Hpoint "1,5e3").
  - apply (Hnan "-" "NaN"); [right; right; reflexivity | reflexivity].
  - apply (Hinf "+" "Infinity"); [right; left; reflexivity | right; reflexivity].
Defined.

(** ** The orders the Row Mapper maps *)

Lemma or_absent (v default : value) : Py.truthy v = false -> Py.or v default = default.
Proof. unfold Py.or. now intros ->. Qed.

Lemma or_dict (d : list (string * value)) (default : value) :
  Py.truthy (VDict d) = true -> Py.or (VDict d) default = VDict d.
Proof. unfold Py.or. now intros ->. Qed.

Lemma get_record_or_absent (v : value) (k : string) :
  record_or_absent v -> exists x, Py.get (Py.or v (VDict [])) k VNone = Ok x.
Proof.
  intros [H | [d ->]].
  - rewrite (or_absent _ _ H). now eexists.
  - unfold Py.or. destruct (Py.truthy (VDict d)); now eexists.
Qed.

Lemma countable_int (q : value) :
  countable_quantity q -> exists n, Py.int (Py.or q (VInt 0)) = Ok n.
Proof.
  intros [-> | [[z ->] | (s & -> & Hs & Hlen)]].
  - now eexists.
  - unfold Py.or. destruct (Py.truthy (VInt z)); now eexists.
  - unfold Py.or. cbn [Py.truthy].
    destruct (String.eqb s EmptyString) eqn:E; cbn [negb]; [now eexists|].
    apply String.eqb_neq in E. cbn [Py.int].
    rewrite (int_of_string_digits _ E Hs Hlen). now eexists.
Qed.

Lemma line_items_sum (l : list value) :
  Forall wf_line_item l -> exists n, sum_quantities l = Ok n.
Proof.
  induction 1 as [|li l (d & -> & _ & Hq & _) _ [n IH]]; [now eexists|].
  cbn [sum_quantities Py.get bind].
  destruct (countable_int _ Hq) as [m ->]. cbn [bind]. rewrite IH.
  now eexists.
Qed.

Lemma line_items_skus (l : list value) :
  Forall wf_line_item l ->
  exists skus, truthy_fields "sku" l = Ok skus
               /\ List.forallb Py.hashable skus = true.
Proof.
  induction 1 as [|li l (d & -> & Hh & _) _ (skus & IH & Hall)];
    [now exists []|].
  cbn [truthy_fields Py.get bind]. rewrite IH. cbn [bind].
  destruct (Py.truthy (Py.field d "sku" VNone)); eexists; split;
    try reflexivity; [|assumption].
  cbn [List.forallb]. now rewrite Hh.
Qed.

Lemma line_items_statuses (l : list value) :
  Forall wf_line_item l ->
  exists (statuses : list value) (ss : list string),
    truthy_fields "fulfillment_status" l = Ok statuses
    /\ Py.strings_of statuses = Some ss.
Proof.
  induction 1 as [|li l (d & -> & _ & _ & Hs) _ (statuses & ss & IH & Hss)];
    [now exists [], []|].
  cbn [truthy_fields Py.get bind]. rewrite IH. cbn [bind].
  destruct Hs as [Hs | [s Hs]].
  - rewrite Hs. now exists statuses, ss.
  - rewrite Hs. destruct (Py.truthy (VStr s)).
    + exists (VStr s :: statuses), (s :: ss). split; [reflexivity|].
      cbn [Py.strings_of]. now rewrite Hss.
    + now exists statuses, ss.
Qed.

Lemma line_items_any (l : list value) :
  Forall wf_line_item l -> exists b, any_requires_shipping l = Ok b.
Proof.
  induction 1 as [|li l (d & -> & _) _ [b IH]]; [now eexists|].
  cbn [any_requires_shipping Py.get bind].
  destruct (Py.truthy _); [now eexists | rewrite IH; now eexists].
Qed.

Lemma trace_loop_dicts (l : list value) (tr : trace) :
  Forall is_dict l -> exists tr', trace_loop tr l = Ok tr'.
Proof.
  intros H. revert tr. induction H as [|a l [d ->] _ IH]; intros tr;
    [now eexists|].
  cbn [trace_loop]. unfold trace_step. cbn [Py.get bind].
  destruct (event_of_name _); cbn [bind]; apply IH.
Qed.

Lemma extract_traceability_wf (v : value) :
  (Py.truthy v = false \/ exists l, v = VList l /\ Forall is_dict l) ->
  exists tr, extract_traceability (Py.or v (VList [])) = Ok tr.
Proof.
  intros [H | (l & -> & Hl)].
  - rewrite (or_absent _ _ H). now eexists.
  - unfold Py.or. destruct (Py.truthy (VList l)) eqn:E; [|now eexists].
    unfold extract_traceability. rewrite E. cbn [negb Py.iter bind].
    now apply trace_loop_dicts.
Qed.

Lemma get_fulfilled_at_wf (d : list (string * value)) :
  (Py.truthy (Py.field d "fulfillments" VNone) = false
   \/ exists (fs : list value) (cs : list (option string)),
        Py.field d "fulfillments" VNone = VList fs /\ Forall2 stamped fs cs) ->
  exists fa, get_fulfilled_at (VDict d) = Ok fa.
Proof.
  intros [H | (fs & cs & Hf & Hst)].
  - rewrite (get_fulfilled_at_none _ H). now eexists.
  - destruct fs as [|f fs].
    + rewrite get_fulfilled_at_none by (now rewrite Hf). now eexists.
    + destruct (get_fulfilled_at_stamped d (f :: fs) cs ltac:(discriminate) Hf Hst)
        as (fa & Hfa & _).
      now exists fa.
Qed.

(** The Row Mapper returns a row for every order whose nested fields, where
    present, have the shape it reads. *)
Theorem order_to_row_total :
  forall d : list (string * value),
    wf_order d -> exists r : row, order_to_row (VDict d) = Ok r.
Proof.
  intros d (Hb & Hs & Hli & Hsl & Hna & Hfu & Hts).
  unfold order_to_row. cbv zeta.
  assert (Hitems : exists l,
             Py.iter (Py.or (Py.field d "line_items" (VList [])) (VList [])) = Ok l
             /\ Forall wf_line_item l).
  { destruct Hli as [H | (l & -> & Hl)].
    - rewrite (or_absent _ _ H). now exists [].
    - unfold Py.or. destruct (Py.truthy (VList l)); [now exists l | now exists []]. }
  destruct Hitems as (l & -> & Hl). cbn [bind].
  destruct (line_items_skus _ Hl) as (skus & -> & Hhash). cbn [bind].
  unfold Py.len_set. rewrite Hhash. cbn [bind].
  destruct (line_items_sum _ Hl) as [total ->]. cbn [bind].
  destruct (line_items_statuses _ Hl) as (statuses & ss & -> & Hss). cbn [bind].
  assert (Hjoin : exists lf,
             match statuses with
             | [] => Ok EmptyString
             | _ :: _ => Py.join_sorted_set statuses
             end = Ok lf).
  { destruct statuses; [now eexists|]. unfold Py.join_sorted_set.
    rewrite Hss. now eexists. }
  destruct Hjoin as [lf ->]. cbn [bind].
  destruct (line_items_any _ Hl) as [rs ->]. cbn [bind].
  assert (Hmethod : exists sm,
             (if Py.truthy (Py.or (Py.field d "shipping_lines" (VList [])) (VList []))
              then first <- Py.first_item
                              (Py.or (Py.field d "shipping_lines" (VList [])) (VList [])) ;;
                   Py.get first "title" VNone
              else Ok (VStr EmptyString)) = Ok sm).
  { destruct Hsl as [H | (first & rest & ->)].
    - rewrite (or_absent _ _ H). now eexists.
    - unfold Py.or. cbn [Py.truthy Py.first_item bind Py.get]. now eexists. }
  destruct Hmethod as [sm ->]. cbn [bind].
  destruct (extract_traceability_wf _ Hna) as [tr ->]. cbn [bind].
  destruct (get_fulfilled_at_wf _ Hfu) as [fa ->]. cbn [bind].
  assert (Hshop : exists amount,
             (shop_money <-
                Py.get (Py.or (Py.field d "total_shipping_price_set" VNone) (VDict []))
                  "shop_money" (VDict []) ;;
              Py.get shop_money "amount" VNone) = Ok amount).
  { destruct Hts as [H | (p & -> & [m Hm])].
    - rewrite (or_absent _ _ H). now eexists.
    - unfold Py.or. destruct (Py.truthy (VDict p)); cbn [Py.get bind].
      + rewrite Hm. now eexists.
      + now eexists. }
  destruct Hshop as [amount Hshop].
  destruct (Py.get (Py.or (Py.field d "total_shipping_price_set" VNone) (VDict []))
              "shop_money" (VDict [])) as [shop|]; [|discriminate Hshop].
  cbn [bind] in *. rewrite Hshop. cbn [bind].
  destruct (get_record_or_absent _ "city" Hb) as [bc ->]. cbn [bind].
  destruct (get_record_or_absent _ "province" Hb) as [bp ->]. cbn [bind].
  destruct (get_record_or_absent _ "city" Hs) as [sc ->]. cbn [bind].
  now eexists.
Qed.

Lemma order_to_row_total_witness :
  exists r : row, order_to_row (VDict order_full) = Ok r.
Proof.
  apply order_to_row_total. unfold wf_order, order_full.
  split; [right; now eexists|].
  split; [left; reflexivity|].
  split.
  { right. eexists. split; [reflexivity|].
    repeat constructor; eexists; (split; [reflexivity|]);
      (split; [reflexivity|]); split.
    - right; left. now eexists.
    - right. now eexists.
    - right; right. eexists. split; [reflexivity|].
      split; [reflexivity|]. apply Nat.leb_le. reflexivity.
    - left. reflexivity. }
  split; [right; now do 2 eexists|].
  split.
  { right. eexists. split; [reflexivity|]. repeat constructor. now eexists. }
  split.
  { right. exists [VDict [("created_at", VStr "2024-01-06T09:00:00Z")]],
      [Some "2024-01-06T09:00:00Z"].
    split; [reflexivity|]. repeat constructor. eexists. split; reflexivity. }
  right. eexists. split; [reflexivity|]. now eexists.
Defined.

(** ** Facts about ISO timestamps *)

Lemma str_length_app (s t : string) :
  String.length (s ++ t) = (String.length s + String.length t)%nat.
Proof. induction s as [|c s IH]; cbn [append String.length]; [reflexivity | now rewrite IH]. Qed.

Lemma split_offset_sign (x o : string) (west : bool) :
  Str.count "+" x = O -> Str.count "-" x = O ->
  DateTime.split_offset (x ++ String (if west then "-" else "+")%char o)
  = (x, Some (west, o)).
Proof.
  induction x as [|a x IH].
  - intros _ _. now destruct west.
  - rewrite !count_cons. cbn [append DateTime.split_offset].
    destruct (Ascii.eqb a "+"); [discriminate|].
    destruct (Ascii.eqb a "-"); [discriminate|].
    intros H1 H2. now rewrite (IH H1 H2).
Qed.

Lemma split_offset_none (x : string) :
  Str.count "+" x = O -> Str.count "-" x = O ->
  DateTime.split_offset x = (x, None).
Proof.
  induction x as [|a x IH]; [reflexivity|].
  rewrite !count_cons. cbn [DateTime.split_offset].
  destruct (Ascii.eqb a "+"); [discriminate|].
  destruct (Ascii.eqb a "-"); [discriminate|].
  intros H1 H2. now rewrite (IH H1 H2).
Qed.

Lemma after_separator_T (r : string) : DateTime.after_separator "T" r = r.
Proof.
  unfold DateTime.after_separator. cbn. rewrite Nat.sub_0_r. apply substring_whole.
Qed.

Lemma clock_count (c : ascii) (h mi s : Z) :
  0 <= h <= 99 -> 0 <= mi <= 99 -> 0 <= s <= 99 ->
  Str.is_digit c = false -> Ascii.eqb ":" c = false ->
  Str.count c (Str.zfill 2 h ++ ":" ++ Str.zfill 2 mi ++ ":" ++ Str.zfill 2 s) = O.
Proof.
  intros Hh Hmi Hs Hc Hcolon.
  destruct (zfill2_spec h Hh) as (Ah & _). destruct (zfill2_spec mi Hmi) as (Ami & _).
  destruct (zfill2_spec s Hs) as (As & _).
  rewrite !count_app, !count_cons, Hcolon.
  now rewrite (digits_count c _ Hc Ah), (digits_count c _ Hc Ami),
    (digits_count c _ Hc As).
Qed.

Lemma parse_clock (h mi s : Z) :
  0 <= h <= 99 -> 0 <= mi <= 99 -> 0 <= s <= 99 ->
  DateTime.parse_hh_mm_ss_ff
    (Str.zfill 2 h ++ ":" ++ Str.zfill 2 mi ++ ":" ++ Str.zfill 2 s)
  = Some (h, mi, s, 0).
Proof.
  intros Hh Hmi Hs.
  destruct (zfill2_spec h Hh) as (Ah & Lh & Vh).
  destruct (zfill2_spec mi Hmi) as (Ami & Lmi & Vmi).
  destruct (zfill2_spec s Hs) as (As & Ls & Vs).
  unfold DateTime.parse_hh_mm_ss_ff.
  rewrite (take_digits_app 2 _ _ Lh Ah), Vh. cbn [append].
  rewrite (take_digits_app 2 _ _ Lmi Ami), Vmi. cbn [append].
  rewrite <- (str_app_nil_r (Str.zfill 2 s)) at 1.
  now rewrite (take_digits_app 2 _ _ Ls As), Vs.
Qed.

Lemma parse_offset_hh_mm (west : bool) (oh om : Z) :
  0 <= oh <= 23 -> 0 <= om <= 59 ->
  DateTime.parse_offset west (Str.zfill 2 oh ++ ":" ++ Str.zfill 2 om)
  = Some (let off := (oh * 3600 + om * 60 + 0) * 1000000 + 0 in
          if west then - off else off).
Proof.
  intros Hh Hm.
  destruct (zfill2_spec oh ltac:(lia)) as (Ah & Lh & Vh).
  destruct (zfill2_spec om ltac:(lia)) as (Am & Lm & Vm).
  unfold DateTime.parse_offset.
  assert (Hlen : String.length (Str.zfill 2 oh ++ ":" ++ Str.zfill 2 om) = 5%nat).
  { rewrite str_length_app. cbn [append String.length].
    rewrite Lh, Lm. reflexivity. }
  rewrite Hlen. cbn [Nat.eqb orb].
  unfold DateTime.parse_hh_mm_ss_ff.
  rewrite (take_digits_app 2 _ _ Lh Ah), Vh. cbn [append].
  rewrite <- (str_app_nil_r (Str.zfill 2 om)) at 1.
  rewrite (take_digits_app 2 _ _ Lm Am), Vm. cbv zeta.
  replace ((oh * 3600 + om * 60 + 0) * 1000000 + 0 <? DateTime.day_us) with true;
    [reflexivity|].
  symmetry. apply Z.ltb_lt. unfold DateTime.day_us. lia.
Qed.

(** The date, the separator [T] and what follows it. *)
Lemma fromisoformat_date_T (y mo d : Z) (rest : string) :
  0 <= y <= 9999 -> 0 <= mo <= 99 -> 0 <= d <= 99 ->
  DateTime.fromisoformat (iso_date y mo d ++ String "T" rest)
  = let '(clock, off) := DateTime.split_offset rest in
    match DateTime.parse_hh_mm_ss_ff clock with
    | Some (h, mi, sec, us) =>
        match off with
        | None => DateTime.make y mo d h mi sec us None
        | Some (neg, o) =>
            match DateTime.parse_offset neg o with
            | Some tz => DateTime.make y mo d h mi sec us (Some tz)
            | None => Raise ValueError
            end
        end
    | None => Raise ValueError
    end.
Proof.
  intros Hy Hmo Hd.
  destruct (zfill4_spec y Hy) as (Ay & Ly & Vy).
  destruct (zfill2_spec mo Hmo) as (Amo & Lmo & Vmo).
  destruct (zfill2_spec d Hd) as (Ad & Ld & Vd).
  unfold iso_date, DateTime.fromisoformat. rewrite !str_app_assoc.
  rewrite (take_digits_app 4 _ _ Ly Ay), Vy. cbn [append].
  rewrite (take_digits_app 2 _ _ Lmo Amo), Vmo. cbn [append].
  rewrite (take_digits_app 2 _ _ Ld Ad), Vd.
  now rewrite after_separator_T.
Qed.

Lemma fromisoformat_date (y mo d : Z) :
  0 <= y <= 9999 -> 0 <= mo <= 99 -> 0 <= d <= 99 ->
  DateTime.fromisoformat (iso_date y mo d) = DateTime.make y mo d 0 0 0 0 None.
Proof.
  intros Hy Hmo Hd.
  destruct (zfill4_spec y Hy) as (Ay & Ly & Vy).
  destruct (zfill2_spec mo Hmo) as (Amo & Lmo & Vmo).
  destruct (zfill2_spec d Hd) as (Ad & Ld & Vd).
  unfold iso_date, DateTime.fromisoformat.
  rewrite (take_digits_app 4 _ _ Ly Ay), Vy. cbn [append].
  rewrite (take_digits_app 2 _ _ Lmo Amo), Vmo. cbn [append].
  rewrite <- (str_app_nil_r (Str.zfill 2 d)) at 1.
  now rewrite (take_digits_app 2 _ _ Ld Ad), Vd.
Qed.

Lemma iso_date_count (c : ascii) (y mo d : Z) :
  0 <= y <= 9999 -> 0 <= mo <= 99 -> 0 <= d <= 99 ->
  Str.is_digit c = false -> Ascii.eqb "-" c = false ->
  Str.count c (iso_date y mo d) = O.
Proof.
  intros Hy Hmo Hd Hc Hdash.
  destruct (zfill4_spec y Hy) as (Ay & _). destruct (zfill2_spec mo Hmo) as (Amo & _).
  destruct (zfill2_spec d Hd) as (Ad & _).
  unfold iso_date. rewrite !count_app, !count_cons, Hdash.
  now rewrite (digits_count c _ Hc Ay), (digits_count c _ Hc Amo),
    (digits_count c _ Hc Ad).
Qed.

Lemma iso_offset_split (y mo d h mi s : Z) (west : bool) (oh om : Z) :
  iso_offset y mo d h mi s west oh om
  = iso_date y mo d
    ++ String "T"
         ((Str.zfill 2 h ++ ":" ++ Str.zfill 2 mi ++ ":" ++ Str.zfill 2 s)
          ++ String (if west then "-" else "+")%char
               (Str.zfill 2 oh ++ ":" ++ Str.zfill 2 om)).
Proof.
  unfold iso_offset, iso_date.
  repeat first [rewrite str_app_assoc | progress (cbn [append])]. reflexivity.
Qed.

Lemma iso_utc_split (y mo d h mi s : Z) :
  iso_utc y mo d h mi s
  = iso_date y mo d
    ++ String "T"
         ((Str.zfill 2 h ++ ":" ++ Str.zfill 2 mi ++ ":" ++ Str.zfill 2 s) ++ "Z").
Proof.
  unfold iso_utc, iso_date.
  repeat first [rewrite str_app_assoc | progress (cbn [append])]. reflexivity.
Qed.

Lemma replace_Z_iso_utc (y mo d h mi s : Z) :
  0 <= y <= 9999 -> 0 <= mo <= 99 -> 0 <= d <= 99 ->
  0 <= h <= 99 -> 0 <= mi <= 99 -> 0 <= s <= 99 ->
  Str.replace "Z" "+00:00" (iso_utc y mo d h mi s)
  = iso_date y mo d
    ++ String "T"
         ((Str.zfill 2 h ++ ":" ++ Str.zfill 2 mi ++ ":" ++ Str.zfill 2 s)
          ++ String "+" "00:00").
Proof.
  intros Hy Hmo Hd Hh Hmi Hs. rewrite iso_utc_split.
  rewrite (replace_old_char_absent "Z" _ (iso_date y mo d))
    by (now apply iso_date_count).
  rewrite replace_old_char_cons. cbn [Ascii.eqb Bool.eqb].
  rewrite (replace_old_char_absent "Z")
    by (now apply clock_count).
  reflexivity.
Qed.

Lemma replace_Z_absent (s : string) :
  Str.count "Z" s = O -> Str.replace "Z" "+00:00" s = s.
Proof. apply replace_absent_lead. Qed.

Lemma iso_offset_no_Z (y mo d h mi s : Z) (west : bool) (oh om : Z) :
  0 <= y <= 9999 -> 0 <= mo <= 99 -> 0 <= d <= 99 ->
  0 <= h <= 99 -> 0 <= mi <= 99 -> 0 <= s <= 99 ->
  0 <= oh <= 99 -> 0 <= om <= 99 ->
  Str.count "Z" (iso_offset y mo d h mi s west oh om) = O.
Proof.
  intros Hy Hmo Hd Hh Hmi Hs Hoh Hom. rewrite iso_offset_split.
  destruct (zfill2_spec oh Hoh) as (Aoh & _).
  destruct (zfill2_spec om Hom) as (Aom & _).
  rewrite count_app, iso_date_count by (assumption || reflexivity).
  rewrite count_cons, count_app, clock_count by (assumption || reflexivity).
  rewrite count_cons, !count_app.
  rewrite (digits_count "Z" _ eq_refl Aoh), (digits_count "Z" _ eq_refl Aom).
  now destruct west.
Qed.

(** [format_datetime] shows a timestamp's own date and time of day: the
    offset from UTC is read and then left out, with no conversion, so a
    timestamp with an offset (of a year of four digits) gives the clock it
    writes. *)
Theorem format_datetime_keeps_wall_clock :
  forall (y mo d h mi s : Z) (west : bool) (oh om : Z),
    DateTime.valid y mo d h mi s 0 = true ->
    1000 <= y ->
    0 <= oh <= 23 -> 0 <= om <= 59 ->
    format_datetime (VStr (iso_offset y mo d h mi s west oh om))
    = dd_mm_yyyy y mo d h mi s.
Proof.
  intros y mo d h mi s west oh om Hv Hy1 Hoh Hom.
  pose proof (valid_ranges _ _ _ _ _ _ _ Hv) as (Hy & Hmo & Hd & Hh & Hmi & Hs).
  unfold format_datetime.
  rewrite truthy_str by (unfold iso_offset; destruct (Str.zfill 4 y); discriminate).
  cbn [negb]. rewrite replace_Z_absent by (apply iso_offset_no_Z; lia).
  rewrite iso_offset_split, fromisoformat_date_T by lia.
  rewrite split_offset_sign by (apply clock_count; (lia || reflexivity)).
  rewrite parse_clock by lia. rewrite parse_offset_hh_mm by assumption.
  unfold DateTime.make. rewrite Hv. apply strftime_dd_mm_yyyy. lia.
Qed.

Lemma format_datetime_keeps_wall_clock_witness :
  format_datetime (VStr "2024-01-05T23:30:00-05:00") = "05/01/2024 23:30:00".
Proof.
  apply (format_datetime_keeps_wall_clock 2024 1 5 23 30 0 true 5 0);
    [reflexivity | lia | lia | lia].
Defined.

(** A date without a time of day (of a year of four digits) is shown at
    midnight. *)
Theorem format_datetime_date_only :
  forall y mo d : Z,
    DateTime.valid y mo d 0 0 0 0 = true ->
    1000 <= y ->
    format_datetime (VStr (iso_date y mo d)) = dd_mm_yyyy y mo d 0 0 0.
Proof.
  intros y mo d Hv Hy1.
  pose proof (valid_ranges _ _ _ _ _ _ _ Hv) as (Hy & Hmo & Hd & _).
  unfold format_datetime.
  rewrite truthy_str by (unfold iso_date; destruct (Str.zfill 4 y); discriminate).
  cbn [negb].
  rewrite replace_Z_absent by (apply iso_date_count; (lia || reflexivity)).
  rewrite fromisoformat_date by lia.
  unfold DateTime.make. rewrite Hv. apply strftime_dd_mm_yyyy. lia.
Qed.

Lemma format_datetime_date_only_witness :
  format_datetime (VStr "2024-02-29") = "29/02/2024 00:00:00".
Proof. apply (format_datetime_date_only 2024 2 29); [reflexivity | lia]. Defined.

(** A timestamp that is well formed but names a day that does not exist
    (a month 13, a 30th of February) is returned as it is. *)
Theorem format_datetime_echoes_impossible_date :
  forall y mo d h mi s : Z,
    0 <= y <= 9999 -> 0 <= mo <= 99 -> 0 <= d <= 99 ->
    0 <= h <= 23 -> 0 <= mi <= 59 -> 0 <= s <= 59 ->
    DateTime.valid y mo d 0 0 0 0 = false ->
    format_datetime (VStr (iso_utc y mo d h mi s)) = iso_utc y mo d h mi s.
Proof.
  intros y mo d h mi s Hy Hmo Hd Hh Hmi Hs Hv.
  unfold format_datetime.
  rewrite truthy_str by (apply app_cons_nonempty).
  cbn [negb]. rewrite replace_Z_iso_utc by lia.
  rewrite fromisoformat_date_T by lia.
  rewrite split_offset_sign with (west := false)
    by (apply clock_count; (lia || reflexivity)).
  rewrite parse_clock by lia.
  change (DateTime.parse_offset false "00:00") with (Some 0).
  unfold DateTime.make.
  replace (DateTime.valid y mo d h mi s 0) with false; [reflexivity|].
  symmetry. revert Hv. unfold DateTime.valid.
  destruct (DateTime.in_range 1 9999 y && DateTime.in_range 1 12 mo
            && DateTime.in_range 1 (DateTime.days_in_month y mo) d);
    [discriminate | reflexivity].
Qed.

Lemma format_datetime_echoes_impossible_date_witness :
  format_datetime (VStr "2023-02-30T10:00:00Z") = "2023-02-30T10:00:00Z".
Proof.
  apply (format_datetime_echoes_impossible_date 2023 2 30 10 0 0);
    try lia; reflexivity.
Defined.

(** ** Further facts about amounts *)

(** An amount written with more than one separator, commas and points
    alike (thousands grouped in either style), is read as [0.0]. *)
Theorem to_float_many_separators :
  forall s : string,
    (2 <= Str.count "," s + Str.count "." s)%nat ->
    to_float (VStr s) = 0%float.
Proof.
  intros s H. unfold to_float.
  destruct (Py.eq (VStr s) (VStr EmptyString)); [reflexivity|].
  cbn [Py.str]. rewrite float_of_string_two_points; [reflexivity|].
  now rewrite count_comma_replaced.
Qed.

Lemma to_float_many_separators_witness :
  to_float (VStr "1.234.567") = 0%float /\ to_float (VStr "1,234,567") = 0%float.
Proof.
  split; apply to_float_many_separators; vm_compute; lia.
Defined.

Lemma float_of_string_bracket (c : ascii) (x : string) :
  amount_char c = false ->
  Py.float_of_string (Str.replace "," "." (String c x)) = Raise ValueError.
Proof.
  intros H. apply float_of_string_garbage. cbn [all_chars]. now rewrite H.
Qed.

(** A value that is no number and no text (a boolean, a list, a
    dictionary) is read as [0.0]: its [str] is no numeral. *)
Theorem to_float_other_types :
  (forall b : bool, to_float (VBool b) = 0%float)
  /\ (forall l : list value, to_float (VList l) = 0%float)
  /\ (forall d : list (string * value), to_float (VDict d) = 0%float).
Proof.
  split; [intros []; vm_compute; reflexivity|]. split.
  - intros l. unfold to_float. cbn [Py.eq Py.num_of Py.str Py.repr append].
    now rewrite float_of_string_bracket.
  - intros d. unfold to_float. cbn [Py.eq Py.num_of Py.str Py.repr append].
    now rewrite float_of_string_bracket.
Qed.

(** ** Facts about the parts of a text *)

Lemma lstrip_gen_suffix (back : bool) :
  forall (n : nat) (s : string), (String.length s <= n)%nat ->
    exists pre : string, s = pre ++ Str.lstrip_gen back s.
Proof.
  induction n as [|n IH]; intros s Hn.
  - destruct s; [now exists EmptyString | simpl in Hn; lia].
  - destruct s as [|a s1]; [now exists EmptyString|].
    cbn [Str.lstrip_gen].
    destruct (Str.is_space1 a).
    { destruct (IH s1 ltac:(simpl in Hn; lia)) as [pre Hpre].
      exists (String a pre). cbn [append]. now rewrite <- Hpre. }
    destruct s1 as [|b s2]; [now exists EmptyString|].
    destruct (if back then Str.is_space2 b a else Str.is_space2 a b).
    { destruct (IH s2 ltac:(simpl in Hn; lia)) as [pre Hpre].
      exists (String a (String b pre)). cbn [append]. now rewrite <- Hpre. }
    destruct s2 as [|d s3]; [now exists EmptyString|].
    destruct (if back then Str.is_space3 d b a else Str.is_space3 a b d);
      [|now exists EmptyString].
    destruct (IH s3 ltac:(simpl in Hn; lia)) as [pre Hpre].
    exists (String a (String b (String d pre))). cbn [append]. now rewrite <- Hpre.
Qed.

(** A text is its [strip] with something before and something after. *)
Lemma strip_infix (s : string) :
  exists a b : string, s = a ++ Str.strip s ++ b.
Proof.
  unfold Str.strip, Str.rstrip, Str.lstrip.
  destruct (lstrip_gen_suffix false _ s (le_n _)) as [a Ha].
  set (x := Str.lstrip_gen false s) in *.
  destruct (lstrip_gen_suffix true _ (Str.rev x) (le_n _)) as [b Hb].
  exists a, (Str.rev b). rewrite Ha at 1. f_equal.
  rewrite <- str_rev_app, <- Hb. symmetry. apply str_rev_involutive.
Qed.

Lemma all_chars_strip (p : ascii -> bool) (s : string) :
  all_chars p s = true -> all_chars p (Str.strip s) = true.
Proof.
  destruct (strip_infix s) as (a & b & H). rewrite H at 1.
  rewrite !all_chars_app, !andb_true_iff. tauto.
Qed.

Lemma prefix_app_r (sub s b : string) :
  prefix sub s = true -> prefix sub (s ++ b) = true.
Proof.
  revert s. induction sub as [|c sub IH]; intros s;
    [intros _; now destruct (s ++ b)|].
  destruct s as [|x s]; [discriminate|]. cbn [prefix append].
  destruct (ascii_dec c x); [apply IH | discriminate].
Qed.

Lemma contains_app_r (sub s b : string) :
  Str.contains sub s = true -> Str.contains sub (s ++ b) = true.
Proof.
  induction s as [|x s IH]; cbn [Str.contains append].
  - rewrite orb_false_r. intros H. destruct sub; [|discriminate H].
    now destruct b.
  - rewrite !orb_true_iff. intros [H | H].
    + left. now apply (prefix_app_r sub (String x s) b).
    + right. now apply IH.
Qed.

Lemma contains_app_l (sub a s : string) :
  Str.contains sub s = true -> Str.contains sub (a ++ s) = true.
Proof.
  intros H. induction a as [|x a IH]; [exact H|].
  cbn [append Str.contains]. rewrite IH. apply orb_true_r.
Qed.

Lemma contains_strip (sub s : string) :
  Str.contains sub s = false -> Str.contains sub (Str.strip s) = false.
Proof.
  intros H. destruct (Str.contains sub (Str.strip s)) eqn:E; [|reflexivity].
  destruct (strip_infix s) as (a & b & Hs).
  apply (contains_app_r _ _ b), (contains_app_l _ a) in E.
  rewrite <- Hs in E. congruence.
Qed.

Lemma prefix_refl_app (sub b : string) : prefix sub (sub ++ b) = true.
Proof.
  induction sub as [|c sub IH]; [now destruct b|].
  cbn [append prefix]. destruct (ascii_dec c c); [exact IH | congruence].
Qed.

Lemma contains_self_app (sub a b : string) :
  Str.contains sub (a ++ sub ++ b) = true.
Proof.
  apply contains_app_l.
  destruct (sub ++ b) eqn:E; cbn [Str.contains]; rewrite <- E, prefix_refl_app;
    reflexivity.
Qed.

(** ** Facts about [split] *)

Lemma split_not_nil (c : ascii) (s : string) : Str.split c s <> [].
Proof.
  induction s as [|x s IH]; [discriminate|].
  cbn [Str.split]. destruct (Str.split c s); [discriminate|].
  destruct (Ascii.eqb x c); discriminate.
Qed.

Lemma split_absent (c : ascii) (p : string) :
  Str.count c p = O -> Str.split c p = [p].
Proof.
  induction p as [|x p IH]; [reflexivity|].
  rewrite count_cons. cbn [Str.split].
  destruct (Ascii.eqb x c); [discriminate|]. intros H. now rewrite (IH H).
Qed.

Lemma split_app_sep (c : ascii) (p t : string) :
  Str.count c p = O ->
  Str.split c (p ++ String c t) = p :: Str.split c t.
Proof.
  induction p as [|x p IH].
  - intros _. cbn [append Str.split]. rewrite Ascii.eqb_refl.
    destruct (Str.split c t) eqn:E; [now apply split_not_nil in E | reflexivity].
  - rewrite count_cons. cbn [append Str.split].
    destruct (Ascii.eqb x c); [discriminate|]. intros H. now rewrite (IH H).
Qed.

Lemma split_spec (c : ascii) (h : string) :
  exists (h0 : string) (t : list string),
    Str.split c h = h0 :: t
    /\ (exists b, h = h0 ++ b)
    /\ (forall p, In p t -> exists a b, h = a ++ p ++ b).
Proof.
  induction h as [|x h (h0 & t & Hs & (b0 & Hb0) & Ht)].
  - exists EmptyString, []. split; [reflexivity|].
    split; [now exists EmptyString | intros p []].
  - cbn [Str.split]. rewrite Hs. destruct (Ascii.eqb x c).
    + exists EmptyString, (h0 :: t). split; [reflexivity|].
      split; [now exists (String x h)|].
      intros p [<- | Hp].
      * exists (String x EmptyString), b0. cbn [append]. now rewrite <- Hb0.
      * destruct (Ht p Hp) as (a & b & Hab).
        exists (String x a), b. cbn [append]. now rewrite <- Hab.
    + exists (String x h0), t. split; [reflexivity|].
      split; [exists b0; cbn [append]; now rewrite <- Hb0|].
      intros p Hp. destruct (Ht p Hp) as (a & b & Hab).
      exists (String x a), b. cbn [append]. now rewrite <- Hab.
Qed.

Lemma split_part_infix (c : ascii) (h p : string) :
  In p (Str.split c h) -> exists a b, h = a ++ p ++ b.
Proof.
  destruct (split_spec c h) as (h0 & t & Hs & (b0 & Hb0) & Ht).
  rewrite Hs. intros [<- | Hp]; [|now apply Ht].
  now exists EmptyString, b0.
Qed.

(** ** Facts about the [Link] header *)

Lemma next_page_url_unfold (h : string) :
  _get_next_page_url (Some h)
  = match List.find (Str.contains rel_next) (List.map Str.strip (Str.split "," h)) with
    | Some p => Some (Str.slice p (Str.find "<" p + 1) (Str.find ">" p))
    | None => None
    end.
Proof. destruct h; reflexivity. Qed.

Lemma find_none_all {A : Type} (f : A -> bool) (l : list A) :
  (forall x, In x l -> f x = false) -> List.find f l = None.
Proof.
  induction l as [|a l IH]; [reflexivity|].
  intros H. cbn [List.find]. rewrite (H a (or_introl eq_refl)).
  apply IH. intros x Hx. apply H. now right.
Qed.

(** A header without a link tagged [rel="next"] names no next page, and
    neither does an absent or an empty header: the loop of
    [fetch_all_orders] then ends. *)
Theorem next_page_url_none :
  _get_next_page_url None = None
  /\ _get_next_page_url (Some EmptyString) = None
  /\ (forall h : string,
        Str.contains rel_next h = false -> _get_next_page_url (Some h) = None).
Proof.
  split; [reflexivity|]. split; [reflexivity|].
  intros h H. rewrite next_page_url_unfold, find_none_all; [reflexivity|].
  intros x Hx. apply in_map_iff in Hx as (p & <- & Hp).
  apply contains_strip.
  destruct (Str.contains rel_next p) eqn:E; [|reflexivity].
  destruct (split_part_infix _ _ _ Hp) as (a & b & Hab).
  apply (contains_app_r _ _ b), (contains_app_l _ a) in E.
  rewrite <- Hab in E. congruence.
Qed.

Lemma strip_spaces_before (pad s : string) :
  all_chars (Ascii.eqb " ") pad = true -> Str.strip (pad ++ s) = Str.strip s.
Proof.
  induction pad as [|c pad IH]; [reflexivity|].
  cbn [all_chars]. rewrite andb_true_iff. intros [Hc Hp].
  apply Ascii.eqb_eq in Hc. subst c. cbn [append].
  rewrite <- (IH Hp). reflexivity.
Qed.

Lemma find_from_absent (c : ascii) (u rest : string) (i : Z) :
  Str.count c u = O ->
  Str.find_from (String c EmptyString) (u ++ String c rest) i
  = i + Z.of_nat (String.length u).
Proof.
  revert i. induction u as [|x u IH]; intros i.
  - intros _. cbn [append Str.find_from]. rewrite prefix_char, Ascii.eqb_refl.
    cbn [String.length]. lia.
  - rewrite count_cons. cbn [append Str.find_from]. rewrite prefix_char.
    destruct (Ascii.eqb x c); [discriminate|]. intros H.
    rewrite (IH _ H). cbn [String.length]. lia.
Qed.

Lemma slice_next_link (url : string) :
  Str.count ">" url = O ->
  Str.slice (next_link url) (Str.find "<" (next_link url) + 1)
    (Str.find ">" (next_link url))
  = url.
Proof.
  intros H. unfold next_link.
  change ("<" ++ url ++ ">; " ++ rel_next)
    with (String "<" (url ++ String ">" ("; " ++ rel_next))).
  set (tail := "; " ++ rel_next).
  assert (Hlt : Str.find "<" (String "<" (url ++ String ">" tail)) = 0).
  { unfold Str.find. cbn [Str.find_from]. now rewrite prefix_char. }
  assert (Hgt : Str.find ">" (String "<" (url ++ String ">" tail))
                = 1 + Z.of_nat (String.length url)).
  { unfold Str.find. cbn [Str.find_from]. rewrite prefix_char.
    cbn [Ascii.eqb Bool.eqb]. now apply find_from_absent. }
  rewrite Hlt, Hgt. unfold Str.slice.
  set (n := String.length url).
  assert (Hlen : Z.of_nat (String.length (String "<" (url ++ String ">" tail)))
                 = 1 + Z.of_nat n + Z.of_nat (String.length (String ">" tail))).
  { cbn [String.length]. rewrite str_length_app. cbn [String.length]. lia. }
  rewrite Hlen. unfold Str.clamp.
  replace (0 + 1 <? 0) with false by (symmetry; apply Z.ltb_ge; lia).
  replace (1 + Z.of_nat n <? 0) with false by (symmetry; apply Z.ltb_ge; lia).
  rewrite !Z.min_l by (cbn [String.length]; lia).
  replace (Z.to_nat (0 + 1)) with 1%nat by lia.
  replace (Z.to_nat (1 + Z.of_nat n - (0 + 1))) with n by lia.
  cbn [substring]. apply substring_head.
Qed.

Lemma strip_next_link (pad url : string) :
  all_chars (Ascii.eqb " ") pad = true ->
  Str.strip (pad ++ next_link url) = next_link url.
Proof.
  intros Hp. rewrite (strip_spaces_before _ _ Hp). unfold next_link, rel_next.
  replace ("<" ++ url ++ ">; " ++ "rel=" ++ String Py.dquote "next"
           ++ String Py.dquote EmptyString)
    with (String "<" (url ++ ">; rel=" ++ String Py.dquote "next")
          ++ String Py.dquote EmptyString).
  - apply strip_printable_ends; vm_compute; lia.
  - cbn [append]. f_equal. rewrite str_app_assoc. reflexivity.
Qed.

Lemma contains_next_link (url : string) :
  Str.contains rel_next (next_link url) = true.
Proof.
  unfold next_link.
  replace ("<" ++ url ++ ">; " ++ rel_next)
    with (("<" ++ url ++ ">; ") ++ rel_next ++ EmptyString).
  - apply contains_self_app.
  - rewrite str_app_nil_r. cbn [append]. f_equal. now rewrite str_app_assoc.
Qed.

Lemma next_link_count (url : string) :
  Str.count "," url = O -> Str.count "," (next_link url) = O.
Proof.
  intros H. unfold next_link. rewrite !count_app, H. reflexivity.
Qed.

Lemma spaces_count (pad : string) :
  all_chars (Ascii.eqb " ") pad = true -> Str.count "," pad = O.
Proof.
  induction pad as [|c pad IH]; [reflexivity|].
  cbn [all_chars]. rewrite andb_true_iff, count_cons. intros [Hc Hp].
  apply Ascii.eqb_eq in Hc. subst c. now rewrite (IH Hp).
Qed.

Lemma concat_cons (sep x : string) (l : list string) :
  l <> [] -> String.concat sep (x :: l) = x ++ sep ++ String.concat sep l.
Proof. destruct l; [congruence | reflexivity]. Qed.

Lemma find_first_part (f : string -> bool) (before after : list string)
  (x : string) :
  Forall (fun p => Str.count "," p = O /\ f (Str.strip p) = false) before ->
  Str.count "," x = O -> f (Str.strip x) = true ->
  List.find f (List.map Str.strip
                 (Str.split "," (String.concat "," (before ++ x :: after))))
  = Some (Str.strip x).
Proof.
  intros Hb Hx Hf. induction Hb as [|p before [Hp Hfp] _ IH]; cbn [List.app].
  - destruct after as [|y after].
    + cbn [String.concat]. rewrite (split_absent _ _ Hx).
      cbn [List.map List.find]. now rewrite Hf.
    + rewrite concat_cons by discriminate.
      change ("," ++ String.concat "," (y :: after))
        with (String "," (String.concat "," (y :: after))).
      rewrite (split_app_sep _ _ _ Hx). cbn [List.map List.find]. now rewrite Hf.
  - rewrite concat_cons by (now destruct before).
    change ("," ++ String.concat "," (before ++ x :: after)%list)
      with (String "," (String.concat "," (before ++ x :: after)%list)).
    rewrite (split_app_sep _ _ _ Hp). cbn [List.map List.find]. rewrite Hfp.
    exact IH.
Qed.

(** From a [Link] header of comma-separated links, [_get_next_page_url]
    returns the URL between the angle brackets of the first link tagged
    [rel="next"], whatever links come before it (tagged otherwise) and
    whatever follows it; the URL may hold any character but a comma and a
    closing bracket. *)
Theorem next_page_url_first_next :
  forall (before after : list string) (pad url : string),
    Forall (fun p => Str.count "," p = O /\ Str.contains rel_next p = false)
      before ->
    all_chars (Ascii.eqb " ") pad = true ->
    Str.count "," url = O ->
    Str.count ">" url = O ->
    _get_next_page_url
      (Some (String.concat "," (before ++ (pad ++ next_link url) :: after)))
    = Some url.
Proof.
  intros before after pad url Hb Hpad Hc Hg.
  rewrite next_page_url_unfold.
  rewrite (find_first_part (Str.contains rel_next)).
  - rewrite (strip_next_link _ _ Hpad). now rewrite slice_next_link.
  - eapply Forall_impl; [|exact Hb]. intros p [H1 H2].
    split; [exact H1 | now apply contains_strip].
  - rewrite count_app, (spaces_count _ Hpad). now apply next_link_count.
  - rewrite (strip_next_link _ _ Hpad). apply contains_next_link.
Qed.

Lemma next_page_url_first_next_witness :
  _get_next_page_url
    (Some (String.concat ","
             ([previous_link "https://x/orders.json?page_info=xyz"]
              ++ (" " ++ next_link "https://x/orders.json?page_info=abc")
                 :: [" " ++ next_link "https://x/orders.json?page_info=zzz"])))
  = Some "https://x/orders.json?page_info=abc".
Proof.
  apply (next_page_url_first_next
           [previous_link "https://x/orders.json?page_info=xyz"]
           [" " ++ next_link "https://x/orders.json?page_info=zzz"] " "
           "https://x/orders.json?page_info=abc").
  - repeat constructor.
  - reflexivity.
  - reflexivity.
  - reflexivity.
Defined.

(** ** Facts about traceability values *)

Lemma take_digits_nondigit (n : nat) (c : ascii) (r : string) :
  Str.is_digit c = false -> DateTime.take_digits (S n) (String c r) = None.
Proof.
  intros H. unfold DateTime.take_digits. cbn [substring Str.all_digits].
  rewrite H. cbn [andb]. now rewrite andb_false_r.
Qed.

Lemma fromisoformat_nondigit (c : ascii) (r : string) :
  Str.is_digit c = false ->
  DateTime.fromisoformat (String c r) = Raise ValueError.
Proof.
  intros H. unfold DateTime.fromisoformat. now rewrite take_digits_nondigit.
Qed.

Lemma plain_char_nondigit (c : ascii) : plain_char c = true -> Str.is_digit c = false.
Proof.
  unfold plain_char. rewrite andb_true_iff, negb_true_iff. tauto.
Qed.

Lemma fromisoformat_plain (t : string) :
  plain_text t = true ->
  DateTime.fromisoformat (Str.replace "Z" "+00:00" t) = Raise ValueError.
Proof.
  destruct t as [|c r]; [reflexivity|].
  unfold plain_text. cbn [all_chars]. rewrite andb_true_iff. intros [Hc _].
  rewrite replace_old_char_cons. destruct (Ascii.eqb c "Z").
  - reflexivity.
  - apply fromisoformat_nondigit. now apply plain_char_nondigit.
Qed.

Lemma lower_plain (s : string) :
  plain_text s = true -> plain_text (Str.lower s) = true.
Proof.
  unfold plain_text. induction s as [|c s IH]; [reflexivity|].
  cbn [all_chars Str.lower]. rewrite !andb_true_iff. intros [Hc Hs].
  split; [|now apply IH].
  unfold Str.lower_char. destruct (Str.is_upper c) eqn:E; [|exact Hc].
  unfold Str.is_upper, Str.between in E.
  apply andb_true_iff in E as [E1 E2]. apply Nat.leb_le in E1, E2.
  unfold plain_char, Str.is_digit, Str.between, Str.code.
  rewrite nat_ascii_embedding by (unfold Str.code in *; lia).
  unfold Str.code in *.
  apply andb_true_iff. split.
  - apply Nat.ltb_lt. lia.
  - apply negb_true_iff, andb_false_iff. right. apply Nat.leb_gt. lia.
Qed.

Lemma replace_from_chars (p : ascii -> bool) (old new : string) :
  all_chars p new = true ->
  forall (s : string) (skip : nat),
    all_chars p s = true -> all_chars p (Str.replace_from old new skip s) = true.
Proof.
  intros Hn. induction s as [|c s IH]; intros skip; [reflexivity|].
  cbn [all_chars Str.replace_from]. rewrite andb_true_iff. intros [Hc Hs].
  destruct skip as [|k]; [|now apply IH].
  destruct (prefix old (String c s)).
  - rewrite all_chars_app, Hn. now apply IH.
  - cbn [all_chars]. rewrite Hc. now apply IH.
Qed.

Lemma search_plain (s : string) :
  plain_text s = true -> TraceRe.search s = None.
Proof.
  unfold plain_text. induction s as [|c s IH]; [reflexivity|].
  cbn [all_chars]. rewrite andb_true_iff. intros [Hc Hs].
  cbn [TraceRe.search]. unfold TraceRe.match_here, TraceRe.date, TraceRe.digits.
  cbn [substring Str.all_digits]. rewrite (plain_char_nondigit _ Hc).
  cbn [andb]. rewrite andb_false_r. now apply IH.
Qed.

(** A traceability value that is ASCII text without any digit is kept as
    it is, trimmed of the white space around it. *)
Theorem parse_trace_dt_keeps_plain_text :
  forall s : string,
    plain_text s = true -> parse_trace_dt (VStr s) = Str.strip s.
Proof.
  intros s Hs. unfold parse_trace_dt. cbn [Py.truthy Py.str].
  destruct (String.eqb s EmptyString) eqn:E.
  { apply String.eqb_eq in E. now subst s. }
  cbn [negb].
  pose proof (all_chars_strip _ _ Hs) as Ht. fold (plain_text (Str.strip s)) in Ht.
  rewrite (fromisoformat_plain _ Ht).
  rewrite search_plain; [reflexivity|].
  apply all_chars_strip. unfold nnbsp, nbsp, Str.replace.
  cbn [Str.chr append].
  apply replace_from_chars; [reflexivity|].
  apply replace_from_chars; [reflexivity|].
  now apply lower_plain.
Qed.

Lemma parse_trace_dt_keeps_plain_text_witness :
  parse_trace_dt (VStr "  Pendiente de retiro ") = "Pendiente de retiro".
Proof. apply (parse_trace_dt_keeps_plain_text "  Pendiente de retiro "). reflexivity. Defined.

(** A traceability value that is an ISO timestamp once trimmed is shown as
    [format_datetime] shows the trimmed text; white space around it, which
    [format_datetime] does not accept, does no harm here. *)
Theorem parse_trace_dt_agrees_on_iso :
  forall (s : string) (dt : datetime),
    DateTime.fromisoformat (Str.replace "Z" "+00:00" (Str.strip s)) = Ok dt ->
    parse_trace_dt (VStr s) = format_datetime (VStr (Str.strip s))
    /\ parse_trace_dt (VStr s) = DateTime.strftime dt.
Proof.
  intros s dt H.
  assert (Ht : Str.strip s <> EmptyString).
  { intros E. rewrite E in H. discriminate H. }
  assert (Hs : s <> EmptyString).
  { intros E. apply Ht. now subst s. }
  unfold parse_trace_dt, format_datetime.
  rewrite (truthy_str _ Hs), (truthy_str _ Ht). cbn [negb Py.str].
  now rewrite H.
Qed.

Lemma parse_trace_dt_agrees_on_iso_witness :
  parse_trace_dt (VStr " 2024-01-05T10:00:00Z ")
  = format_datetime (VStr (Str.strip " 2024-01-05T10:00:00Z "))
  /\ parse_trace_dt (VStr " 2024-01-05T10:00:00Z ")
     = DateTime.strftime (mkdatetime 2024 1 5 10 0 0 0 (Some 0)).
Proof.
  apply (parse_trace_dt_agrees_on_iso " 2024-01-05T10:00:00Z "). reflexivity.
Defined.

(** ** Facts about the fields of the trace *)

Lemma trace_get_set_other (e e' : event) (v : string) (tr : trace) :
  e <> e' -> trace_get e (trace_set e' v tr) = trace_get e tr.
Proof. destruct e, e'; intros H; try reflexivity; now contradiction H. Qed.

Lemma trace_step_dict (tr : trace) (fd : list (string * value)) :
  trace_step tr (VDict fd)
  = Ok match reported (VDict fd) with
       | Some e => trace_set e (parse_trace_dt (VStr (reported_text (VDict fd)))) tr
       | None => tr
       end.
Proof.
  unfold trace_step, reported, reported_text. cbn [Py.get bind].
  now destruct (event_of_name _).
Qed.

Lemma trace_step_not_dict (tr : trace) (a : value) :
  (forall fd, a <> VDict fd) -> trace_step tr a = Raise AttributeError.
Proof.
  intros H. destruct a; try reflexivity. now contradiction (H d).
Qed.

Lemma trace_step_frame (e : event) (tr tr' : trace) (a : value) :
  trace_step tr a = Ok tr' -> reported a <> Some e ->
  trace_get e tr' = trace_get e tr.
Proof.
  destruct a as [| | | | | |fd]; try discriminate.
  rewrite trace_step_dict.
  destruct (reported (VDict fd)) as [e'|]; intros [= <-] Hne; [|reflexivity].
  apply trace_get_set_other. congruence.
Qed.

Lemma trace_loop_frame (e : event) (l : list value) :
  forall tr tr',
    trace_loop tr l = Ok tr' ->
    Forall (fun a => reported a <> Some e) l ->
    trace_get e tr' = trace_get e tr.
Proof.
  induction l as [|a l IH]; intros tr tr'; cbn [trace_loop].
  - now intros [= <-].
  - destruct (trace_step tr a) as [tr1|] eqn:E; [|discriminate]. cbn [bind].
    intros Hl Hall. inversion Hall as [|? ? Ha Hrest]; subst.
    rewrite (IH _ _ Hl Hrest). now apply (trace_step_frame e tr tr1 a).
Qed.

Lemma extract_traceability_list (attrs : list value) :
  extract_traceability (VList attrs) = trace_loop empty_trace attrs.
Proof. unfold extract_traceability. now destruct attrs. Qed.

(** Each field of the trace holds the parsed value of the last note
    attribute that reports its event, whatever attributes come before and
    whichever others follow; it is the empty string when no attribute
    reports the event. *)
Theorem trace_field_is_last_report :
  forall (e : event) (attrs : list value) (tr : trace),
    extract_traceability (VList attrs) = Ok tr ->
    (Forall (fun a => reported a <> Some e) attrs ->
     trace_get e tr = EmptyString)
    /\ (forall (pre post : list value) (a : value),
          attrs = (pre ++ a :: post)%list ->
          reported a = Some e ->
          Forall (fun b => reported b <> Some e) post ->
          trace_get e tr = parse_trace_dt (VStr (reported_text a))).
Proof.
  intros e attrs tr. rewrite extract_traceability_list. intros H. split.
  - intros Hall. rewrite (trace_loop_frame e _ _ _ H Hall). now destruct e.
  - intros pre post a -> Ha Hpost. rewrite trace_loop_app in H.
    destruct (trace_loop empty_trace pre) as [tr0|]; [|discriminate H].
    cbn [bind trace_loop] in H.
    destruct (trace_step tr0 a) as [tr1|] eqn:E; [|discriminate H].
    cbn [bind] in H. rewrite (trace_loop_frame e _ _ _ H Hpost).
    destruct a as [| | | | | |fd]; try discriminate E.
    rewrite trace_step_dict, Ha in E. injection E as <-.
    apply trace_get_set.
Qed.

Lemma trace_field_is_last_report_witness :
  trace_get EvEmbalado
    match extract_traceability (VList demo_attrs) with
    | Ok tr => tr
    | Raise _ => empty_trace
    end = "06/01/2024 11:30:00"
  /\ trace_get EvListo
       match extract_traceability (VList demo_attrs) with
       | Ok tr => tr
       | Raise _ => empty_trace
       end = EmptyString.
Proof.
  split.
  - apply (proj2 (trace_field_is_last_report EvEmbalado demo_attrs _ eq_refl)
             [VDict [("name", VStr "Embalado");
                     ("value", VStr "2024-01-05T10:00:00Z")];
              VDict [("name", VStr "Carrier pickup"); ("value", VStr "pendiente")]]
             [VDict [("name", VStr "gift_note"); ("value", VStr "Feliz cumple")]]
             (VDict [("name", VStr "embalado ");
                     ("value", VStr "2024-01-06T11:30:00Z")]));
      [reflexivity | reflexivity |].
    repeat constructor. discriminate.
  - apply (proj1 (trace_field_is_last_report EvListo demo_attrs _ eq_refl)).
    repeat constructor; discriminate.
Defined.

(** A note attribute that is no dictionary makes [extract_traceability]
    raise [AttributeError], wherever it stands in the list. *)
Theorem extract_traceability_needs_dicts :
  forall attrs : list value,
    Exists (fun a => forall fd : list (string * value), a <> VDict fd) attrs ->
    extract_traceability (VList attrs) = Raise AttributeError.
Proof.
  intros attrs H. rewrite extract_traceability_list. generalize empty_trace.
  induction H as [a l Ha | a l _ IH]; intros tr; cbn [trace_loop].
  - now rewrite (trace_step_not_dict tr a Ha).
  - destruct a as [| | | | | |fd]; try reflexivity.
    rewrite trace_step_dict. cbn [bind]. apply IH.
Qed.

Lemma extract_traceability_needs_dicts_witness :
  extract_traceability
    (VList [VDict [("name", VStr "Embalado"); ("value", VStr "2024-01-05T10:00:00Z")];
            VStr "gift"])
  = Raise AttributeError.
Proof.
  apply (extract_traceability_needs_dicts
           [VDict [("name", VStr "Embalado"); ("value", VStr "2024-01-05T10:00:00Z")];
            VStr "gift"]).
  right. left. discriminate.
Defined.

(** ** Facts about the names of the carrier event *)

Lemma prefix_app_contains (a b s : string) :
  prefix (a ++ b) s = true -> Str.contains b s = true.
Proof.
  revert s. induction a as [|c a IH]; intros s; cbn [append].
  - intros H. destruct s; cbn [Str.contains]; now rewrite H.
  - destruct s as [|x s]; [discriminate|]. cbn [prefix].
    destruct (ascii_dec c x); [|discriminate].
    intros H. cbn [Str.contains]. rewrite (IH _ H). apply orb_true_r.
Qed.

Lemma contains_app_right (a b s : string) :
  Str.contains (a ++ b) s = true -> Str.contains b s = true.
Proof.
  induction s as [|x s IH]; cbn [Str.contains].
  - rewrite orb_false_r. intros H. apply prefix_app_contains in H. exact H.
  - rewrite orb_true_iff. intros [H | H].
    + apply prefix_app_contains in H. exact H.
    + rewrite (IH H). apply orb_true_r.
Qed.

(** The names of the carrier event are those that are none of the four
    other events' names and that have [transportista] or [carrier]
    somewhere once ['-'] and [' '] are read as ['_']: the third test of line
    97 adds no name. *)
Theorem event_of_name_carrier :
  forall name : string,
    event_of_name name = Some EvTransportista
    <-> (name <> "embalado"
         /\ name <> "transferido_a_tienda"
         /\ name <> "listo_para_retiro"
         /\ name <> "retirado_por_cliente"
         /\ (Str.contains "transportista" (normalize_separators name)
             || Str.contains "carrier" (normalize_separators name)) = true).
Proof.
  intros name. unfold event_of_name, normalize_separators.
  destruct (String.eqb name "embalado") eqn:E1.
  { apply String.eqb_eq in E1. split; [discriminate | now intros [H _]]. }
  destruct (String.eqb name "transferido_a_tienda") eqn:E2.
  { apply String.eqb_eq in E2. split; [discriminate | now intros (_ & H & _)]. }
  destruct (String.eqb name "listo_para_retiro") eqn:E3.
  { apply String.eqb_eq in E3. split; [discriminate | now intros (_ & _ & H & _)]. }
  destruct (String.eqb name "retirado_por_cliente") eqn:E4.
  { apply String.eqb_eq in E4.
    split; [discriminate | now intros (_ & _ & _ & H & _)]. }
  apply String.eqb_neq in E1, E2, E3, E4. cbv zeta.
  set (n := Str.replace " " "_" (Str.replace "-" "_" name)).
  destruct (Str.contains "transportista" n) eqn:Ct; cbn [orb].
  { split; [intros _; now repeat split | reflexivity]. }
  destruct (Str.contains "carrier" n) eqn:Cc; cbn [orb].
  { split; [intros _; now repeat split | reflexivity]. }
  destruct (Str.contains "entregado_a_transportista" n) eqn:Ce.
  - apply (contains_app_right "entregado_a_" "transportista") in Ce. congruence.
  - split; [discriminate | now intros (_ & _ & _ & _ & H)].
Qed.

(** ** Facts about the pagination loop *)

Section FetchFacts.

Variable SHOP_DOMAIN SHOP_TOKEN API_VERSION : string.
Variable server : list request -> request -> result response.

Lemma fetch_loop_requests (fuel : nat) :
  forall url params orders w w' res,
    fetch_loop SHOP_TOKEN server (S fuel) url params orders w = (w', res) ->
    exists rest : list request,
      sent w' = (sent w ++ mkrequest url (HEADERS SHOP_TOKEN) params :: rest)%list
      /\ Forall (fun q => req_headers q = HEADERS SHOP_TOKEN
                          /\ req_params q = None) rest.
Proof.
  induction fuel as [|n IH]; intros url params orders w w' res;
    cbn [fetch_loop];
    set (q := mkrequest url (HEADERS SHOP_TOKEN) params);
    (assert (Hstop : forall x, (send q w, x) = (w', res) ->
               exists rest : list request,
                 sent w' = (sent w ++ q :: rest)%list
                 /\ Forall (fun q => req_headers q = HEADERS SHOP_TOKEN
                                     /\ req_params q = None) rest)
       by (intros x [= <- <-]; exists []; split; [reflexivity | constructor]));
    (destruct (server (sent w) q) as [r|e]; [|apply Hstop]);
    (destruct (negb (status_code r =? 200)); [apply Hstop|]);
    (destruct (bind (json r) _) as [page|e]; [|apply Hstop]);
    (destruct (_get_next_page_url (link r)) as [[|c next]|]; try apply Hstop).
  - intros H. fold (fetch_loop SHOP_TOKEN server) in H.
    eapply IH in H. destruct H as (rest & Hs & Hall).
    exists (mkrequest (String c next) (HEADERS SHOP_TOKEN) None :: rest).
    split.
    + rewrite Hs. cbn [send sent]. now rewrite <- app_assoc.
    + constructor; [now split | exact Hall].
Qed.

(** The first request of [fetch_all_orders] goes to [orders.json] under
    [BASE_URL] with the query parameters [limit], [status] and, when it is
    not empty, [created_at_min]; every later request carries no query
    parameters; and every request carries the access-token header. *)
Theorem fetch_requests_shape :
  forall (fuel : nat) (status : string) (limit : Z) (cutoff : option string)
         (w w' : world) (res : option (result (list value))),
    fetch_all_orders SHOP_DOMAIN SHOP_TOKEN API_VERSION server (S fuel)
      status limit cutoff w = (w', res) ->
    exists (first : request) (rest : list request),
      sent w' = (sent w ++ first :: rest)%list
      /\ req_url first = BASE_URL SHOP_DOMAIN API_VERSION ++ "/orders.json"
      /\ req_params first
         = Some ([("limit", VInt limit); ("status", VStr status)]
                 ++ match cutoff with
                    | None | Some EmptyString => []
                    | Some c => [("created_at_min", VStr c)]
                    end)%list
      /\ Forall (fun q => req_params q = None) rest
      /\ Forall (fun q => req_headers q
                          = [("X-Shopify-Access-Token", SHOP_TOKEN)])
           (first :: rest).
Proof.
  intros fuel status limit cutoff w w' res H. unfold fetch_all_orders in H.
  apply fetch_loop_requests in H as (rest & Hs & Hall).
  eexists. exists rest. split; [exact Hs|]. cbn [req_url req_params].
  split; [reflexivity|]. split.
  { destruct cutoff as [[|c s]|]; reflexivity. }
  split.
  - eapply Forall_impl; [|exact Hall]. now intros q [_ Hq].
  - constructor; [reflexivity|].
    eapply Forall_impl; [|exact Hall]. now intros q [Hq _].
Qed.

(** A request that is not the last of a run got the status 200, and the
    request after it went to the URL that its [Link] header tags
    [rel="next"]. *)
Theorem fetch_follows_next_links :
  forall (fuel : nat) (url : string) (params : option (list (string * value)))
         (orders : list value) (w w' : world)
         (res : option (result (list value)))
         (pre post : list request) (q1 q2 : request),
    fetch_loop SHOP_TOKEN server fuel url params orders w = (w', res) ->
    sent w' = (sent w ++ pre ++ q1 :: q2 :: post)%list ->
    exists r : response,
      server (sent w ++ pre)%list q1 = Ok r
      /\ status_code r = 200
      /\ _get_next_page_url (link r) = Some (req_url q2).
Proof.
  induction fuel as [|n IH]; intros url params orders w w' res pre post q1 q2;
    cbn [fetch_loop].
  - intros [= <- <-] Hs. exfalso.
    apply (f_equal (@List.length request)) in Hs.
    rewrite !length_app in Hs. cbn [List.length] in Hs. lia.
  - set (q0 := mkrequest url (HEADERS SHOP_TOKEN) params).
    intros Hrun Hs.
    assert (Hstop : forall x, (send q0 w, x) = (w', res) -> False).
    { intros x [= <- <-]. cbn [send sent] in Hs.
      apply app_inv_head in Hs.
      destruct pre as [|p pre]; cbn [List.app] in Hs; [discriminate Hs|].
      injection Hs as _ Hs. destruct pre; discriminate Hs. }
    revert Hrun.
    destruct (server (sent w) q0) as [r0|e] eqn:E0;
      [|intros Hrun; destruct (Hstop _ Hrun)].
    destruct (negb (status_code r0 =? 200)) eqn:E200;
      [intros Hrun; destruct (Hstop _ Hrun)|].
    apply negb_false_iff, Z.eqb_eq in E200.
    destruct (bind (json r0) _) as [page|e];
      [|intros Hrun; destruct (Hstop _ Hrun)].
    destruct (_get_next_page_url (link r0)) as [[|c next]|] eqn:En;
      try (intros Hrun; destruct (Hstop _ Hrun)).
    intros Hrun.
    destruct n as [|n'].
    { cbn [fetch_loop] in Hrun. destruct (Hstop _ Hrun). }
    pose proof (fetch_loop_requests _ _ _ _ _ _ _ Hrun) as (rest & Hmore & _).
    cbn [send sent] in Hmore. rewrite Hmore, <- app_assoc in Hs.
    apply app_inv_head in Hs. cbn [List.app] in Hs.
    destruct pre as [|p pre]; cbn [List.app] in Hs.
    + injection Hs as <- <- _. exists r0. rewrite app_nil_r.
      split; [exact E0|]. split; [exact E200 | exact En].
    + injection Hs as <- Hs.
      replace (sent w ++ q0 :: pre)%list with (sent (send q0 w) ++ pre)%list
        by (cbn [send sent]; now rewrite <- app_assoc).
      apply (IH _ _ _ _ _ _ pre post q1 q2 Hrun).
      rewrite Hmore. cbn [send sent]. now rewrite Hs.
Qed.

(** The orders of the pages fetched so far are kept, in their order, in
    front of those of the pages that follow; the requests sent do not
    depend on them. *)
Theorem fetch_loop_appends :
  forall (fuel : nat) (url : string) (params : option (list (string * value)))
         (acc : list value) (w : world),
    fetch_loop SHOP_TOKEN server fuel url params acc w
    = (fst (fetch_loop SHOP_TOKEN server fuel url params [] w),
       option_map (with_earlier acc)
         (snd (fetch_loop SHOP_TOKEN server fuel url params [] w))).
Proof.
  induction fuel as [|n IH]; intros url params acc w; [reflexivity|].
  cbn [fetch_loop].
  destruct (server (sent w) _) as [r|e]; [|reflexivity].
  destruct (negb (status_code r =? 200)); [reflexivity|].
  destruct (bind (json r) _) as [page|e]; [|reflexivity].
  cbn [List.app].
  destruct (_get_next_page_url (link r)) as [[|c next]|]; try reflexivity.
  rewrite (IH _ _ (acc ++ page)%list), (IH _ _ page). cbn [fst snd].
  f_equal.
  destruct (snd (fetch_loop SHOP_TOKEN server n (String c next) None [] _))
    as [[os|e]|]; cbn [option_map with_earlier]; try reflexivity.
  now rewrite app_assoc.
Qed.

(** The loop has no bound of its own: against a source whose every answer
    is a 200 with a page of orders and a next link, it is still running
    after any number of requests. *)
Theorem fetch_loop_never_gives_up :
  (forall (history : list request) (q : request),
      exists (r : response) (d : list (string * value)) (page : list value)
             (c : ascii) (next : string),
        server history q = Ok r
        /\ status_code r = 200
        /\ json r = Ok (VDict d)
        /\ Py.field d "orders" (VList []) = VList page
        /\ _get_next_page_url (link r) = Some (String c next)) ->
  forall (fuel : nat) (url : string) (params : option (list (string * value)))
         (acc : list value) (w : world),
    snd (fetch_loop SHOP_TOKEN server fuel url params acc w) = None
    /\ List.length (sent (fst (fetch_loop SHOP_TOKEN server fuel url params acc w)))
       = (List.length (sent w) + fuel)%nat.
Proof.
  intros Hsrv. induction fuel as [|n IH]; intros url params acc w.
  - cbn [fetch_loop fst snd]. split; [reflexivity | lia].
  - cbn [fetch_loop].
    destruct (Hsrv (sent w) (mkrequest url (HEADERS SHOP_TOKEN) params))
      as (r & d & page & c & next & -> & H200 & -> & Hpage & ->).
    rewrite H200. cbn [Z.eqb Pos.eqb negb bind Py.get]. rewrite Hpage.
    cbn [Py.iter bind].
    destruct (IH (String c next) None (acc ++ page)%list
                (send (mkrequest url (HEADERS SHOP_TOKEN) params) w)) as [H1 H2].
    split; [exact H1|]. rewrite H2. cbn [send sent].
    rewrite length_app. cbn [List.length]. lia.
Qed.

End FetchFacts.

Lemma fetch_requests_shape_witness :
  exists (first : request) (rest : list request),
    [demo_request1; demo_request2] = ([] ++ first :: rest)%list
    /\ req_url first = BASE_URL "shop.example" "2025-01" ++ "/orders.json"
    /\ req_params first
       = Some ([("limit", VInt 250); ("status", VStr "any")]
               ++ [("created_at_min", VStr "2024-01-01T00:00:00+00:00")])%list
    /\ Forall (fun q => req_params q = None) rest
    /\ Forall (fun q => req_headers q = [("X-Shopify-Access-Token", "token")])
         (first :: rest).
Proof.
  apply (fetch_requests_shape "shop.example" "token" "2025-01" demo_server 4
           "any" 250 (Some "2024-01-01T00:00:00+00:00") demo_world
           (mkworld [demo_request1; demo_request2] (tabs demo_world) [])
           (Some (Raise (RuntimeError "Shopify 500: Internal Server Error")))).
  vm_compute. reflexivity.
Defined.

Lemma fetch_follows_next_links_witness :
  exists r : response,
    demo_server ([] ++ [])%list demo_request1 = Ok r
    /\ status_code r = 200
    /\ _get_next_page_url (link r) = Some (req_url demo_request2).
Proof.
  apply (fetch_follows_next_links "token" demo_server 5
           "https://shop.example/admin/api/2025-01/orders.json"
           (req_params demo_request1) [] demo_world
           (mkworld [demo_request1; demo_request2] (tabs demo_world) [])
           (Some (Raise (RuntimeError "Shopify 500: Internal Server Error")))
           [] [] demo_request1 demo_request2).
  - vm_compute. reflexivity.
  - reflexivity.
Defined.

Lemma fetch_loop_never_gives_up_witness :
  snd (fetch_loop "token" endless_server 40
         "https://shop.example/admin/api/2025-01/orders.json" None [] demo_world)
  = None
  /\ List.length
       (sent (fst (fetch_loop "token" endless_server 40
                     "https://shop.example/admin/api/2025-01/orders.json" None []
                     demo_world)))
     = (List.length (sent demo_world) + 40)%nat.
Proof.
  apply (fetch_loop_never_gives_up "token" endless_server).
  intros history q. exists endless_page. eexists. eexists. eexists. eexists.
  split; [reflexivity|]. split; [reflexivity|]. split; [reflexivity|].
  split; [reflexivity | vm_compute; reflexivity].
Defined.

(** ** Facts about the rows of a list of orders *)

Lemma mapM_app {A B : Type} (f : A -> result B) (l m : list A) :
  mapM f (l ++ m)%list
  = (x <- mapM f l ;; y <- mapM f m ;; Ok (x ++ y)%list).
Proof.
  induction l as [|a l IH]; cbn [List.app mapM bind].
  - now destruct (mapM f m).
  - destruct (f a) as [b|e]; [|reflexivity]. cbn [bind]. rewrite IH.
    destruct (mapM f l) as [x|e]; [|reflexivity]. cbn [bind].
    now destruct (mapM f m).
Qed.

Lemma mapM_raises {A B : Type} (f : A -> result B) (l : list A) (a : A) (e : exn) :
  In a l -> f a = Raise e -> exists e' : exn, mapM f l = Raise e'.
Proof.
  intros Hin Ha. induction l as [|x l IH]; [destruct Hin|].
  cbn [mapM]. destruct Hin as [-> | Hin].
  - rewrite Ha. now exists e.
  - destruct (f x) as [y|e1]; [|now exists e1]. cbn [bind].
    destruct (IH Hin) as [e' ->]. now exists e'.
Qed.

(** The rows of a list of orders are all there or none is: when an order
    cannot be mapped, [orders_to_rows] raises the error of the first such
    order, whatever rows the orders before it gave and whatever orders
    follow. *)
Theorem orders_to_rows_first_failure :
  forall (good rest : list value) (bad : value) (rows : list row) (e : exn),
    orders_to_rows good = Ok rows ->
    order_to_row bad = Raise e ->
    orders_to_rows (good ++ bad :: rest) = Raise e.
Proof.
  intros good rest bad rows e Hg Hb. unfold orders_to_rows in *.
  rewrite mapM_app, Hg. cbn [bind mapM]. now rewrite Hb.
Qed.

Lemma orders_to_rows_first_failure_witness :
  orders_to_rows ([order_sparse] ++ order_bad_quantity :: [empty_order])
  = Raise ValueError.
Proof.
  apply (orders_to_rows_first_failure [order_sparse] [empty_order]
           order_bad_quantity
           match orders_to_rows [order_sparse] with Ok r => r | Raise _ => [] end);
    vm_compute; reflexivity.
Defined.

(** The rows of two lists of orders, one after the other, are the rows of
    the first followed by the rows of the second. *)
Theorem orders_to_rows_app :
  forall (a b : list value) (ra rb : list row),
    orders_to_rows a = Ok ra ->
    orders_to_rows b = Ok rb ->
    orders_to_rows (a ++ b) = Ok (ra ++ rb)%list.
Proof.
  intros a b ra rb Ha Hb. unfold orders_to_rows in *.
  now rewrite mapM_app, Ha, Hb.
Qed.

Lemma orders_to_rows_app_witness :
  orders_to_rows ([empty_order] ++ [empty_order])
  = Ok ([empty_order_row] ++ [empty_order_row])%list.
Proof.
  apply (orders_to_rows_app [empty_order] [empty_order]); reflexivity.
Defined.

(** ** Facts about the line items *)

Lemma truthy_fields_text (key : string) (fs : list value)
  (cs : list (option string)) :
  Forall2 (text_field key) fs cs ->
  truthy_fields key fs = Ok (List.map VStr (List.filter nonempty (present cs))).
Proof.
  induction 1 as [|f c fs cs (fd & -> & Hc) _ IH]; [reflexivity|].
  cbn [truthy_fields Py.get bind]. rewrite Hc, IH. cbn [bind].
  destruct c as [s|]; [|reflexivity].
  cbn [present List.flat_map List.app List.filter Py.truthy]. fold (present cs).
  unfold nonempty. now destruct (String.eqb s EmptyString).
Qed.

Lemma in_present (s : string) (cs : list (option string)) :
  In s (present cs) <-> In (Some s) cs.
Proof.
  unfold present. rewrite in_flat_map. split.
  - intros ([x|] & Hx & Hs); [|destruct Hs].
    destruct Hs as [<- | []]. exact Hx.
  - intros H. exists (Some s). split; [exact H | now left].
Qed.

Lemma in_nonempty_present (s : string) (cs : list (option string)) :
  In s (List.filter nonempty (present cs))
  <-> s <> EmptyString /\ In (Some s) cs.
Proof.
  rewrite filter_In, in_present. unfold nonempty.
  rewrite negb_true_iff, String.eqb_neq. tauto.
Qed.

Lemma filter_map_VStr (x : string) (ds : list string) :
  List.filter (fun y => negb (Py.eq y (VStr x))) (List.map VStr ds)
  = List.map VStr (List.filter (fun s => negb (String.eqb s x)) ds).
Proof.
  induction ds as [|s ds IH]; [reflexivity|].
  cbn [List.map List.filter Py.eq]. rewrite IH.
  now destruct (String.eqb s x).
Qed.

Lemma dedup_strings (l : list string) :
  exists ds : list string,
    Py.dedup (List.map VStr l) = List.map VStr ds
    /\ NoDup ds
    /\ forall s, In s ds <-> In s l.
Proof.
  induction l as [|x l (ds & Hd & Hnd & Hin)].
  - exists []. split; [reflexivity|]. split; [constructor | tauto].
  - exists (x :: List.filter (fun s => negb (String.eqb s x)) ds).
    cbn [List.map Py.dedup]. rewrite Hd, filter_map_VStr.
    split; [reflexivity|]. split.
    + constructor; [|now apply NoDup_filter].
      rewrite filter_In, String.eqb_refl. intros [_ H]. discriminate H.
    + intros s. cbn [In]. rewrite filter_In, Hin, negb_true_iff, String.eqb_neq.
      destruct (string_dec x s) as [-> | Hne]; [tauto|].
      split; [tauto|]. intros [H | H]; [tauto|]. right. split; [exact H|].
      congruence.
Qed.

Lemma hashable_strings (l : list string) :
  List.forallb Py.hashable (List.map VStr l) = true.
Proof. induction l as [|x l IH]; [reflexivity | exact IH]. Qed.

Lemma sum_quantities_spec (items : list value) (qs : list Z) (total : Z) :
  Forall2 quantity items qs ->
  sum_quantities items = Ok total ->
  total = List.fold_right Z.add 0 qs.
Proof.
  intros H. revert total.
  induction H as [|li q items qs (fd & -> & Hq) _ IH]; intros total Hsum.
  - now injection Hsum as <-.
  - cbn [sum_quantities Py.get bind List.fold_right] in Hsum |- *.
    assert (Hint : forall n,
               Py.int (Py.or (Py.field fd "quantity" (VInt 0)) (VInt 0)) = Ok n ->
               n = q).
    { intros n.
      destruct Hq as [-> | [[-> ->] | (s & -> & Hne & Hs & ->)]].
      - unfold Py.or. cbn [Py.truthy]. destruct (q =? 0) eqn:E; cbn [negb Py.int];
          intros [= <-]; [apply Z.eqb_eq in E; now subst q | reflexivity].
      - now intros [= <-].
      - unfold Py.or. cbn [Py.truthy].
        apply String.eqb_neq in Hne as Hne'. rewrite Hne'. cbn [negb Py.int].
        rewrite (int_of_string_digits_text _ Hne Hs).
        destruct (Nat.leb _ _); [now intros [= <-] | discriminate]. }
    destruct (Py.int _) as [n|e]; [|discriminate Hsum]. cbn [bind] in Hsum.
    destruct (sum_quantities items) as [rest|e]; [|discriminate Hsum].
    cbn [bind] in Hsum. injection Hsum as <-.
    now rewrite (Hint n eq_refl), (IH rest eq_refl).
Qed.

Lemma iter_line_items (d : list (string * value)) (items : list value) :
  Py.field d "line_items" (VList []) = VList items ->
  Py.iter (Py.or (Py.field d "line_items" (VList [])) (VList [])) = Ok items.
Proof.
  intros ->. unfold Py.or. cbn [Py.truthy]. now destruct items.
Qed.

(** In the row of an order whose line items have string or absent SKUs and
    countable quantities, [SKUs] is the number of distinct non-empty SKUs,
    and [Total_Productos] is the sum of the quantities, an absent one
    counting for 0. *)
Theorem sku_and_product_counts :
  forall (d : list (string * value)) (r : row) (items : list value)
         (skus : list (option string)) (qs : list Z),
    order_to_row (VDict d) = Ok r ->
    Py.field d "line_items" (VList []) = VList items ->
    Forall2 (text_field "sku") items skus ->
    Forall2 quantity items qs ->
    (exists distinct : list string,
        NoDup distinct
        /\ (forall s : string,
              In s distinct <-> s <> EmptyString /\ In (Some s) skus)
        /\ cell r "SKUs" = Some (VInt (Z.of_nat (List.length distinct))))
    /\ cell r "Total_Productos" = Some (VInt (List.fold_right Z.add 0 qs)).
Proof.
  intros d r items skus qs H Hf Hs Hq.
  apply order_to_row_inv in H as (d' & [= <-] & Hm).
  destruct Hm as [line_items sk st tsu tp lf rs sm tr fa shm am bc bp sc
                    Hit Hsk Hlen Hsum _ _ _ _ _ _ _ _ _ _ _ ->].
  rewrite (iter_line_items _ _ Hf) in Hit. injection Hit as <-.
  rewrite (truthy_fields_text _ _ _ Hs) in Hsk. injection Hsk as <-.
  apply (sum_quantities_spec _ _ _ Hq) in Hsum. subst tp.
  unfold Py.len_set in Hlen. rewrite hashable_strings in Hlen.
  injection Hlen as <-.
  destruct (dedup_strings (List.filter nonempty (present skus)))
    as (ds & -> & Hnd & Hin).
  split; [|reflexivity].
  exists ds. split; [exact Hnd|]. split.
  - intros s. rewrite Hin. apply in_nonempty_present.
  - rewrite length_map. reflexivity.
Qed.

Lemma sku_and_product_counts_witness :
  (exists distinct : list string,
      NoDup distinct
      /\ (forall s : string,
            In s distinct
            <-> s <> EmptyString /\ In (Some s) [Some "A"; Some "A"; Some "B"; None])
      /\ cell match order_to_row order_four_items with Ok r => r | Raise _ => [] end
           "SKUs"
         = Some (VInt (Z.of_nat (List.length distinct))))
  /\ cell match order_to_row order_four_items with Ok r => r | Raise _ => [] end
       "Total_Productos"
     = Some (VInt (List.fold_right Z.add 0 [1; 2; 3; 4])).
Proof.
  apply (sku_and_product_counts
           [("line_items",
              VList [VDict [("sku", VStr "A"); ("quantity", VInt 1)];
                     VDict [("sku", VStr "A"); ("quantity", VInt 2)];
                     VDict [("sku", VStr "B"); ("quantity", VStr "3")];
                     VDict [("sku", VNone); ("quantity", VInt 4)]])]
           _
           [VDict [("sku", VStr "A"); ("quantity", VInt 1)];
            VDict [("sku", VStr "A"); ("quantity", VInt 2)];
            VDict [("sku", VStr "B"); ("quantity", VStr "3")];
            VDict [("sku", VNone); ("quantity", VInt 4)]]).
  - vm_compute. reflexivity.
  - reflexivity.
  - repeat constructor; eexists; split; reflexivity.
  - repeat constructor; eexists; (split; [reflexivity|]).
    + now left.
    + now left.
    + right. right. exists "3". repeat split. discriminate.
    + now left.
Defined.

(** ** Facts about the order of the statuses *)

Lemma str_leb_total (a b : string) : String.leb a b = false -> String.leb b a = true.
Proof.
  unfold String.leb. rewrite (String.compare_antisym a b).
  destruct (String.compare b a); cbn; congruence.
Qed.

Lemma leb_neq_ltb (a b : string) :
  String.leb a b = true -> a <> b -> String.ltb a b = true.
Proof.
  unfold String.leb, String.ltb. intros H Hne.
  destruct (String.compare a b) eqn:E; try congruence.
  apply String.compare_eq_iff in E. contradiction.
Qed.

Lemma str_ltb_trans (a b c : string) :
  String.ltb a b = true -> String.ltb b c = true -> String.ltb a c = true.
Proof.
  intros Hab Hbc. apply leb_neq_ltb.
  - eapply str_leb_trans; apply ltb_true_leb; eassumption.
  - intros ->. unfold String.ltb in *.
    rewrite (String.compare_antisym b c) in Hbc.
    destruct (String.compare c b); discriminate.
Qed.

Lemma in_insert_sorted (s x : string) (l : list string) :
  In x (Py.insert_sorted s l) <-> x = s \/ In x l.
Proof.
  induction l as [|y l IH]; cbn [Py.insert_sorted In]; [intuition congruence|].
  destruct (String.leb s y); cbn [In]; [intuition congruence|].
  rewrite IH. intuition congruence.
Qed.

Lemma in_sorted (x : string) (l : list string) : In x (Py.sorted l) <-> In x l.
Proof.
  unfold Py.sorted. induction l as [|y l IH]; cbn [List.fold_right In]; [tauto|].
  rewrite in_insert_sorted, IH. split; (intros [H | H]; [left; now symmetry | now right]).
Qed.

Lemma insert_sorted_strict (s : string) (l : list string) :
  StronglySorted (fun a b => String.ltb a b = true) l ->
  ~ In s l ->
  StronglySorted (fun a b => String.ltb a b = true) (Py.insert_sorted s l).
Proof.
  induction 1 as [|y l Hs IH Hy]; intros Hnin; cbn [Py.insert_sorted].
  - repeat constructor.
  - assert (Hsy : s <> y) by (intros ->; apply Hnin; now left).
    assert (Hsl : ~ In s l) by (intros H; apply Hnin; now right).
    destruct (String.leb s y) eqn:E.
    + pose proof (leb_neq_ltb _ _ E Hsy) as Hlt.
      constructor; [now constructor|].
      constructor; [exact Hlt|].
      rewrite Forall_forall in Hy |- *. intros z Hz.
      specialize (Hy z Hz). eapply str_ltb_trans; eassumption.
    + constructor; [now apply IH|].
      rewrite Forall_forall in Hy |- *. intros z Hz.
      apply in_insert_sorted in Hz as [-> | Hz]; [|now apply Hy].
      apply leb_neq_ltb; [now apply str_leb_total | congruence].
Qed.

Lemma sorted_strict (l : list string) :
  NoDup l -> StronglySorted (fun a b => String.ltb a b = true) (Py.sorted l).
Proof.
  unfold Py.sorted. induction 1 as [|x l Hx _ IH]; cbn [List.fold_right].
  - constructor.
  - apply insert_sorted_strict; [exact IH|].
    fold (Py.sorted l). now rewrite in_sorted.
Qed.

Lemma strings_of_map (l : list string) : Py.strings_of (List.map VStr l) = Some l.
Proof.
  induction l as [|x l IH]; [reflexivity|].
  cbn [List.map Py.strings_of]. now rewrite IH.
Qed.

(** In the row of an order whose line items have string or absent
    fulfillment statuses, [Lineitem fulfillment status] lists the distinct
    non-empty statuses once each, in ascending order, separated by a comma
    and a space. *)
Theorem lineitem_statuses_sorted_distinct :
  forall (d : list (string * value)) (r : row) (items : list value)
         (statuses : list (option string)),
    order_to_row (VDict d) = Ok r ->
    Py.field d "line_items" (VList []) = VList items ->
    Forall2 (text_field "fulfillment_status") items statuses ->
    exists l : list string,
      cell r "Lineitem fulfillment status" = Some (VStr (String.concat ", " l))
      /\ StronglySorted (fun a b => String.ltb a b = true) l
      /\ (forall s : string,
            In s l <-> s <> EmptyString /\ In (Some s) statuses).
Proof.
  intros d r items statuses H Hf Hs.
  apply order_to_row_inv in H as (d' & [= <-] & Hm).
  destruct Hm as [line_items sk st tsu tp lf rs sm tr fa shm am bc bp sc
                    Hit _ _ _ Hst Hjoin _ _ _ _ _ _ _ _ _ ->].
  rewrite (iter_line_items _ _ Hf) in Hit. injection Hit as <-.
  rewrite (truthy_fields_text _ _ _ Hs) in Hst. injection Hst as <-.
  set (ss := List.filter nonempty (present statuses)) in *.
  exists (Py.sorted (List.nodup string_dec ss)).
  split; [|split].
  - assert (Hlf : lf = String.concat ", " (Py.sorted (List.nodup string_dec ss))).
    { destruct ss as [|s0 ss0] eqn:Ess.
      - cbn in Hjoin. now injection Hjoin as <-.
      - rewrite <- Ess in *. clear Ess.
        assert (Hj : Py.join_sorted_set (List.map VStr ss) = Ok lf)
          by (destruct (List.map VStr ss); [cbn in Hjoin|]; try exact Hjoin;
              destruct ss; discriminate).
        unfold Py.join_sorted_set in Hj. rewrite strings_of_map in Hj.
        now injection Hj as <-. }
    subst lf. reflexivity.
  - apply sorted_strict, NoDup_nodup.
  - intros s. rewrite in_sorted, nodup_In. apply in_nonempty_present.
Qed.

Lemma lineitem_statuses_sorted_distinct_witness :
  cell match order_to_row (VDict order_mixed_statuses) with
       | Ok r => r
       | Raise _ => []
       end "Lineitem fulfillment status"
  = Some (VStr "fulfilled, partial")
  /\ exists l : list string,
       cell match order_to_row (VDict order_mixed_statuses) with
            | Ok r => r
            | Raise _ => []
            end "Lineitem fulfillment status"
       = Some (VStr (String.concat ", " l))
       /\ StronglySorted (fun a b => String.ltb a b = true) l
       /\ (forall s : string,
             In s l
             <-> s <> EmptyString
                 /\ In (Some s)
                      [Some "partial"; Some "fulfilled"; Some "partial"; None;
                       Some EmptyString; None]).
Proof.
  split; [vm_compute; reflexivity|].
  apply (lineitem_statuses_sorted_distinct order_mixed_statuses _
           [VDict [("sku", VStr "A"); ("fulfillment_status", VStr "partial")];
            VDict [("sku", VStr "B"); ("fulfillment_status", VStr "fulfilled")];
            VDict [("sku", VStr "C"); ("fulfillment_status", VStr "partial")];
            VDict [("sku", VStr "D"); ("fulfillment_status", VNone)];
            VDict [("sku", VStr "E"); ("fulfillment_status", VStr EmptyString)];
            VDict [("sku", VStr "F")]]).
  - vm_compute. reflexivity.
  - reflexivity.
  - repeat constructor; eexists; split; reflexivity.
Defined.

(** ** Facts about the shipping method and the shipping amount *)

Lemma or_absent_list (v : value) :
  Py.truthy v = false -> Py.or v (VList []) = VList [].
Proof. unfold Py.or. now intros ->. Qed.

(** [Metodo_envio] is the title of the first shipping line of the order,
    [None] when that line has no title, whatever lines follow it; it is the
    empty string when the order has no shipping line. *)
Theorem shipping_method_is_first_title :
  forall (d : list (string * value)) (r : row),
    order_to_row (VDict d) = Ok r ->
    (Py.truthy (Py.field d "shipping_lines" (VList [])) = false ->
     cell r "Metodo_envio" = Some (VStr EmptyString))
    /\ (forall (first : value) (rest : list value),
          Py.field d "shipping_lines" (VList []) = VList (first :: rest) ->
          exists fd : list (string * value),
            first = VDict fd
            /\ cell r "Metodo_envio" = Some (Py.field fd "title" VNone)).
Proof.
  intros d r H.
  apply order_to_row_inv in H as (d' & [= <-] & Hm).
  destruct Hm as [line_items sk st tsu tp lf rs sm tr fa shm am bc bp sc
                    _ _ _ _ _ _ _ Hsm _ _ _ _ _ _ _ ->].
  split.
  - intros Hno. rewrite (or_absent_list _ Hno) in Hsm.
    cbn in Hsm. now injection Hsm as <-.
  - intros first rest Hf. rewrite Hf in Hsm. unfold Py.or in Hsm.
    cbn [Py.truthy Py.first_item bind] in Hsm.
    destruct first as [| | | | | |fd]; try discriminate Hsm.
    exists fd. split; [reflexivity|]. cbn [Py.get] in Hsm.
    now injection Hsm as <-.
Qed.

Lemma shipping_method_is_first_title_witness :
  (Py.truthy (Py.field order_full "shipping_lines" (VList [])) = false ->
   cell match order_to_row (VDict order_full) with Ok r => r | Raise _ => [] end
     "Metodo_envio" = Some (VStr EmptyString))
  /\ (forall (first : value) (rest : list value),
        Py.field order_full "shipping_lines" (VList []) = VList (first :: rest) ->
        exists fd : list (string * value),
          first = VDict fd
          /\ cell match order_to_row (VDict order_full) with
                  | Ok r => r
                  | Raise _ => []
                  end "Metodo_envio"
             = Some (Py.field fd "title" VNone)).
Proof.
  apply (shipping_method_is_first_title order_full). vm_compute. reflexivity.
Defined.

(** An order whose [total_shipping_price_set] has a [shop_money] that is
    there but is no dictionary (a [null], say) cannot be mapped: the default
    of [.get("shop_money", {})] stands in for a missing key only, and
    [orders_to_rows] raises for the whole list. *)
Theorem shop_money_not_a_dict_raises :
  forall (orders : list value) (d ps : list (string * value)) (v : value),
    In (VDict d) orders ->
    Py.field d "total_shipping_price_set" VNone = VDict ps ->
    Py.lookup ps "shop_money" = Some v ->
    (forall x : list (string * value), v <> VDict x) ->
    exists e : exn, orders_to_rows orders = Raise e.
Proof.
  intros orders d ps v Hin Hf Hl Hv.
  destruct (order_to_row (VDict d)) as [r|e] eqn:E.
  - exfalso. apply order_to_row_inv in E as (d' & [= <-] & Hm).
    destruct Hm as [line_items sk st tsu tp lf rs sm tr fa shm am bc bp sc
                      _ _ _ _ _ _ _ _ _ _ Hshm Ham _ _ _ _].
    rewrite Hf in Hshm. unfold Py.or in Hshm.
    assert (Ht : Py.truthy (VDict ps) = true)
      by (destruct ps; [discriminate Hl | reflexivity]).
    rewrite Ht in Hshm. cbn [Py.get] in Hshm. unfold Py.field in Hshm.
    rewrite Hl in Hshm. injection Hshm as <-.
    destruct v; try discriminate Ham. now apply (Hv d0).
  - unfold orders_to_rows. eapply mapM_raises; eassumption.
Qed.

Lemma shop_money_not_a_dict_raises_witness :
  exists e : exn, orders_to_rows [empty_order; order_null_shop_money] = Raise e.
Proof.
  apply (shop_money_not_a_dict_raises [empty_order; order_null_shop_money]
           [("id", VInt 9);
            ("total_shipping_price_set", VDict [("shop_money", VNone)])]
           [("shop_money", VNone)] VNone).
  - right. now left.
  - reflexivity.
  - reflexivity.
  - discriminate.
Defined.

(** ** Facts about the worksheet *)

Lemma tab_cells_set_same (title : string) (c : cells) (t : list (string * cells)) :
  has_tab title t = true -> tab_cells title (set_tab title c t) = Some c.
Proof.
  unfold tab_cells, has_tab.
  induction t as [|[n old] t IH]; [discriminate|].
  cbn [List.existsb set_tab fst]. destruct (String.eqb n title) eqn:E.
  - intros _. cbn [List.find fst]. rewrite E. reflexivity.
  - cbn [orb]. intros H. cbn [List.find fst]. rewrite E. now apply IH.
Qed.

Lemma tab_cells_set_other (title other : string) (c : cells)
  (t : list (string * cells)) :
  other <> title -> tab_cells other (set_tab title c t) = tab_cells other t.
Proof.
  intros Hne. unfold tab_cells.
  induction t as [|[n old] t IH]; [reflexivity|].
  cbn [set_tab]. destruct (String.eqb n title) eqn:E.
  - apply String.eqb_eq in E. subst n. cbn [List.find fst].
    apply not_eq_sym, String.eqb_neq in Hne. now rewrite Hne.
  - cbn [List.find fst]. destruct (String.eqb n other); [reflexivity | exact IH].
Qed.

Lemma tab_cells_app_other (title other : string) (c : cells)
  (t : list (string * cells)) :
  other <> title ->
  tab_cells other (t ++ [(title, c)])%list = tab_cells other t.
Proof.
  intros Hne. unfold tab_cells.
  induction t as [|[n old] t IH].
  - cbn [List.app List.find fst].
    apply not_eq_sym, String.eqb_neq in Hne. now rewrite Hne.
  - cbn [List.app List.find fst].
    destruct (String.eqb n other); [reflexivity | exact IH].
Qed.

Lemma has_tab_app (title : string) (c : cells) (t : list (string * cells)) :
  has_tab title (t ++ [(title, c)])%list = true.
Proof.
  unfold has_tab. rewrite existsb_app. cbn [List.existsb fst].
  rewrite String.eqb_refl. now rewrite orb_true_r.
Qed.

Lemma has_tab_set (title other : string) (c : cells) (t : list (string * cells)) :
  has_tab other (set_tab title c t) = has_tab other t.
Proof.
  unfold has_tab. induction t as [|[n old] t IH]; [reflexivity|].
  cbn [set_tab]. destruct (String.eqb n title); cbn [List.existsb fst];
    [reflexivity | now rewrite IH].
Qed.

Lemma set_tab_titles (title : string) (c : cells) (t : list (string * cells)) :
  List.map fst (set_tab title c t) = List.map fst t.
Proof.
  induction t as [|[n old] t IH]; [reflexivity|].
  cbn [set_tab]. destruct (String.eqb n title); cbn [List.map fst];
    [reflexivity | now rewrite IH].
Qed.

Lemma set_tab_twice (title : string) (c c' : cells) (t : list (string * cells)) :
  set_tab title c (set_tab title c' t) = set_tab title c t.
Proof.
  induction t as [|[n old] t IH]; [reflexivity|].
  cbn [set_tab]. destruct (String.eqb n title) eqn:E; cbn [set_tab]; rewrite E;
    [reflexivity | now rewrite IH].
Qed.

Lemma write_holds_values (sheet_id tab_name : string) (values : cells) (w : world) :
  tab_cells tab_name (tabs (write_df_to_sheet sheet_id tab_name values w))
  = Some values.
Proof.
  unfold write_df_to_sheet. cbn [tabs set_tabs]. rewrite set_tab_twice.
  apply tab_cells_set_same.
  destruct (has_tab tab_name (tabs w)) eqn:E; [exact E | apply has_tab_app].
Qed.

Lemma write_keeps_others (sheet_id tab_name other : string) (values : cells)
  (w : world) :
  other <> tab_name ->
  tab_cells other (tabs (write_df_to_sheet sheet_id tab_name values w))
  = tab_cells other (tabs w).
Proof.
  intros Hne. unfold write_df_to_sheet. cbn [tabs set_tabs].
  rewrite set_tab_twice, tab_cells_set_other by assumption.
  destruct (has_tab tab_name (tabs w)); [reflexivity|].
  now apply tab_cells_app_other.
Qed.

(** After [write_df_to_sheet] the worksheet of the given title holds
    exactly the values written; every worksheet of another title holds what
    it held; the titles are the former ones, in their order, with the new
    title added at the end when it was missing; and no request is sent and
    no line printed. *)
Theorem write_df_to_sheet_lookup :
  forall (sheet_id tab_name : string) (values : cells) (w : world),
    let w' := write_df_to_sheet sheet_id tab_name values w in
    tab_cells tab_name (tabs w') = Some values
    /\ (forall other : string,
          other <> tab_name -> tab_cells other (tabs w') = tab_cells other (tabs w))
    /\ List.map fst (tabs w')
       = (if has_tab tab_name (tabs w) then List.map fst (tabs w)
          else List.map fst (tabs w) ++ [tab_name])%list
    /\ sent w' = sent w
    /\ stdout w' = stdout w.
Proof.
  intros sheet_id tab_name values w. cbv zeta.
  split; [apply write_holds_values|].
  split; [intros other Hne; now apply write_keeps_others|].
  unfold write_df_to_sheet. cbn [tabs sent stdout set_tabs].
  split; [|split; reflexivity].
  rewrite set_tab_twice, set_tab_titles.
  destruct (has_tab tab_name (tabs w)); [reflexivity|].
  now rewrite map_app.
Qed.

(** Writing a worksheet twice leaves what writing the second values alone
    leaves: nothing of the first values remains. *)
Theorem write_df_to_sheet_overwrites :
  forall (sheet_id tab_name : string) (first second : cells) (w : world),
    write_df_to_sheet sheet_id tab_name second
      (write_df_to_sheet sheet_id tab_name first w)
    = write_df_to_sheet sheet_id tab_name second w.
Proof.
  intros sheet_id tab_name first second w.
  unfold write_df_to_sheet. cbn [tabs sent stdout set_tabs].
  rewrite !set_tab_twice, has_tab_set.
  destruct (has_tab tab_name (tabs w)) eqn:E.
  - rewrite E. now rewrite set_tab_twice.
  - rewrite has_tab_app. now rewrite set_tab_twice.
Qed.

(** ** Facts about a run *)

Section RunFacts.

Variable SHOP_DOMAIN SHOP_TOKEN API_VERSION SHEET_ID TAB_NAME : string.
Variable DAYS_BACK : Z.
Variable created_at_min : string.
Variable server : list request -> request -> result response.
Variable dataframe_values : list row -> cells.
Variable connect_gsheets : result unit.

Lemma orders_to_rows_length (orders : list value) (rows : list row) :
  orders_to_rows orders = Ok rows -> List.length rows = List.length orders.
Proof.
  unfold orders_to_rows. revert rows.
  induction orders as [|o orders IH]; intros rows; cbn [mapM].
  - now intros [= <-].
  - destruct (order_to_row o) as [r|]; [|discriminate]. cbn [bind].
    destruct (mapM order_to_row orders) as [rs|]; [|discriminate]. cbn [bind].
    intros [= <-]. cbn [List.length]. now rewrite (IH rs).
Qed.

(** When a run does not end well (the fetcher, the Row Mapper or the
    authorisation raises, or the fetcher is cut short), no worksheet has
    been touched and nothing has been printed. *)
Theorem main_failure_leaves_sheet :
  forall (fuel : nat) (w w' : world) (res : option (result unit)),
    main SHOP_DOMAIN SHOP_TOKEN API_VERSION SHEET_ID TAB_NAME DAYS_BACK
      created_at_min server dataframe_values connect_gsheets fuel w = (w', res) ->
    res <> Some (Ok tt) ->
    tabs w' = tabs w /\ stdout w' = stdout w.
Proof.
  intros fuel w w' res. unfold main.
  destruct (fetch_all_orders _ _ _ _ _ _ _ _ _) as [w1 r] eqn:Ef.
  unfold fetch_all_orders in Ef.
  destruct (fetch_loop_frame _ _ _ _ _ _ _ _ _ Ef) as (_ & Ht & Ho).
  destruct r as [[orders|e]|]; try (intros [= <- <-] _; now split).
  destruct (orders_to_rows orders) as [rows|e];
    try (intros [= <- <-] _; now split).
  destruct connect_gsheets as [[]|e]; try (intros [= <- <-] _; now split).
  intros [= <- <-] H. now contradiction H.
Qed.

(** A run that ends well has fetched the orders, mapped each to a row,
    left in the worksheet [TAB_NAME] the frame's values and every other
    worksheet as it was, sent no request after the fetch, and printed one
    line, which gives the number of orders fetched. *)
Theorem main_success :
  forall (fuel : nat) (w w' : world),
    main SHOP_DOMAIN SHOP_TOKEN API_VERSION SHEET_ID TAB_NAME DAYS_BACK
      created_at_min server dataframe_values connect_gsheets fuel w
    = (w', Some (Ok tt)) ->
    exists (orders : list value) (rows : list row) (w1 : world),
      fetch_all_orders SHOP_DOMAIN SHOP_TOKEN API_VERSION server fuel
        "any" 250 (Some created_at_min) w = (w1, Some (Ok orders))
      /\ orders_to_rows orders = Ok rows
      /\ List.length rows = List.length orders
      /\ sent w' = sent w1
      /\ tab_cells TAB_NAME (tabs w') = Some (dataframe_values rows)
      /\ (forall other : string,
            other <> TAB_NAME ->
            tab_cells other (tabs w') = tab_cells other (tabs w))
      /\ stdout w'
         = (stdout w ++ [ok_line (List.length orders) TAB_NAME DAYS_BACK])%list.
Proof.
  intros fuel w w'. unfold main.
  destruct (fetch_all_orders _ _ _ _ _ _ _ _ _) as [w1 r] eqn:Ef.
  pose proof Ef as Ef'. unfold fetch_all_orders in Ef'.
  destruct (fetch_loop_frame _ _ _ _ _ _ _ _ _ Ef') as (_ & Ht & Ho).
  destruct r as [[orders|e]|]; try discriminate.
  destruct (orders_to_rows orders) as [rows|e] eqn:Er; try discriminate.
  destruct connect_gsheets as [[]|e]; try discriminate.
  intros [= <-].
  exists orders, rows, w1.
  pose proof (orders_to_rows_length _ _ Er) as Hlen.
  split; [reflexivity|]. split; [exact Er|]. split; [exact Hlen|].
  cbn [print sent tabs stdout].
  split; [reflexivity|]. split; [apply write_holds_values|].
  split.
  - intros other Hne. rewrite write_keeps_others by assumption. now rewrite Ht.
  - unfold write_df_to_sheet. cbn [stdout set_tabs]. rewrite Ho, Hlen.
    reflexivity.
Qed.

End RunFacts.

Lemma main_failure_leaves_sheet_witness :
  tabs (fst (main "shop.example" "token" "2025-01" "sheet" "Pedidos" 7
               "2024-01-01T00:00:00+00:00" demo_server plain_values (Ok tt)
               5 demo_world))
  = tabs demo_world
  /\ stdout (fst (main "shop.example" "token" "2025-01" "sheet" "Pedidos" 7
                    "2024-01-01T00:00:00+00:00" demo_server plain_values (Ok tt)
                    5 demo_world))
     = stdout demo_world.
Proof.
  apply (main_failure_leaves_sheet "shop.example" "token" "2025-01" "sheet"
           "Pedidos" 7 "2024-01-01T00:00:00+00:00" demo_server plain_values
           (Ok tt) 5 demo_world _
           (Some (Raise (RuntimeError "Shopify 500: Internal Server Error")))).
  - vm_compute. reflexivity.
  - discriminate.
Defined.

Lemma main_success_witness :
  exists (orders : list value) (rows : list row) (w1 : world),
    fetch_all_orders "shop.example" "token" "2025-01" single_server 5
      "any" 250 (Some "2024-01-01T00:00:00+00:00") demo_world
    = (w1, Some (Ok orders))
    /\ orders_to_rows orders = Ok rows
    /\ List.length rows = List.length orders
    /\ sent (fst (main "shop.example" "token" "2025-01" "sheet" "Nuevo" 7
                    "2024-01-01T00:00:00+00:00" single_server plain_values
                    (Ok tt) 5 demo_world)) = sent w1
    /\ tab_cells "Nuevo"
         (tabs (fst (main "shop.example" "token" "2025-01" "sheet" "Nuevo" 7
                       "2024-01-01T00:00:00+00:00" single_server plain_values
                       (Ok tt) 5 demo_world)))
       = Some (plain_values rows)
    /\ (forall other : string,
          other <> "Nuevo" ->
          tab_cells other
            (tabs (fst (main "shop.example" "token" "2025-01" "sheet" "Nuevo" 7
                          "2024-01-01T00:00:00+00:00" single_server plain_values
                          (Ok tt) 5 demo_world)))
          = tab_cells other (tabs demo_world))
    /\ stdout (fst (main "shop.example" "token" "2025-01" "sheet" "Nuevo" 7
                      "2024-01-01T00:00:00+00:00" single_server plain_values
                      (Ok tt) 5 demo_world))
       = (stdout demo_world ++ [ok_line (List.length orders) "Nuevo" 7])%list.
Proof.
  apply (main_success "shop.example" "token" "2025-01" "sheet" "Nuevo" 7
           "2024-01-01T00:00:00+00:00" single_server plain_values (Ok tt)
           5 demo_world).
  vm_compute. reflexivity.
Defined.

(** ** Facts about the shop's domain *)

Lemma prefix_mem_count (c : ascii) (old s : string) :
  prefix old s = true -> mem_char c old = true -> (1 <= Str.count c s)%nat.
Proof.
  revert s. induction old as [|o old IH]; intros s; [discriminate 2|].
  destruct s as [|a s]; [discriminate|]. cbn [prefix mem_char].
  destruct (ascii_dec o a) as [->|]; [|discriminate].
  intros Hp. rewrite count_cons, orb_true_iff. intros [Hc | Hc].
  - rewrite Hc. lia.
  - specialize (IH _ Hp Hc). lia.
Qed.

(** A pattern with a character that the text lacks is never replaced. *)
Lemma replace_from_absent (c : ascii) (old new s : string) :
  mem_char c old = true -> Str.count c s = O ->
  Str.replace_from old new O s = s.
Proof.
  intros Hc. induction s as [|a s IH]; [reflexivity|].
  intros H. cbn [Str.replace_from].
  destruct (prefix old (String a s)) eqn:E.
  - apply (prefix_mem_count c) in E; [lia | exact Hc].
  - rewrite IH; [reflexivity|]. rewrite count_cons in H. lia.
Qed.

Lemma lstrip_char_run (c : ascii) (n : nat) (s : string) :
  lstrip_char c (repeat_char c n ++ s) = lstrip_char c s.
Proof.
  induction n as [|n IH]; [reflexivity|].
  cbn [repeat_char append lstrip_char]. now rewrite Ascii.eqb_refl.
Qed.

Lemma lstrip_char_head (c a : ascii) (r : string) :
  Ascii.eqb a c = false -> lstrip_char c (String a r) = String a r.
Proof. intros H. cbn [lstrip_char]. now rewrite H. Qed.

Lemma rev_repeat_char (c : ascii) (n : nat) :
  Str.rev (repeat_char c n) = repeat_char c n.
Proof.
  induction n as [|n IH]; [reflexivity|].
  cbn [repeat_char]. rewrite str_rev_cons, IH.
  clear IH. induction n as [|n IH]; [reflexivity|].
  cbn [repeat_char append]. now rewrite IH.
Qed.

Lemma strip_char_run (c : ascii) (n : nat) (host : string) :
  host <> EmptyString -> all_chars (fun a => negb (Ascii.eqb a c)) host = true ->
  strip_char c (host ++ repeat_char c n) = host.
Proof.
  intros Hne Hh. unfold strip_char.
  destruct (all_chars_head _ _ Hne Hh) as (a & m & Ex & Ha).
  apply negb_true_iff in Ha.
  rewrite Ex at 1. cbn [append]. rewrite (lstrip_char_head _ _ _ Ha).
  change (String a (m ++ repeat_char c n)) with (String a m ++ repeat_char c n).
  rewrite <- Ex, str_rev_app, rev_repeat_char, lstrip_char_run.
  assert (Hr : all_chars (fun a => negb (Ascii.eqb a c)) (Str.rev host) = true)
    by (now rewrite all_chars_rev).
  destruct (all_chars_head _ _ (rev_nonempty _ Hne) Hr) as (z & m' & Er & Hz).
  apply negb_true_iff in Hz.
  rewrite Er, (lstrip_char_head _ _ _ Hz), <- Er. apply str_rev_involutive.
Qed.

Lemma host_chars_printable (s : string) :
  all_chars host_char s = true -> all_chars printable s = true.
Proof.
  apply all_chars_weaken. intros c. unfold host_char.
  rewrite !andb_true_iff. tauto.
Qed.

Lemma host_chars_no_slash (s : string) :
  all_chars host_char s = true ->
  all_chars (fun a => negb (Ascii.eqb a "/")) s = true.
Proof.
  apply all_chars_weaken. intros c. unfold host_char.
  rewrite !andb_true_iff. tauto.
Qed.

Lemma host_chars_no_colon (s : string) :
  all_chars host_char s = true -> Str.count ":" s = O.
Proof.
  induction s as [|a s IH]; [reflexivity|].
  cbn [all_chars]. unfold host_char at 1.
  rewrite !andb_true_iff, !negb_true_iff, count_cons.
  intros [[[_ _] Hc] Hs]. now rewrite Hc, (IH Hs).
Qed.

Lemma repeat_slash_no_colon (n : nat) : Str.count ":" (repeat_char "/" n) = O.
Proof. induction n as [|n IH]; [reflexivity | exact IH]. Qed.

Lemma repeat_slash_printable (n : nat) :
  all_chars printable (repeat_char "/" n) = true.
Proof. induction n as [|n IH]; [reflexivity | exact IH]. Qed.

Lemma prefix_empty (y : string) : prefix EmptyString y = true.
Proof. now destruct y. Qed.

Lemma replace_schemes (scheme y : string) :
  scheme = EmptyString \/ scheme = "http://" \/ scheme = "https://" ->
  Str.count ":" y = O ->
  Str.replace "http://" EmptyString
    (Str.replace "https://" EmptyString (scheme ++ y)) = y.
Proof.
  intros Hs Hy.
  assert (H1 : Str.replace_from "https://" EmptyString O y = y)
    by (now apply (replace_from_absent ":")).
  assert (H2 : Str.replace_from "http://" EmptyString O y = y)
    by (now apply (replace_from_absent ":")).
  unfold Str.replace.
  destruct Hs as [-> | [-> | ->]]; cbn [append].
  - now rewrite H1, H2.
  - assert (E : Str.replace_from "https://" EmptyString O
                  (String "h" (String "t" (String "t" (String "p" (String ":"
                     (String "/" (String "/" y)))))))
                = String "h" (String "t" (String "t" (String "p" (String ":"
                     (String "/" (String "/" y))))))).
    { cbn. rewrite ?prefix_empty. now rewrite H1. }
    rewrite E. cbn. rewrite ?prefix_empty. exact H2.
  - cbn. rewrite ?prefix_empty. now rewrite H1, H2.
Qed.

(** However the domain is given (bare, or with [http://] or [https://] in
    front, with slashes at its end and spaces around it), [SHOP_DOMAIN] is
    the bare host, and [BASE_URL] is [https://], the host, [/admin/api/]
    and the API version. *)
Theorem shop_domain_is_bare_host :
  forall (pad1 pad2 scheme host version : string) (n : nat),
    all_chars (Ascii.eqb " ") pad1 = true ->
    all_chars (Ascii.eqb " ") pad2 = true ->
    scheme = EmptyString \/ scheme = "http://" \/ scheme = "https://" ->
    host <> EmptyString ->
    all_chars host_char host = true ->
    shop_domain (pad1 ++ (scheme ++ host ++ repeat_char "/" n) ++ pad2) = host
    /\ BASE_URL
         (shop_domain (pad1 ++ (scheme ++ host ++ repeat_char "/" n) ++ pad2))
         version
       = "https://" ++ host ++ "/admin/api/" ++ version.
Proof.
  intros pad1 pad2 scheme host version n H1 H2 Hs Hne Hh.
  assert (E : shop_domain (pad1 ++ (scheme ++ host ++ repeat_char "/" n) ++ pad2)
              = host).
  { unfold shop_domain. rewrite strip_padded; try assumption.
    - rewrite replace_schemes; [|exact Hs|].
      + apply strip_char_run; [exact Hne | now apply host_chars_no_slash].
      + now rewrite count_app, host_chars_no_colon, repeat_slash_no_colon.
    - destruct scheme; [|discriminate]. destruct host; [congruence | discriminate].
    - rewrite !all_chars_app, (host_chars_printable _ Hh), repeat_slash_printable.
      now destruct Hs as [-> | [-> | ->]]. }
  split; [exact E|]. now rewrite E.
Qed.

Lemma shop_domain_is_bare_host_witness :
  shop_domain (" " ++ ("https://" ++ "mi-tienda.myshopify.com" ++ repeat_char "/" 2)
               ++ "  ")
  = "mi-tienda.myshopify.com"
  /\ BASE_URL
       (shop_domain (" " ++ ("https://" ++ "mi-tienda.myshopify.com"
                             ++ repeat_char "/" 2) ++ "  "))
       "2025-01"
     = "https://" ++ "mi-tienda.myshopify.com" ++ "/admin/api/" ++ "2025-01".
Proof.
  apply (shop_domain_is_bare_host " " "  " "https://" "mi-tienda.myshopify.com"
           "2025-01" 2);
    [reflexivity | reflexivity | right; right; reflexivity | discriminate
     | reflexivity].
Defined.
